(** * Reconciliation logic of the [jm1.openstack] modules

    A shallow embedding of [plugins/modules/floating_ip.py] and
    [plugins/modules/image_import.py].  Python values that may be [None]
    are options, dictionaries are [gmap]s keyed by strings, and every call
    that leaves the module (cloud SDK, local file system, HTTP fetch,
    Ansible helpers) is an effect answered by a [Host] and recorded in a
    trace. *)

From stdpp Require Import base strings pretty gmap list.
From Stdlib Require Import Ascii ZArith Lia.

(** ** Python values *)

Inductive PyVal :=
| VNone
| VBool (b : bool)
| VInt (z : Z)
| VStr (s : string).

#[global] Instance PyVal_eq_dec : EqDecision PyVal.
Proof. solve_decision. Defined.

(** A [str] parameter of an Ansible module is a string or [None]. *)
Abbreviation pystr := (option string).

Definition of_str (o : pystr) : PyVal :=
  match o with Some s => VStr s | None => VNone end.

Definition of_int (o : option Z) : PyVal :=
  match o with Some z => VInt z | None => VNone end.

(** Truth value of a string or [None]: only a non-empty string is true. *)
Definition truthy (o : pystr) : bool :=
  match o with
  | Some (String _ _) => true
  | _ => false
  end.

(** [a if a else b] *)
Definition py_or (a b : pystr) : pystr := if truthy a then a else b.

(** ['%s' % o] *)
Definition pyfmt (o : pystr) : string :=
  match o with Some s => s | None => "None" end.

(** [x in [a, b, ...]] on strings-or-None, compared with [==]. *)
Definition py_in (x : pystr) (l : list pystr) : bool :=
  existsb (fun y => bool_decide (x = y)) l.

(** [dict(k1=v1, ...)] *)
Definition dict (l : list (string * PyVal)) : gmap string PyVal := list_to_map l.

(** ** String primitives *)

(** [s.rfind(c)]: index of the last occurrence of [c], or [-1]. *)
Fixpoint str_rfind (c : ascii) (s : string) : Z :=
  match s with
  | EmptyString => (-1)%Z
  | String a r =>
      let k := str_rfind c r in
      if (0 <=? k)%Z then (k + 1)%Z
      else if bool_decide (a = c) then 0%Z else (-1)%Z
  end.

(** [s[n:]] and [s[:n]] for [0 <= n]. *)
Fixpoint str_drop (n : nat) (s : string) : string :=
  match n, s with
  | O, _ => s
  | S n', String _ r => str_drop n' r
  | S _, EmptyString => EmptyString
  end.

Fixpoint str_take (n : nat) (s : string) : string :=
  match n, s with
  | S n', String a r => String a (str_take n' r)
  | _, _ => EmptyString
  end.

(** [s[i:i+1]] *)
Definition str_at (i : nat) (s : string) : string := str_take 1 (str_drop i s).

Definition str_startswith (c : ascii) (s : string) : bool :=
  match s with String a _ => bool_decide (a = c) | EmptyString => false end.

Fixpoint str_endswith (c : ascii) (s : string) : bool :=
  match s with
  | EmptyString => false
  | String a EmptyString => bool_decide (a = c)
  | String _ r => str_endswith c r
  end.

(** [s.split(sep, 1)]: at most one split, at the first separator. *)
Fixpoint str_split1 (sep : ascii) (s : string) : list string :=
  match s with
  | EmptyString => [EmptyString]
  | String a r =>
      if bool_decide (a = sep) then [EmptyString; r]
      else match str_split1 sep r with
           | x :: rest => String a x :: rest
           | [] => []
           end
  end.

(** ** [os.path] (POSIX flavour) *)

(** [posixpath.basename]: [i = p.rfind('/') + 1; return p[i:]]. *)
Definition os_path_basename (p : string) : string :=
  let i := (str_rfind "/"%char p + 1)%Z in
  str_drop (Z.to_nat i) p.

(** The loop of [genericpath._splitext] that skips the leading dots of the
    last path component; [fuel] bounds its iterations. *)
Fixpoint splitext_scan (fuel : nat) (p : string) (filenameIndex dotIndex : nat)
  : option (string * string) :=
  match fuel with
  | O => None
  | S fuel' =>
      if bool_decide (filenameIndex < dotIndex)%nat then
        if bool_decide (str_at filenameIndex p <> ".")
        then Some (str_take dotIndex p, str_drop dotIndex p)
        else splitext_scan fuel' p (S filenameIndex) dotIndex
      else None
  end.

(** [posixpath.splitext]. *)
Definition os_path_splitext (p : string) : string * string :=
  let sepIndex := str_rfind "/"%char p in
  let dotIndex := str_rfind "."%char p in
  if (sepIndex <? dotIndex)%Z then
    let filenameIndex := Z.to_nat (sepIndex + 1) in
    match splitext_scan (Z.to_nat dotIndex) p filenameIndex (Z.to_nat dotIndex) with
    | Some r => r
    | None => (p, EmptyString)
    end
  else (p, EmptyString).

(** [posixpath.join(a, b)]. *)
Definition os_path_join (a b : string) : string :=
  if str_startswith "/"%char b then b
  else if bool_decide (a = EmptyString) || str_endswith "/"%char a then a +:+ b
  else a +:+ "/" +:+ b.

(** ** [re.findall("filename=(.+)", cd)] *)

Definition newline : ascii := Ascii.ascii_of_nat 10.

(** The longest prefix without a line break: what [.+] can match. *)
Fixpoint line_prefix (s : string) : string :=
  match s with
  | EmptyString => EmptyString
  | String a r => if bool_decide (a = newline) then EmptyString else String a (line_prefix r)
  end.

(** Scan left to right; [skip] characters belong to the previous match. *)
Fixpoint findall_filename (skip : nat) (s : string) : list string :=
  match s with
  | EmptyString => []
  | String _ r =>
      match skip with
      | S k => findall_filename k r
      | O =>
          if String.prefix "filename=" s then
            match line_prefix (str_drop 9 s) with
            | EmptyString => findall_filename 0 r
            | g => g :: findall_filename (8 + String.length g) r
            end
          else findall_filename 0 r
      end
  end.

Definition re_findall_filename (cd : string) : list string := findall_filename 0 cd.

(** ** Records of the cloud inventory *)

Record Project := { prj_id : pystr; prj_name : pystr }.
Record Network := { net_id : pystr; net_name : pystr }.
Record FloatingIP := { fip_floating_ip_address : pystr }.
Record Image := {
  img_id : pystr;
  img_name : pystr;
  img_size : option Z;
  img_disk_format : pystr
}.

(** The HTTP response handed back by [open_url]. *)
Record Response := { getheader : string -> pystr }.

(** The two fields of [urlsplit(uri)] that the module reads. *)
Record SplitResult := { scheme : string; path : string }.

(** ** Exceptions *)

Inductive Exn :=
| ValueError (msg : string)
| PyException (msg : string)          (* raise Exception(msg) *)
| TypeError (msg : string)
| IndexError
| AssertionError
| UnboundLocalError (var : string)
| FailJson (msg : string)             (* module.fail_json(msg=...) leaves the process *)
| CollaboratorError (err : string).   (* raised inside a collaborator *)

(** ** Calls that leave the module *)

Inductive Call : Type -> Type :=
| cloud_current_project : Call Project
| cloud_get_project (name_or_id : pystr) : Call (option Project)
| cloud_search_networks (name_or_id : pystr) (filters : option (gmap string PyVal))
  : Call (list Network)
| cloud_search_floating_ips (filters : gmap string PyVal) : Call (list FloatingIP)
| cloud_network_create_ip (floating_ip_address floating_network_id tenant_id : pystr)
    (timeout : Z) (wait : bool) : Call FloatingIP
| cloud_network_delete_ip (floating_ip : FloatingIP) (ignore_missing : bool) : Call unit
| cloud_get_image (name_or_id : pystr) : Call (option Image)
| cloud_create_image (name : pystr) (filename : string) (disk_format : pystr)
    (wait : bool) (timeout : Z) (kwargs : gmap string PyVal) : Call Image
| cloud_delete_image (name_or_id : pystr) (wait : bool) (timeout : Z) : Call unit
| os_path_exists (path : string) : Call bool
| os_path_getsize (path : string) : Call Z
| module_digest_from_file (path : string) (algorithm : pystr) : Call pystr
| module_log (msg : string) : Call unit
| tempfile_TemporaryDirectory : Call string
| tempfile_cleanup (dir : string) : Call unit
| open_url (uri : string) : Call Response
| response_close (r : Response) : Call unit
| shutil_copyfileobj (r : Response) (local_image_path : string) : Call unit.

(** What a collaborator answers: a value, or a failure of its own. *)
Inductive Reply (X : Type) :=
| Returned (x : X)
| Failed (err : string).
Arguments Returned {X} x.
Arguments Failed {X} err.

Definition replied {X} (r : Reply X) : bool :=
  match r with Returned _ => true | Failed _ => false end.

(** One entry of the trace: the call and whether it returned. *)
Inductive Event :=
| Ev : forall {X : Type}, Call X -> bool -> Event.

(** The environment a module runs in.  [W] is the state of the outside
    world (cloud inventory, file system, remote servers); [handle] answers
    a call and moves the world on.  [urlsplit] is the URL parser of the
    interpreter, whose grammar differs between Python versions. *)
Record Host (W : Type) := {
  handle : forall X, Call X -> W -> (Reply X * W)%type;
  urlsplit : string -> SplitResult
}.
Arguments handle {W} _ {X} _ _.
Arguments urlsplit {W} _ _.

(** ** The monad of a module run: world and trace, or an exception *)

Definition M (W A : Type) : Type := W * list Event -> (Exn + A) * (W * list Event).

Definition ret {W A} (a : A) : M W A := fun s => (inr a, s).

Definition raise {W A} (e : Exn) : M W A := fun s => (inl e, s).

Definition bind {W A B} (m : M W A) (k : A -> M W B) : M W B :=
  fun s =>
    match m s with
    | (inr a, s') => k a s'
    | (inl e, s') => (inl e, s')
    end.

Notation "'let*' x := m 'in' k" := (bind m (fun x => k))
  (at level 10, x pattern, m at level 200, k at level 200).

(** A call whose failure propagates as an exception. *)
Definition call {W X} (host : Host W) (c : Call X) : M W X :=
  fun s =>
    let '(w, tr) := s in
    let '(r, w') := handle host c w in
    (match r with
     | Returned x => inr x
     | Failed err => inl (CollaboratorError err)
     end, (w', tr ++ [Ev c (replied r)])).

(** [module.log(msg)]: for a message that is a string it returns [None]
    whatever the logging back end does, so the reply of the host is
    recorded and the run goes on. *)
Definition tell {W} (host : Host W) (c : Call unit) : M W unit :=
  fun s =>
    let '(w, tr) := s in
    let '(r, w') := handle host c w in
    (inr tt, (w', tr ++ [Ev c (replied r)])).

(** [with enter as x: body]: [leave x], the [__exit__] of the context
    manager, runs however [body] ends; an exception it raises is the
    outcome of the statement, otherwise the outcome of [body] is. *)
Definition with_ {W A B} (enter : M W A) (leave : A -> M W unit) (body : A -> M W B)
  : M W B :=
  fun s =>
    match enter s with
    | (inl e, s1) => (inl e, s1)
    | (inr a, s1) =>
        let '(r, s2) := body a s1 in
        match leave a s2 with
        | (inl e, s3) => (inl e, s3)
        | (inr _, s3) => (r, s3)
        end
    end.

(** [l[0]] *)
Definition first_item {W A} (l : list A) : M W A :=
  match l !! 0%nat with
  | Some x => ret x
  | None => raise IndexError
  end.

(** A step without effects that may raise. *)
Definition lift {W A} (r : Exn + A) : M W A :=
  match r with
  | inr a => ret a
  | inl e => raise e
  end.

(** * [plugins/modules/floating_ip.py] *)

Module floating_ip.

Record Params := {
  floating_ip_address : pystr;
  floating_network_name : pystr;
  project_name : pystr;
  state : string;
  timeout : Z;
  wait : bool
}.

Record AnsibleModule := { params : Params; check_mode : bool }.

(** What [allocate] and [release] return:
    [changed, floating_ip_address, network.name, network.id, project.name, project.id]. *)
Definition Outcome : Type := bool * pystr * pystr * pystr * pystr * pystr.

Section floating_ip.
Context {W : Type} (host : Host W).

(** The project record of the session is a non-empty mapping, hence
    true in [if not project]; a project that [cloud.get_project] does not
    find is [None]. *)
Definition get_project (name_or_id : pystr) : M W Project :=
  let* project :=
    if negb (truthy name_or_id) then
      let* cp := call host cloud_current_project in ret (Some cp)
    else
      let* cp1 := call host cloud_current_project in
      let* cp2 := call host cloud_current_project in
      if py_in name_or_id [prj_name cp1; prj_id cp2] then
        let* cp := call host cloud_current_project in ret (Some cp)
      else call host (cloud_get_project name_or_id) in
  match project with
  | None => raise (ValueError ("Project " +:+ pyfmt name_or_id +:+ " does not exist"))
  | Some p => ret p
  end.

Definition get_network (name_or_id project_id : pystr) : M W Network :=
  let* networks :=
    call host (cloud_search_networks name_or_id
                 (if truthy project_id
                  then Some (dict [("tenant_id", of_str project_id)])
                  else None)) in
  if bool_decide (networks = []) || bool_decide (1 < length networks)%nat then
    raise (ValueError ("Network " +:+ pyfmt name_or_id +:+ " is invalid or ambiguous"))
  else first_item networks.

Definition allocate (floating_ip_address floating_network_name project_name : pystr)
    (state : string) (timeout : Z) (wait : bool) : M W Outcome :=
  let* project := get_project project_name in
  let* network := get_network floating_network_name (prj_id project) in
  let fip_filters :=
    dict [("network", of_str (net_id network)); ("tenant_id", of_str (prj_id project))] in
  let fip_filters :=
    if truthy floating_ip_address
    then <["floating_ip_address" := of_str floating_ip_address]> fip_filters
    else fip_filters in
  let* fips := call host (cloud_search_floating_ips fip_filters) in
  match fips with
  | fip0 :: _ =>
      (* floating ip already exists *)
      ret (false, fip_floating_ip_address fip0, net_name network, net_id network,
           prj_name project, prj_id project)
  | [] =>
      let* fip :=
        call host (cloud_network_create_ip floating_ip_address (net_id network)
                     (prj_id project) timeout wait) in
      ret (true, fip_floating_ip_address fip, net_name network, net_id network,
           prj_name project, prj_id project)
  end.

Definition release (floating_ip_address floating_network_name project_name : pystr)
    (state : string) (timeout : Z) (wait : bool) : M W Outcome :=
  let* project := get_project project_name in
  let* network := get_network floating_network_name (prj_id project) in
  let* fips :=
    call host (cloud_search_floating_ips
                 (dict [("floating_ip_address", of_str floating_ip_address);
                        ("network", of_str (net_id network));
                        ("tenant_id", of_str (prj_id project))])) in
  if bool_decide (fips = []) then
    (* floating ip absent already *)
    ret (false, floating_ip_address, net_name network, net_id network,
         prj_name project, prj_id project)
  else if negb (bool_decide (length fips = 1%nat)) then
    raise AssertionError
  else if bool_decide (1 < length fips)%nat then
    raise (ValueError ("Floating ip address " +:+ pyfmt floating_ip_address
                       +:+ " is ambiguous"))
  else
    let* fip := first_item fips in
    let* _ := call host (cloud_network_delete_ip fip false) in
    ret (true, fip_floating_ip_address fip, net_name network, net_id network,
         prj_name project, prj_id project).

Definition core (module : AnsibleModule) : M W (gmap string PyVal) :=
  let floating_ip_address := floating_ip_address (params module) in
  let floating_network_name := floating_network_name (params module) in
  let project_name := project_name (params module) in
  let state := state (params module) in
  let timeout := timeout (params module) in
  let wait := wait (params module) in
  if check_mode module then
    ret (dict [("changed", VBool false);
               ("floating_ip_address", of_str floating_ip_address);
               ("floating_network_name", of_str floating_network_name);
               ("project_name", of_str project_name);
               ("state", VStr state);
               ("timeout", VInt timeout);
               ("wait", VBool wait)])
  else
    let* (changed, floating_ip_address, floating_network_name, floating_network_id,
           project_name, project_id) :=
      if bool_decide (state = "present") then
        allocate floating_ip_address floating_network_name project_name state timeout wait
      else if bool_decide (state = "absent") then
        release floating_ip_address floating_network_name project_name state timeout wait
      else raise (UnboundLocalError "changed") in
    ret (dict [("changed", VBool changed);
               ("floating_ip_address", of_str floating_ip_address);
               ("floating_network_name", of_str floating_network_name);
               ("floating_network_id", of_str floating_network_id);
               ("project_name", of_str project_name);
               ("project_id", of_str project_id);
               ("state", VStr state);
               ("timeout", VInt timeout);
               ("wait", VBool wait)]).

End floating_ip.
End floating_ip.

(** * [plugins/modules/image_import.py] *)

Module image_import.

Record Params := {
  checksum : pystr;
  format : pystr;
  id : pystr;
  name : pystr;
  state : string;
  timeout : Z;
  uri : pystr;
  wait : bool
}.

Record AnsibleModule := { params : Params; check_mode : bool }.

(** What [import_] and [delete] return: [changed, id, name, size, format]. *)
Definition Outcome : Type := bool * pystr * pystr * option Z * pystr.

Definition none_is_no_path : Exn :=
  TypeError "expected str, bytes or os.PathLike object, not NoneType".

(** [os.path.basename(uri)]; [None] is not a path. *)
Definition basename_of (uri : pystr) : Exn + string :=
  match uri with
  | Some u => inr (os_path_basename u)
  | None => inl none_is_no_path
  end.

(** The default of [format], written out in both branches of [import_]:
    [[
    if not format:
        format = os.path.splitext(name)[-1]
        if format and len(format) > 1:
            # remove leading dot
            format = format[1:]
    ]] *)
Definition default_format (format name : pystr) : Exn + pystr :=
  if negb (truthy format) then
    match name with
    | None => inl none_is_no_path
    | Some n =>
        let format := snd (os_path_splitext n) in
        if truthy (Some format) && bool_decide (1 < String.length format)%nat
        then inr (Some (str_drop 1 format))
        else inr (Some format)
    end
  else inr format.

(** [algorithm, checksum = checksum.split(':', 1)], guarded by
    [if checksum:]; a list that does not unpack into two names ends the
    run through [module.fail_json]. *)
Definition split_checksum (checksum : pystr) : Exn + (pystr * pystr) :=
  if truthy checksum then
    match str_split1 ":" (pyfmt checksum) with
    | [algorithm; checksum] => inr (Some algorithm, Some checksum)
    | _ => inl (FailJson "The checksum parameter has to be in format <algorithm>:<checksum>")
    end
  else inr (None, None).

(** ["%s:%s" % (algorithm, checksum) if checksum is not None else None] *)
Definition join_checksum (algorithm checksum : pystr) : PyVal :=
  match checksum with
  | Some c => VStr (pyfmt algorithm +:+ ":" +:+ c)
  | None => VNone
  end.

Section image_import.
Context {W : Type} (host : Host W).

(** [uri_scheme != 'file' and len(uri_scheme) > 0], with
    [uri_scheme = urlsplit(uri).scheme]; [urlsplit(None)] has an empty
    scheme. *)
Definition uri_is_url (uri : pystr) : bool :=
  let uri_scheme :=
    match uri with Some u => scheme (urlsplit host u) | None => EmptyString end in
  negb (bool_decide (uri_scheme = "file")) && bool_decide (0 < String.length uri_scheme)%nat.

Definition import_from_disk (algorithm checksum format id name : pystr) (state : string)
    (timeout : Z) (path : pystr) (wait : bool) : M W (pystr * option Z) :=
  (* Upload image to OpenStack image repository *)
  let* file :=
    match path with
    | Some p => ret p
    | None =>
        raise (TypeError
                 "stat: path should be string, bytes, os.PathLike or integer, not NoneType")
    end in
  let* found := call host (os_path_exists file) in
  if negb found then
    raise (PyException ("Image path " +:+ pyfmt path +:+ " does not exist"))
  else
  let* _ :=
    if truthy checksum then
      (* Verify image checksum *)
      let* checksum_on_disk := call host (module_digest_from_file file algorithm) in
      if negb (bool_decide (checksum = checksum_on_disk)) then
        raise (PyException ("Checksum mismatch " +:+ pyfmt checksum +:+ " != "
                            +:+ pyfmt checksum_on_disk))
      else ret tt
    else ret tt in
  let name_or_id := py_or id name in
  let* image := call host (cloud_get_image name_or_id) in
  match image with
  | Some _ =>
      (* Fail if image exists already *)
      raise (PyException ("image " +:+ pyfmt name_or_id +:+ " exists already"))
  | None =>
      let* size_on_disk := call host (os_path_getsize file) in
      let kwargs : gmap string PyVal := ∅ in
      let kwargs := if truthy id then <["id" := of_str id]> kwargs else kwargs in
      let kwargs :=
        if py_in algorithm [Some "md5"; Some "sha256"]
        then <[pyfmt algorithm := of_str checksum]> (<["validate_checksum" := VBool true]> kwargs)
        else kwargs in
      let* image := call host (cloud_create_image name file format wait timeout kwargs) in
      let* _ :=
        if negb (bool_decide (img_size image = Some size_on_disk)) then
          tell host (module_log ("[DEBUG] image size on disk is " +:+ pretty size_on_disk
                                 +:+ ", but the uploaded size is "
                                 +:+ match img_size image with
                                     | Some z => pretty z
                                     | None => "None"
                                     end))
        else ret tt in
      ret (img_id image, img_size image)
  end.

Definition import_ (algorithm checksum format id name : pystr) (state : string)
    (timeout : Z) (uri : pystr) (wait : bool) : M W Outcome :=
  match uri_is_url uri, uri with
  | true, Some u =>
      (* Download image from uri and upload image to OpenStack image repository *)
      with_ (call host tempfile_TemporaryDirectory)
            (fun dir => call host (tempfile_cleanup dir))
        (fun dir =>
           let* fetched :=
             with_ (call host (open_url u)) (fun r => call host (response_close r))
               (fun r =>
                  let filename : pystr := None in
                  let cd := getheader r "Content-Disposition" in
                  let filename :=
                    if truthy cd then head (re_findall_filename (pyfmt cd)) else filename in
                  let filename :=
                    if negb (truthy filename)
                    then Some (os_path_basename (path (urlsplit host u)))
                    else filename in
                  let filename := if negb (truthy filename) then name else filename in
                  let name := if negb (truthy name) then filename else name in
                  if negb (truthy filename) then
                    raise (ValueError "no name given and name could not be derived from uri")
                  else
                  let* format := lift (default_format format name) in
                  if negb (truthy format) then
                    raise (ValueError "no format given and format could not be derived from uri")
                  else
                  let name_or_id := py_or id name in
                  let* image := call host (cloud_get_image name_or_id) in
                  match image with
                  | Some image =>
                      (* image exists already *)
                      ret (inl (false, img_id image, img_name image, img_size image,
                                img_disk_format image))
                  | None =>
                      (* Download image *)
                      let local_image_path := os_path_join dir (pyfmt filename) in
                      let* _ := call host (shutil_copyfileobj r local_image_path) in
                      ret (inr (local_image_path, name, format))
                  end) in
           match fetched with
           | inl result => ret result
           | inr (local_image_path, name, format) =>
               let* (id, size) :=
                 import_from_disk algorithm checksum format id name state timeout
                   (Some local_image_path) wait in
               ret (true, id, name, size, format)
           end)
  | _, _ =>
      (* not uri_is_url *)
      let name_or_id := py_or id name in
      let* (name, name_or_id) :=
        if negb (truthy name_or_id) then
          let* name := lift (basename_of uri) in
          if negb (truthy (Some name)) then
            raise (ValueError
                     "no image name given and image name could not be derived from uri")
          else ret (Some name, Some name)
        else ret (name, name_or_id) in
      let* image := call host (cloud_get_image name_or_id) in
      match image with
      | Some image =>
          (* image exists already *)
          ret (false, img_id image, img_name image, img_size image, img_disk_format image)
      | None =>
          let* format := lift (default_format format name) in
          if negb (truthy format) then
            raise (ValueError
                     "no image format given and format could not be derived from uri")
          else
          let* (id, size) :=
            import_from_disk algorithm checksum format id name state timeout uri wait in
          ret (true, id, name, size, format)
      end
  end.

Definition delete (algorithm checksum format id name : pystr) (state : string)
    (timeout : Z) (uri : pystr) (wait : bool) : M W Outcome :=
  let name_or_id := py_or id name in
  let* (name, name_or_id) :=
    if negb (truthy name_or_id) then
      (* no id or name given *)
      if uri_is_url uri then
        raise (ValueError "name is required for deleting images if uri is given as an url")
      else
      let* name := lift (basename_of uri) in
      if negb (truthy (Some name)) then
        raise (ValueError "name is required for deleting images")
      else ret (Some name, Some name)
    else ret (name, name_or_id) in
  let* image := call host (cloud_get_image name_or_id) in
  match image with
  | None =>
      (* image absent already *)
      ret (false, id, name, None, None)
  | Some image =>
      let* _ := call host (cloud_delete_image name_or_id wait timeout) in
      ret (true, img_id image, img_name image, img_size image, img_disk_format image)
  end.

Definition core (module : AnsibleModule) : M W (gmap string PyVal) :=
  let checksum := checksum (params module) in
  let format := format (params module) in
  let id := id (params module) in
  let name := name (params module) in
  let state := state (params module) in
  let timeout := timeout (params module) in
  let uri := uri (params module) in
  let wait := wait (params module) in
  let* (algorithm, checksum) := lift (split_checksum checksum) in
  if check_mode module then
    ret (dict [("changed", VBool false);
               ("checksum", join_checksum algorithm checksum);
               ("format", of_str format);
               ("id", of_str id);
               ("name", of_str name);
               ("state", VStr state);
               ("timeout", VInt timeout);
               ("uri", of_str uri);
               ("wait", VBool wait)])
  else
    let* (changed, id, name, size, format) :=
      if bool_decide (state = "present") then
        import_ algorithm checksum format id name state timeout uri wait
      else if bool_decide (state = "absent") then
        delete algorithm checksum format id name state timeout uri wait
      else raise (UnboundLocalError "changed") in
    ret (dict [("changed", VBool changed);
               ("size", of_int size);
               ("checksum", join_checksum algorithm checksum);
               ("format", of_str format);
               ("id", of_str id);
               ("name", of_str name);
               ("state", VStr state);
               ("timeout", VInt timeout);
               ("uri", of_str uri);
               ("wait", VBool wait)]).

End image_import.
End image_import.

(** * A small cloud to run the modules on

    An inventory held in lists, a file table and a table of remote
    resources; [urlsplit_py3] follows [urllib.parse.urlsplit] of CPython 3
    on ASCII input: leading blanks and control characters are stripped and
    tabs and line breaks removed before the locator is split. *)

Module demo.

Fixpoint str_index (stop : ascii -> bool) (s : string) : nat :=
  match s with
  | EmptyString => 0
  | String a r => if stop a then 0 else S (str_index stop r)
  end.

Fixpoint str_all (f : ascii -> bool) (s : string) : bool :=
  match s with
  | EmptyString => true
  | String a r => f a && str_all f r
  end.

Fixpoint str_map (f : ascii -> ascii) (s : string) : string :=
  match s with
  | EmptyString => EmptyString
  | String a r => String (f a) (str_map f r)
  end.

Definition between (lo hi : nat) (a : ascii) : bool :=
  let n := nat_of_ascii a in (lo <=? n)%nat && (n <=? hi)%nat.

Definition is_alpha (a : ascii) : bool := between 65 90 a || between 97 122 a.

Definition is_scheme_char (a : ascii) : bool :=
  is_alpha a || between 48 57 a
  || bool_decide (a = "+"%char) || bool_decide (a = "-"%char) || bool_decide (a = "."%char).

Definition lower (a : ascii) : ascii :=
  if between 65 90 a then ascii_of_nat (nat_of_ascii a + 32) else a.

(** [s.lstrip(chars)] and the removal of characters, by predicate. *)
Fixpoint str_lstrip (f : ascii -> bool) (s : string) : string :=
  match s with
  | EmptyString => EmptyString
  | String a r => if f a then str_lstrip f r else s
  end.

Fixpoint str_remove (f : ascii -> bool) (s : string) : string :=
  match s with
  | EmptyString => EmptyString
  | String a r => if f a then str_remove f r else String a (str_remove f r)
  end.

(** The characters [urlsplit] strips on the left, and those it removes
    wherever they stand (tab, line feed, carriage return). *)
Definition is_c0_control_or_space (a : ascii) : bool := (nat_of_ascii a <=? 32)%nat.

Definition is_unsafe_url_byte (a : ascii) : bool :=
  let n := nat_of_ascii a in (n =? 9)%nat || (n =? 10)%nat || (n =? 13)%nat.

Definition urlsplit_py3 (url : string) : SplitResult :=
  let url := str_lstrip is_c0_control_or_space url in
  let url := str_remove is_unsafe_url_byte url in
  let i := str_index (fun a => bool_decide (a = ":"%char)) url in
  let '(sch, url) :=
    if bool_decide (0 < i < String.length url)%nat
       && str_all is_alpha (str_take 1 url)
       && str_all is_scheme_char (str_take i url)
    then (str_map lower (str_take i url), str_drop (S i) url)
    else (EmptyString, url) in
  let url :=
    if String.prefix "//" url then
      let rest := str_drop 2 url in
      str_drop (str_index (fun a => bool_decide (a = "/"%char) || bool_decide (a = "?"%char)
                                    || bool_decide (a = "#"%char)) rest) rest
    else url in
  let url := str_take (str_index (fun a => bool_decide (a = "#"%char)) url) url in
  let url := str_take (str_index (fun a => bool_decide (a = "?"%char)) url) url in
  {| scheme := sch; path := url |}.

Record File := { file_digest : string; file_size : Z }.

Record World := {
  current : Project;
  projects : list Project;
  networks : list Network;
  floating_ips : list FloatingIP;
  images : list Image;
  files : list (string * File);
  remote : list (string * pystr)   (* URL and its Content-Disposition header *)
}.

Definition named (k : pystr) (ident label : pystr) : bool :=
  bool_decide (k = ident) || bool_decide (k = label).

Fixpoint assoc {A} (k : string) (l : list (string * A)) : option A :=
  match l with
  | [] => None
  | (k', a) :: l' => if bool_decide (k = k') then Some a else assoc k l'
  end.

Definition with_images (w : World) (l : list Image) : World :=
  {| current := current w; projects := projects w; networks := networks w;
     floating_ips := floating_ips w; images := l; files := files w; remote := remote w |}.

Definition with_floating_ips (w : World) (l : list FloatingIP) : World :=
  {| current := current w; projects := projects w; networks := networks w;
     floating_ips := l; images := images w; files := files w; remote := remote w |}.

Definition with_files (w : World) (l : list (string * File)) : World :=
  {| current := current w; projects := projects w; networks := networks w;
     floating_ips := floating_ips w; images := images w; files := l; remote := remote w |}.

Definition answer {X} (c : Call X) (w : World) : Reply X * World :=
  match c in Call X return Reply X * World with
  | cloud_current_project => (Returned (current w), w)
  | cloud_get_project k =>
      (Returned (find (fun p => named k (prj_id p) (prj_name p)) (projects w)), w)
  | cloud_search_networks k _ =>
      (Returned (filter (fun n => named k (net_id n) (net_name n) = true) (networks w)), w)
  | cloud_search_floating_ips filters =>
      (Returned
         (match filters !! "floating_ip_address" with
          | Some v =>
              filter (fun f => of_str (fip_floating_ip_address f) = v) (floating_ips w)
          | None => floating_ips w
          end), w)
  | cloud_network_create_ip a _ _ _ _ =>
      let fip := {| fip_floating_ip_address := py_or a (Some "203.0.113.7") |} in
      (Returned fip, with_floating_ips w (floating_ips w ++ [fip]))
  | cloud_network_delete_ip fip _ =>
      (Returned tt,
       with_floating_ips w
         (filter (fun f => fip_floating_ip_address f <> fip_floating_ip_address fip)
            (floating_ips w)))
  | cloud_get_image k =>
      (Returned (find (fun i => named k (img_id i) (img_name i)) (images w)), w)
  | cloud_create_image n file fmt _ _ kwargs =>
      let img :=
        {| img_id := match kwargs !! "id" with
                     | Some (VStr i) => Some i
                     | _ => Some "1961709b-64c0"
                     end;
           img_name := n;
           img_size := file_size <$> assoc file (files w);
           img_disk_format := fmt |} in
      (Returned img, with_images w (images w ++ [img]))
  | cloud_delete_image k _ _ =>
      (Returned tt,
       with_images w (filter (fun i => named k (img_id i) (img_name i) = false) (images w)))
  | os_path_exists p => (Returned (bool_decide (is_Some (assoc p (files w)))), w)
  | os_path_getsize p =>
      (match assoc p (files w) with
       | Some f => Returned (file_size f)
       | None => Failed "No such file or directory"
       end, w)
  | module_digest_from_file p _ => (Returned (file_digest <$> assoc p (files w)), w)
  | module_log _ => (Returned tt, w)
  | tempfile_TemporaryDirectory => (Returned "/tmp/tmpk3x", w)
  | tempfile_cleanup _ => (Returned tt, w)
  | open_url u =>
      (match assoc u (remote w) with
       | Some cd =>
           Returned {| getheader := fun h =>
                         if bool_decide (h = "Content-Disposition") then cd else None |}
       | None => Failed "HTTP Error 404: Not Found"
       end, w)
  | response_close _ => (Returned tt, w)
  | shutil_copyfileobj _ p =>
      (Returned tt, with_files w ((p, {| file_digest := "00f76f2f"; file_size := 536392192 |})
                                    :: files w))
  end.

Definition host : Host World := {| handle := @answer; urlsplit := urlsplit_py3 |}.

Definition devstack : Project := {| prj_id := Some "0ebadc92"; prj_name := Some "devstack" |}.
Definition ext_net : Network := {| net_id := Some "1cface92"; net_name := Some "ext_net" |}.
Definition debian : Image :=
  {| img_id := Some "7a3f"; img_name := Some "debian"; img_size := Some 536392192%Z;
     img_disk_format := Some "qcow2" |}.

Definition world : World :=
  {| current := devstack;
     projects := [devstack];
     networks := [ext_net];
     floating_ips := [{| fip_floating_ip_address := Some "203.0.113.2" |}];
     images := [debian];
     files := [("/srv/images/debian-10.qcow2",
                {| file_digest := "00f76f2f"; file_size := 536392192 |});
               ("/srv/images/cirros", {| file_digest := "c0ffee"; file_size := 1024 |});
               ("/srv/images/.qcow2", {| file_digest := "abcd"; file_size := 2048 |});
               ("/srv/images/snapshot.", {| file_digest := "beef"; file_size := 4096 |})];
     remote := [("https://example.com/debian", None);
                ("https://example.com/debian-10.4.2.qcow2", None)] |}.

End demo.

(** * Vocabulary of the specification *)

(** The parameters of a floating IP request as a check-mode run reports
    them. *)
Definition floating_ip_echo (p : floating_ip.Params) : gmap string PyVal :=
  dict [("changed", VBool false);
        ("floating_ip_address", of_str (floating_ip.floating_ip_address p));
        ("floating_network_name", of_str (floating_ip.floating_network_name p));
        ("project_name", of_str (floating_ip.project_name p));
        ("state", VStr (floating_ip.state p));
        ("timeout", VInt (floating_ip.timeout p));
        ("wait", VBool (floating_ip.wait p))].

(** The parameters of an image request, with [checksum] reported as given
    separately. *)
Definition image_echo (p : image_import.Params) (checksum : PyVal) : gmap string PyVal :=
  dict [("changed", VBool false);
        ("checksum", checksum);
        ("format", of_str (image_import.format p));
        ("id", of_str (image_import.id p));
        ("name", of_str (image_import.name p));
        ("state", VStr (image_import.state p));
        ("timeout", VInt (image_import.timeout p));
        ("uri", of_str (image_import.uri p));
        ("wait", VBool (image_import.wait p))].

(** The message of the checksum guard in [image_import.core]. *)
Definition checksum_format_message : string :=
  "The checksum parameter has to be in format <algorithm>:<checksum>".

(** ** Requests used as examples *)

Definition dry_run_release : floating_ip.AnsibleModule :=
  {| floating_ip.params :=
       {| floating_ip.floating_ip_address := Some "203.0.113.2";
          floating_ip.floating_network_name := Some "ext_net";
          floating_ip.project_name := None;
          floating_ip.state := "absent";
          floating_ip.timeout := 180;
          floating_ip.wait := true |};
     floating_ip.check_mode := true |}.

Definition image_request (checksum format id name : pystr) (state : string) (uri : pystr)
    (check : bool) : image_import.AnsibleModule :=
  {| image_import.params :=
       {| image_import.checksum := checksum;
          image_import.format := format;
          image_import.id := id;
          image_import.name := name;
          image_import.state := state;
          image_import.timeout := 180;
          image_import.uri := uri;
          image_import.wait := true |};
     image_import.check_mode := check |}.

Definition dry_run_import : image_import.AnsibleModule :=
  image_request (Some "sha256:00f76f2f") None None None "present"
    (Some "https://example.com/debian-10.4.2.qcow2") true.

Definition dry_run_bad_checksum : image_import.AnsibleModule :=
  image_request (Some "00f76f2f") None None None "present"
    (Some "https://example.com/debian-10.4.2.qcow2") true.

(** ** Floating IP vocabulary *)

(** The tenant filter of a network lookup: present only for a project id. *)
Definition tenant_filter (project_id : pystr) : option (gmap string PyVal) :=
  if truthy project_id then Some (dict [("tenant_id", of_str project_id)]) else None.

(** The filter {network, project, address?} of an allocation. *)
Definition allocate_filters (network : Network) (project : Project) (address : pystr)
  : gmap string PyVal :=
  let scope :=
    dict [("network", of_str (net_id network)); ("tenant_id", of_str (prj_id project))] in
  if truthy address then <["floating_ip_address" := of_str address]> scope else scope.

(** The filter {address, network, project} of a release. *)
Definition release_filters (network : Network) (project : Project) (address : pystr)
  : gmap string PyVal :=
  dict [("floating_ip_address", of_str address);
        ("network", of_str (net_id network));
        ("tenant_id", of_str (prj_id project))].

(** The record a floating IP run reports. *)
Definition floating_ip_result (p : floating_ip.Params) (changed : bool) (address : pystr)
    (network : Network) (project : Project) : gmap string PyVal :=
  dict [("changed", VBool changed);
        ("floating_ip_address", of_str address);
        ("floating_network_name", of_str (net_name network));
        ("floating_network_id", of_str (net_id network));
        ("project_name", of_str (prj_name project));
        ("project_id", of_str (prj_id project));
        ("state", VStr (floating_ip.state p));
        ("timeout", VInt (floating_ip.timeout p));
        ("wait", VBool (floating_ip.wait p))].

Definition network_error (name_or_id : pystr) : Exn :=
  ValueError ("Network " +:+ pyfmt name_or_id +:+ " is invalid or ambiguous").

(** [floating_ip.release] with the single guard [assert len(fips) == 1]
    and without the re-check [if len(fips) > 1] that follows it. *)
Definition release_single_guard {W} (host : Host W)
    (floating_ip_address floating_network_name project_name : pystr)
    (state : string) (timeout : Z) (wait : bool) : M W floating_ip.Outcome :=
  let* project := floating_ip.get_project host project_name in
  let* network := floating_ip.get_network host floating_network_name (prj_id project) in
  let* fips :=
    call host (cloud_search_floating_ips
                 (release_filters network project floating_ip_address)) in
  if bool_decide (fips = []) then
    ret (false, floating_ip_address, net_name network, net_id network,
         prj_name project, prj_id project)
  else if negb (bool_decide (length fips = 1%nat)) then
    raise AssertionError
  else
    let* fip := first_item fips in
    let* _ := call host (cloud_network_delete_ip fip false) in
    ret (true, fip_floating_ip_address fip, net_name network, net_id network,
         prj_name project, prj_id project).

Definition floating_ip_request (address network project : pystr) (state : string)
    (check : bool) : floating_ip.AnsibleModule :=
  {| floating_ip.params :=
       {| floating_ip.floating_ip_address := address;
          floating_ip.floating_network_name := network;
          floating_ip.project_name := project;
          floating_ip.state := state;
          floating_ip.timeout := 180;
          floating_ip.wait := true |};
     floating_ip.check_mode := check |}.

Definition allocate_any : floating_ip.AnsibleModule :=
  floating_ip_request None (Some "ext_net") None "present" false.

Definition allocate_fresh : floating_ip.AnsibleModule :=
  floating_ip_request (Some "203.0.113.9") (Some "ext_net") None "present" false.

(** The trace of resolving project [None] and network ["ext_net"] in
    [demo.world]. *)
Definition resolved_ext_net : list Event :=
  [Ev cloud_current_project true;
   Ev (cloud_search_networks (Some "ext_net") (tenant_filter (prj_id demo.devstack))) true].

Definition release_known : floating_ip.AnsibleModule :=
  floating_ip_request (Some "203.0.113.2") (Some "ext_net") None "absent" false.

Definition release_unknown : floating_ip.AnsibleModule :=
  floating_ip_request (Some "203.0.113.77") (Some "ext_net") None "absent" false.

Definition allocate_on_missing_network : floating_ip.AnsibleModule :=
  floating_ip_request None (Some "int_net") None "present" false.

(** ** Image vocabulary *)

(** The keyword arguments [import_from_disk] adds to the upload. *)
Definition upload_kwargs (id algorithm checksum : pystr) : gmap string PyVal :=
  let kwargs : gmap string PyVal := if truthy id then {["id" := of_str id]} else ∅ in
  if py_in algorithm [Some "md5"; Some "sha256"]
  then <[pyfmt algorithm := of_str checksum]> (<["validate_checksum" := VBool true]> kwargs)
  else kwargs.

Definition checksum_mismatch (checksum checksum_on_disk : pystr) : Exn :=
  PyException ("Checksum mismatch " +:+ pyfmt checksum +:+ " != " +:+ pyfmt checksum_on_disk).

(** Logging, closing a response and removing the temporary directory. *)
Definition is_housekeeping (e : Event) : bool :=
  match e with
  | Ev (module_log _) _ | Ev (tempfile_cleanup _) _ | Ev (response_close _) _ => true
  | _ => false
  end.

(** The record an image run reports. *)
Definition image_result (p : image_import.Params) (algorithm checksum : pystr)
    (changed : bool) (id name : pystr) (size : option Z) (format : pystr)
  : gmap string PyVal :=
  dict [("changed", VBool changed);
        ("size", of_int size);
        ("checksum", image_import.join_checksum algorithm checksum);
        ("format", of_str format);
        ("id", of_str id);
        ("name", of_str name);
        ("state", VStr (image_import.state p));
        ("timeout", VInt (image_import.timeout p));
        ("uri", of_str (image_import.uri p));
        ("wait", VBool (image_import.wait p))].

(** The identity key of a local import or of a delete and the name that
    goes with it: [id] if given, else [name] if given, else the base name
    of the locator. *)
Definition identity_key (id name uri : pystr) (name' key : pystr) : Prop :=
  (truthy (py_or id name) = true /\ name' = name /\ key = py_or id name)
  \/ (truthy (py_or id name) = false
      /\ exists u, uri = Some u /\ os_path_basename u <> EmptyString
                   /\ name' = Some (os_path_basename u) /\ key = name').

(** The file name of a remote import: the hint of the response, else the
    last path segment of the locator, else the name given. *)
Definition remote_filename {W} (host : Host W) (r : Response) (u : string) (name : pystr)
  : pystr :=
  let cd := getheader r "Content-Disposition" in
  let filename := if truthy cd then head (re_findall_filename (pyfmt cd)) else None in
  let filename :=
    if negb (truthy filename) then Some (os_path_basename (path (urlsplit host u)))
    else filename in
  if negb (truthy filename) then name else filename.

Definition import_existing_by_id : image_import.AnsibleModule :=
  image_request None None (Some "7a3f") None "present" (Some "https://example.com/debian")
    false.

Definition import_existing_local_by_id : image_import.AnsibleModule :=
  image_request None None (Some "7a3f") None "present" (Some "/srv/images/debian") false.

(** The characters after the last ['.'] of a name, none when it has no
    ['.']: the extension in the words of the specification. *)
Definition after_last_dot (n : string) : string :=
  let i := str_rfind "."%char n in
  if (0 <=? i)%Z then str_drop (Z.to_nat (i + 1)) n else EmptyString.

Definition format_error_local : Exn :=
  ValueError "no image format given and format could not be derived from uri".

Definition format_error_remote : Exn :=
  ValueError "no format given and format could not be derived from uri".

(** ** Order of the calls of a run *)

(** The calls that create or delete a cloud resource. *)
Definition is_mutation (e : Event) : bool :=
  match e with
  | Ev (cloud_network_create_ip _ _ _ _ _) _ | Ev (cloud_network_delete_ip _ _) _
  | Ev (cloud_create_image _ _ _ _ _ _) _ | Ev (cloud_delete_image _ _ _) _ => true
  | _ => false
  end.

Definition event_ok (e : Event) : bool :=
  match e with Ev _ ok => ok end.

Definition failure_of {A} (r : Exn + A) : option Exn :=
  match r with inl e => Some e | inr _ => None end.

(** ** Further vocabulary *)

(** The outcome of the two [with] statements of a remote import whose
    body ends in [outcome], given what closing the response and removing
    the directory reply: the failure of the removal, else the failure of
    the close, else [outcome]. *)
Definition after_release {A} (outcome : Exn + A) (closed cleaned : Reply unit) : Exn + A :=
  match cleaned, closed with
  | Failed err, _ => inl (CollaboratorError err)
  | Returned _, Failed err => inl (CollaboratorError err)
  | Returned _, Returned _ => outcome
  end.


Definition project_error (name_or_id : pystr) : Exn :=
  ValueError ("Project " +:+ pyfmt name_or_id +:+ " does not exist").

Definition allocate_in_unknown_project : floating_ip.AnsibleModule :=
  floating_ip_request None (Some "ext_net") (Some "nova") "present" false.

Definition missing_path_error (path : pystr) : Exn :=
  PyException ("Image path " +:+ pyfmt path +:+ " does not exist").

Definition image_exists_error (name_or_id : pystr) : Exn :=
  PyException ("image " +:+ pyfmt name_or_id +:+ " exists already").

(** The diagnostic [import_from_disk] logs when the uploaded size is not
    the size on disk. *)
Definition size_note (size_on_disk : Z) (uploaded : option Z) : string :=
  "[DEBUG] image size on disk is " +:+ pretty size_on_disk
  +:+ ", but the uploaded size is "
  +:+ match uploaded with Some z => pretty z | None => "None" end.

Definition delete_debian : image_import.AnsibleModule :=
  image_request None None None (Some "debian") "absent" None false.

Definition delete_nothing : image_import.AnsibleModule :=
  image_request None None None None "absent" None false.

(** [demo.world] with a remote directory listing, a resource whose path has
    no last segment. *)
Definition world_with_listing : demo.World :=
  {| demo.current := demo.current demo.world;
     demo.projects := demo.projects demo.world;
     demo.networks := demo.networks demo.world;
     demo.floating_ips := demo.floating_ips demo.world;
     demo.images := demo.images demo.world;
     demo.files := demo.files demo.world;
     demo.remote := ("https://example.com/images/", None) :: demo.remote demo.world |}.

Definition no_headers : Response :=
  {| getheader := fun h => if bool_decide (h = "Content-Disposition") then None else None |}.

(** [c in s] *)
Fixpoint str_mem (c : ascii) (s : string) : bool :=
  match s with
  | EmptyString => false
  | String a r => bool_decide (a = c) || str_mem c r
  end.

(** ** What a run may call *)

(** Every event a run adds satisfies [P]. *)
Definition emits {W A} (P : Event -> bool) (m : M W A) : Prop :=
  forall (w : W) (tr : list Event),
  exists added, snd (snd (m (w, tr))) = tr ++ added /\ forallb P added = true.

(** The calls of an allocation and of a release. *)
Definition allocation_call (e : Event) : bool :=
  match e with
  | Ev cloud_current_project _ | Ev (cloud_get_project _) _
  | Ev (cloud_search_networks _ _) _ | Ev (cloud_search_floating_ips _) _
  | Ev (cloud_network_create_ip _ _ _ _ _) _ => true
  | _ => false
  end.

Definition release_call (e : Event) : bool :=
  match e with
  | Ev cloud_current_project _ | Ev (cloud_get_project _) _
  | Ev (cloud_search_networks _ _) _ | Ev (cloud_search_floating_ips _) _
  | Ev (cloud_network_delete_ip _ _) _ => true
  | _ => false
  end.

(** The calls of an image import: lookups, the local file, the remote
    fetch and the upload, but no removal. *)
Definition import_call (e : Event) : bool :=
  match e with
  | Ev (cloud_get_image _) _ | Ev (cloud_create_image _ _ _ _ _ _) _
  | Ev (os_path_exists _) _ | Ev (os_path_getsize _) _
  | Ev (module_digest_from_file _ _) _ | Ev (module_log _) _
  | Ev tempfile_TemporaryDirectory _ | Ev (tempfile_cleanup _) _
  | Ev (open_url _) _ | Ev (response_close _) _ | Ev (shutil_copyfileobj _ _) _ => true
  | _ => false
  end.

(** The calls of an image removal: the lookup and the removal. *)
Definition removal_call (e : Event) : bool :=
  match e with
  | Ev (cloud_get_image _) _ | Ev (cloud_delete_image _ _ _) _ => true
  | _ => false
  end.

(** An image call names its image by a non-empty key and uploads with a
    non-empty format. *)
Definition well_keyed (e : Event) : bool :=
  match e with
  | Ev (cloud_get_image name_or_id) _ => truthy name_or_id
  | Ev (cloud_delete_image name_or_id _ _) _ => truthy name_or_id
  | Ev (cloud_create_image _ _ disk_format _ _ _) _ => truthy disk_format
  | _ => true
  end.

(** As [emits], and every value returned satisfies [Q]. *)
Definition emits_to {W A} (P : Event -> bool) (Q : A -> Prop) (m : M W A) : Prop :=
  forall (w : W) (tr : list Event),
  exists added, snd (snd (m (w, tr))) = tr ++ added /\ forallb P added = true
                /\ forall a, fst (m (w, tr)) = inr a -> Q a.

(** A call that changes nothing in the cloud. *)
Definition quiet (e : Event) : bool := negb (is_mutation e).

(** Some mutating call of the run returned. *)
Definition committed (added : list Event) : bool :=
  existsb (fun e => is_mutation e && event_ok e) added.

(** In every run of [m] that returns [a], [Q a] holds of whether a
    mutating call returned during the run. *)
Definition reports {W A} (Q : A -> bool -> Prop) (m : M W A) : Prop :=
  forall (w : W) (tr : list Event),
  exists added, snd (snd (m (w, tr))) = tr ++ added
                /\ forall a, fst (m (w, tr)) = inr a -> Q a (committed added).

Definition floating_ip_changed (o : floating_ip.Outcome) : bool :=
  let '(changed, _, _, _, _, _) := o in changed.

Definition image_changed (o : image_import.Outcome) : bool :=
  let '(changed, _, _, _, _) := o in changed.

Definition changed_is (d : gmap string PyVal) (b : bool) : Prop :=
  d !! "changed" = Some (VBool b).

(** ** Logs of answers *)

(** One answer of the host: the call and the reply. *)
Inductive Answer :=
| An : forall {X : Type}, Call X -> Reply X -> Answer.

Definition event_of (a : Answer) : Event :=
  match a with An c r => Ev c (replied r) end.

(** The host gives the answers of [log], one after the other, from world
    [w] on, and is left in world [w']. *)
Fixpoint replays {W} (host : Host W) (w : W) (log : list Answer) (w' : W) : Prop :=
  match log with
  | [] => w' = w
  | An c r :: log => exists w1, handle host c w = (r, w1) /\ replays host w1 log w'
  end.

(** Every run of [m] adds to the trace the calls of a log of answers the
    host gave during the run, and [post] holds of that log and of the
    outcome. *)
Definition logs {W A} (host : Host W) (post : list Answer -> Exn + A -> Prop) (m : M W A)
  : Prop :=
  forall (w : W) (tr : list Event),
  exists log, snd (snd (m (w, tr))) = tr ++ map event_of log
              /\ replays host w log (fst (snd (m (w, tr))))
              /\ post log (fst (m (w, tr))).

(** ** What a reconciliation has to look like *)

(** An answer to a mutating call, an answer that is no failure, and the
    failure an answer reports. *)
Definition mutating (a : Answer) : bool := is_mutation (event_of a).

Definition returned (a : Answer) : bool := event_ok (event_of a).

Definition failure_text (a : Answer) : option string :=
  match a with
  | An _ (Failed err) => Some err
  | An _ (Returned _) => None
  end.

(** The calls whose failure ends a run: all but logging. *)
Definition is_log (e : Event) : bool :=
  match e with Ev (module_log _) _ => true | _ => false end.

(** The failure of the last call of [l] that failed, logging apart. *)
Fixpoint last_failure (l : list Answer) : option string :=
  match l with
  | [] => None
  | a :: l =>
      match last_failure l with
      | Some err => Some err
      | None => if is_log (event_of a) then None else failure_text a
      end
  end.

(** What the specification asks of the answers of a run.  At most one
    call is mutating.  Every call before it returned, and [justified]
    holds of what those calls answered: resolution and verification have
    succeeded.  Behind it there is logging and the removal of the
    temporary directory only, and the run returns unless the mutating call
    or a call behind it fails, in which case it fails with the last of
    these failures: a resource is created or deleted by that one call, a
    run that fails has not issued it, or it is the call that failed, or it
    returned and the failure is that of clearing up. *)
Definition reconciled (justified : list Answer -> Answer -> Prop) (log : list Answer)
    (outcome : option Exn) : Prop :=
  length (filter (fun a => mutating a = true) log) <= 1
  /\ forall pre a post,
       log = pre ++ a :: post -> mutating a = true ->
       forallb returned pre = true
       /\ justified pre a
       /\ forallb (fun b => is_housekeeping (event_of b)) post = true
       /\ outcome = CollaboratorError <$> last_failure (a :: post).

(** [reconciled], as a scan of the log from its first answer on. *)
Fixpoint settled (justified : list Answer -> Answer -> Prop) (pre log : list Answer)
    (outcome : option Exn) : Prop :=
  match log with
  | [] => True
  | a :: rest =>
      if mutating a
      then forallb returned pre = true
           /\ justified pre a
           /\ forallb (fun b => is_housekeeping (event_of b)) rest = true
           /\ outcome = CollaboratorError <$> last_failure (a :: rest)
      else settled justified (pre ++ [a]) rest outcome
  end.


(** What stands behind the mutating call of an image run.  An upload: the
    file uploaded was found on disk, no image was found under the key, and
    when the checksum parameter is [algorithm:value] with a value, the
    digest of that file, computed with that algorithm, came out as that
    value.  A removal: the image was found under the key removed. *)
Definition image_justified (p : image_import.Params) (pre : list Answer) (a : Answer)
  : Prop :=
  match a with
  | An (cloud_create_image name file format wait timeout kwargs) _ =>
      In (An (os_path_exists file) (Returned true)) pre
      /\ In (An (cloud_get_image (py_or (image_import.id p) name)) (Returned None)) pre
      /\ (forall algorithm value : string,
             image_import.checksum p = Some (algorithm +:+ String ":" value) ->
             str_mem ":" algorithm = false -> value <> EmptyString ->
             In (An (module_digest_from_file file (Some algorithm)) (Returned (Some value)))
               pre)
      /\ wait = image_import.wait p /\ timeout = image_import.timeout p
  | An (cloud_delete_image key wait timeout) _ =>
      (exists image, In (An (cloud_get_image key) (Returned (Some image))) pre)
      /\ wait = image_import.wait p /\ timeout = image_import.timeout p
  | _ => False
  end.

(** ** Temporary directory and response *)

(** The resources of a download: whether the temporary directory exists,
    and whether the response is open, or was left open by a close that
    failed.  [resource_step] is the discipline a run is checked against:
    the directory is made first; the response is opened inside it; the
    download is written while both are there; the response is closed
    before anything is uploaded and before the directory is removed; a
    call that fails leaves the resource as it was. *)
Inductive ResponseState := no_response | response_open | close_failed.

Definition Resources : Type := (bool * ResponseState)%type.

Definition resource_step (s : Resources) (e : Event) : option Resources :=
  let '(dir, response) := s in
  match e with
  | Ev tempfile_TemporaryDirectory ok =>
      match dir, response with
      | false, no_response => Some (ok, no_response)
      | _, _ => None
      end
  | Ev (open_url _) ok =>
      match dir, response with
      | true, no_response => Some (true, if ok then response_open else no_response)
      | _, _ => None
      end
  | Ev (shutil_copyfileobj _ _) _ =>
      match dir, response with
      | true, response_open => Some s
      | _, _ => None
      end
  | Ev (response_close _) ok =>
      match dir, response with
      | true, response_open => Some (true, if ok then no_response else close_failed)
      | _, _ => None
      end
  | Ev (cloud_create_image _ _ _ _ _ _) _ =>
      match response with
      | no_response => Some s
      | _ => None
      end
  | Ev (tempfile_cleanup _) ok =>
      match dir, response with
      | true, no_response | true, close_failed => Some (negb ok, response)
      | _, _ => None
      end
  | _ => Some s
  end.

Fixpoint follows (s : Resources) (l : list Event) : option Resources :=
  match l with
  | [] => Some s
  | e :: l =>
      match resource_step s e with
      | Some s' => follows s' l
      | None => None
      end
  end.

(** What is left when the run is over: the directory, if removing it
    failed, and the response, if closing it failed. *)
Definition cleanup_failed (e : Event) : bool :=
  match e with Ev (tempfile_cleanup _) ok => negb ok | _ => false end.

Definition close_has_failed (e : Event) : bool :=
  match e with Ev (response_close _) ok => negb ok | _ => false end.

Definition left_behind (added : list Event) : Resources :=
  (existsb cleanup_failed added,
   if existsb close_has_failed added then close_failed else no_response).

(** ** Verified uploads *)

(** The run [run], which has come to state [s] with the file verified,
    goes on to the upload: once the identity re-check finds no image and
    the size of the file is read, the upload is issued for the file under
    the resolved name and format, with the caller's [wait] and [timeout]
    and the checksum among its arguments, and the run reports the uploaded
    image with [changed=true]; only housekeeping follows the upload. *)
Definition proceeds_to_upload {W} (host : Host W) (module : image_import.AnsibleModule)
    (algorithm value name' fmt : pystr) (file : string) (s : W * list Event)
    (run : (Exn + gmap string PyVal) * (W * list Event)) : Prop :=
  let p := image_import.params module in
  let recheck := cloud_get_image (py_or (image_import.id p) name') in
  let upload :=
    cloud_create_image name' file fmt (image_import.wait p) (image_import.timeout p)
      (upload_kwargs (image_import.id p) algorithm value) in
  forall (w3 w4 w5 : W) (size_on_disk : Z) (image : Image),
    handle host recheck (fst s) = (Returned None, w3) ->
    handle host (os_path_getsize file) w3 = (Returned size_on_disk, w4) ->
    handle host upload w4 = (Returned image, w5) ->
    exists (w6 : W) (rest : list Event),
      run = (inr (image_result p algorithm value true (img_id image) name' (img_size image)
                    fmt),
             (w6, snd s ++ [Ev recheck true; Ev (os_path_getsize file) true; Ev upload true]
                        ++ rest))
      /\ forallb is_housekeeping rest = true.

Definition import_remote_fresh : image_import.AnsibleModule :=
  image_request None (Some "qcow2") None (Some "fresh") "present"
    (Some "https://example.com/debian-10.4.2.qcow2") false.

Definition import_unverified : image_import.AnsibleModule :=
  image_request (Some "sha256:") None None None "present"
    (Some "/srv/images/debian-10.qcow2") false.

Definition import_wrong_digest : image_import.AnsibleModule :=
  image_request (Some "sha256:ffff") None None None "present"
    (Some "/srv/images/debian-10.qcow2") false.

(** ** The extension of a name *)

(** [k] dots. *)
Fixpoint dots (k : nat) : string :=
  match k with
  | O => EmptyString
  | S k => String "." (dots k)
  end.

(** A string of dots only. *)
Fixpoint only_dots (s : string) : bool :=
  match s with
  | EmptyString => true
  | String a r => bool_decide (a = "."%char) && only_dots r
  end.

(** The extension of a name, stated on the name itself: the name ends in
    [.e], where [e] holds neither a dot nor a slash, and the dot is
    preceded, within the last path component, by a character that is not a
    dot. *)
Definition has_extension (n e : string) : Prop :=
  exists d b : string,
    n = d +:+ b +:+ String "." e
    /\ str_mem "/" b = false /\ only_dots b = false
    /\ str_mem "/" e = false /\ str_mem "." e = false.

(** A name without extension: its last path component holds no dot, or
    dots at its beginning only. *)
Definition has_no_extension (n : string) : Prop :=
  exists (d : string) (k : nat) (e : string),
    n = d +:+ dots k +:+ e
    /\ (d = EmptyString \/ str_endswith "/" d = true)
    /\ str_mem "/" e = false /\ str_mem "." e = false.

(** * Properties *)

(** ** Running the monad *)

Section running.
Context {W : Type} (host : Host W).

Lemma call_returned {X} (c : Call X) (w w' : W) (x : X) (tr : list Event) :
  handle host c w = (Returned x, w') ->
  call host c (w, tr) = (inr x, (w', tr ++ [Ev c true])).
Proof. intros H. unfold call. rewrite H. reflexivity. Qed.

Lemma call_failed {X} (c : Call X) (w w' : W) (err : string) (tr : list Event) :
  handle host c w = (Failed err, w') ->
  call host c (w, tr) = (inl (CollaboratorError err), (w', tr ++ [Ev c false])).
Proof. intros H. unfold call. rewrite H. reflexivity. Qed.

Lemma bind_inr {A B} (m : M W A) (k : A -> M W B) s a s' :
  m s = (inr a, s') -> bind m k s = k a s'.
Proof. intros H. unfold bind. rewrite H. reflexivity. Qed.

Lemma bind_inl {A B} (m : M W A) (k : A -> M W B) s e s' :
  m s = (inl e, s') -> bind m k s = (inl e, s').
Proof. intros H. unfold bind. rewrite H. reflexivity. Qed.

Lemma bind_ret {A B} (a : A) (k : A -> M W B) : bind (ret a) k = k a.
Proof. reflexivity. Qed.

Lemma bind_raise {A B} (e : Exn) (k : A -> M W B) : bind (raise e) k = raise e.
Proof. reflexivity. Qed.

End running.

(** One step of a run: a call answered as [H] says, or a sub-run that
    ended as [H] says. *)
Ltac run_call H := erewrite bind_inr by (apply call_returned; exact H); cbv beta iota.
Ltac run_with H := erewrite bind_inr by exact H; cbv beta iota.

(** ** Walking through a run *)

Lemma replays_app {W} (host : Host W) (w w1 w2 : W) (l1 l2 : list Answer) :
  replays host w l1 w1 -> replays host w1 l2 w2 -> replays host w (l1 ++ l2) w2.
Proof.
  revert w. induction l1 as [|[X c r] l1 IH]; intros w; simpl.
  - intros ->. auto.
  - intros (w' & Hc & Hr) H2. exists w'. split; [exact Hc | exact (IH _ Hr H2)].
Qed.

Section log_rules.
Context {W : Type} (host : Host W).

Lemma logs_ret {A} (post : list Answer -> Exn + A -> Prop) (a : A) :
  post [] (inr a) -> logs host post (ret a).
Proof.
  intros H w tr. exists []. simpl. rewrite app_nil_r.
  split; [reflexivity|]. split; [reflexivity | exact H].
Qed.

Lemma logs_raise {A} (post : list Answer -> Exn + A -> Prop) (e : Exn) :
  post [] (inl e) -> logs host post (raise e).
Proof.
  intros H w tr. exists []. simpl. rewrite app_nil_r.
  split; [reflexivity|]. split; [reflexivity | exact H].
Qed.

Lemma logs_call {X} (post : list Answer -> Exn + X -> Prop) (c : Call X) :
  (forall x, post [An c (Returned x)] (inr x)) ->
  (forall err, post [An c (Failed err)] (inl (CollaboratorError err))) ->
  logs host post (call host c).
Proof.
  intros Hr Hf w tr. unfold call. destruct (handle host c w) as [r w1] eqn:Hc.
  exists [An c r]. simpl. split; [reflexivity|]. split; [exists w1; auto|].
  destruct r; [apply Hr | apply Hf].
Qed.

Lemma logs_tell (post : list Answer -> Exn + unit -> Prop) (c : Call unit) :
  (forall reply, post [An c reply] (inr tt)) -> logs host post (tell host c).
Proof.
  intros Hr w tr. unfold tell. destruct (handle host c w) as [r w1] eqn:Hc.
  exists [An c r]. simpl. split; [reflexivity|]. split; [exists w1; auto | apply Hr].
Qed.

(** The rule of [bind], in continuation style: what has to hold of [m] is
    that the rest of the run, if there is one, meets [post]. *)
Lemma logs_bind {A B} (post : list Answer -> Exn + B -> Prop) (m : M W A) (k : A -> M W B) :
  logs host (fun log1 r1 =>
               match r1 with
               | inl e => post log1 (inl e)
               | inr a => logs host (fun log2 r => post (log1 ++ log2) r) (k a)
               end) m ->
  logs host post (bind m k).
Proof.
  intros Hm w tr. unfold bind. destruct (Hm w tr) as (log1 & Ht1 & Hw1 & H1).
  destruct (m (w, tr)) as [[e | a] [w1 tr1]]; simpl in *.
  - exists log1. auto.
  - subst tr1. destruct (H1 w1 (tr ++ map event_of log1)) as (log2 & Ht2 & Hw2 & H2).
    exists (log1 ++ log2). rewrite Ht2, map_app, app_assoc. split; [reflexivity|].
    split; [exact (replays_app _ _ _ _ _ _ Hw1 Hw2) | exact H2].
Qed.

(** [with]: the outcome of the body stands unless leaving fails. *)
Lemma logs_with {A B} (post : list Answer -> Exn + B -> Prop) (enter : M W A)
    (leave : A -> M W unit) (body : A -> M W B) :
  logs host (fun log1 r1 =>
               match r1 with
               | inl e => post log1 (inl e)
               | inr a =>
                   logs host (fun log2 r =>
                                logs host (fun log3 u =>
                                             post (log1 ++ log2 ++ log3)
                                               match u with inl e => inl e | inr _ => r end)
                                  (leave a))
                     (body a)
               end) enter ->
  logs host post (with_ enter leave body).
Proof.
  intros He w tr. unfold with_. destruct (He w tr) as (log1 & Ht1 & Hw1 & H1).
  destruct (enter (w, tr)) as [[e | a] [w1 tr1]]; simpl in *.
  - exists log1. auto.
  - subst tr1. destruct (H1 w1 (tr ++ map event_of log1)) as (log2 & Ht2 & Hw2 & H2).
    destruct (body a (w1, tr ++ map event_of log1)) as [r [w2 tr2]]. simpl in *. subst tr2.
    destruct (H2 w2 ((tr ++ map event_of log1) ++ map event_of log2))
      as (log3 & Ht3 & Hw3 & H3).
    destruct (leave a (w2, (tr ++ map event_of log1) ++ map event_of log2))
      as [u [w3 tr3]]. simpl in *. subst tr3.
    exists (log1 ++ log2 ++ log3).
    assert (Hw : replays host w (log1 ++ log2 ++ log3) w3)
      by exact (replays_app _ _ _ _ _ _ Hw1 (replays_app _ _ _ _ _ _ Hw2 Hw3)).
    destruct u as [e | u]; simpl; rewrite !map_app, !app_assoc;
      (split; [reflexivity|]); rewrite <- app_assoc; (split; [exact Hw | exact H3]).
Qed.

End log_rules.

(** A run is walked through call by call; what is left are the goals on
    the logs of its paths. *)
Ltac walk :=
  repeat (cbv beta iota; cbn [app];
          lazymatch goal with
          | |- logs _ _ (bind _ _) => apply logs_bind
          | |- logs _ _ (with_ _ _ _) => apply logs_with
          | |- logs _ _ (ret _) => apply logs_ret
          | |- logs _ _ (raise _) => apply logs_raise
          | |- logs _ _ (lift ?r) => unfold lift; destruct r eqn:?
          | |- logs _ _ (first_item ?l) => unfold first_item; destruct (l !! 0%nat) eqn:?
          | |- logs _ _ (call _ _) => apply logs_call; intros ?
          | |- logs _ _ (tell _ _) => apply logs_tell; intros ?
          | |- logs _ _ (if ?b then _ else _) => destruct b eqn:?
          | |- logs _ _ (match ?x with _ => _ end) => destruct x eqn:?
          end).

Lemma housekeeping_not_mutating (a : Answer) :
  is_housekeeping (event_of a) = true -> mutating a = false.
Proof. destruct a as [X c r]. unfold mutating. destruct c; simpl; congruence. Qed.

Lemma housekeeping_no_mutation (l : list Answer) :
  forallb (fun b => is_housekeeping (event_of b)) l = true ->
  filter (fun a => mutating a = true) l = [].
Proof.
  induction l as [|a l IH]; [reflexivity|]. simpl. intros [Ha Hl]%andb_true_iff.
  rewrite filter_cons, (housekeeping_not_mutating _ Ha).
  destruct (decide (false = true)); [discriminate | exact (IH Hl)].
Qed.

Lemma settled_reconciled (justified : list Answer -> Answer -> Prop) (pre0 log : list Answer)
    (outcome : option Exn) :
  settled justified pre0 log outcome ->
  length (filter (fun a => mutating a = true) log) <= 1
  /\ forall pre a post,
       log = pre ++ a :: post -> mutating a = true ->
       forallb returned (pre0 ++ pre) = true
       /\ justified (pre0 ++ pre) a
       /\ forallb (fun b => is_housekeeping (event_of b)) post = true
       /\ outcome = CollaboratorError <$> last_failure (a :: post).
Proof.
  revert pre0. induction log as [|b log IH]; intros pre0; simpl.
  - intros _. split; [simpl; lia|]. intros [|? ?] ? ? [=].
  - destruct (mutating b) eqn:Hb.
    + intros (Hpre & Hj & Hpost & Hout). split.
      * rewrite filter_cons, Hb. destruct (decide (true = true)); [|congruence].
        rewrite (housekeeping_no_mutation _ Hpost). simpl. lia.
      * intros pre a post Heq Ha. destruct pre as [|b' pre]; simpl in Heq.
        -- injection Heq as <- <-. rewrite app_nil_r. auto.
        -- injection Heq as <- ->. exfalso.
           rewrite forallb_app in Hpost. apply andb_true_iff in Hpost as [_ Hpost].
           simpl in Hpost. apply andb_true_iff in Hpost as [Hh _].
           rewrite (housekeeping_not_mutating _ Hh) in Ha. discriminate.
    + intros Hs. destruct (IH _ Hs) as [Hcount Hall]. split.
      * rewrite filter_cons, Hb. destruct (decide (false = true)); [discriminate | exact Hcount].
      * intros pre a post Heq Ha. destruct pre as [|b' pre]; simpl in Heq.
        -- injection Heq as <- <-. congruence.
        -- injection Heq as <- ->.
           specialize (Hall pre a post eq_refl Ha). rewrite <- app_assoc in Hall. exact Hall.
Qed.

Lemma settled_is_reconciled (justified : list Answer -> Answer -> Prop) (log : list Answer)
    (outcome : option Exn) :
  settled justified [] log outcome -> reconciled justified log outcome.
Proof. intros H. exact (settled_reconciled justified [] log outcome H). Qed.

Lemma str_split1_joined (sep : ascii) (a b : string) :
  str_mem sep a = false -> str_split1 sep (a +:+ String sep b) = [a; b].
Proof.
  induction a as [|c a IH]; simpl.
  - intros _. rewrite bool_decide_eq_true_2 by reflexivity. reflexivity.
  - intros [Hc Ha]%orb_false_elim. apply bool_decide_eq_false in Hc.
    rewrite bool_decide_eq_false_2 by exact Hc.
    change ((fix append (s1 s2 : string) {struct s1} : string :=
               match s1 with
               | EmptyString => s2
               | String c0 s1' => String c0 (append s1' s2)
               end) a (String sep b)) with (a +:+ String sep b).
    rewrite (IH Ha). reflexivity.
Qed.

Lemma split_checksum_joined (algorithm value : string) :
  str_mem ":" algorithm = false ->
  image_import.split_checksum (Some (algorithm +:+ String ":" value))
  = inr (Some algorithm, Some value).
Proof.
  intros Ha. unfold image_import.split_checksum.
  replace (truthy (Some (algorithm +:+ String ":" value))) with true
    by (destruct algorithm; reflexivity).
  simpl pyfmt. rewrite (str_split1_joined _ _ _ Ha). reflexivity.
Qed.

Section settled_runs.
Context {W : Type} (host : Host W).


Lemma image_import_core_settled (module : image_import.AnsibleModule) :
  logs host (fun log r =>
               settled (image_justified (image_import.params module)) [] log (failure_of r))
    (image_import.core host module).
Proof.
  unfold image_import.core, image_import.import_, image_import.delete,
    image_import.import_from_disk.
  walk.
  all: cbn [settled mutating event_of is_mutation app].
  all: try exact I.
  all: repeat match goal with
         | H : negb ?b = false |- _ => apply negb_false_iff in H
         | H : bool_decide (_ = _) = true |- _ => apply bool_decide_eq_true in H
         end; subst.
  all: (split; [reflexivity|]); (split; [|split; [reflexivity|]]).
  all: try (destruct reply; reflexivity).
  all: try reflexivity.
  all: unfold image_justified.
  all: try (split; [eexists; simpl; eauto 12 | split; reflexivity]).
  all: (split; [simpl; tauto|]); (split; [simpl; tauto|]); (split; [|split; reflexivity]).
  all: intros algorithm value Hc Ha Hv.
  all: match goal with
       | H : image_import.split_checksum _ = _ |- _ =>
           rewrite Hc, (split_checksum_joined _ _ Ha) in H; injection H as <- <-
       end.
  all: try (simpl; tauto).
  all: exfalso; match goal with
                | H : truthy (Some ?v) = false, H' : ?v <> EmptyString |- _ =>
                    destruct v; [apply H'; reflexivity | discriminate H]
                end.
Qed.

End settled_runs.

(** ** Strings *)

Lemma str_split1_cases (sep : ascii) (s : string) :
  (str_split1 sep s = [s] /\ forall a b, s <> a +:+ String sep b)
  \/ (exists a b, str_split1 sep s = [a; b] /\ s = a +:+ String sep b).
Proof.
  induction s as [|c s IH]; simpl.
  - left. split; [reflexivity|]. intros [|x a] b; discriminate.
  - case_bool_decide as Hc.
    + subst c. right. exists EmptyString, s. split; reflexivity.
    + destruct IH as [[-> Hno] | (a & b & -> & ->)].
      * left. split; [reflexivity|].
        intros [|x a] b; simpl; intros [= ? ?]; [congruence|]. eapply Hno; eassumption.
      * right. exists (String c a), b. split; reflexivity.
Qed.

(** ** Check mode *)

(** C7, as amended.  In check mode the floating IP operation returns, for
    every input, [changed=false] with its parameters echoed, and leaves
    world and trace as they were.  The image operation does the same when
    the checksum is absent, empty (then reported as null) or of the form
    [algorithm:value]; a non-empty checksum without [':'] ends the run with
    the checksum-format failure, before the check-mode test, again without
    any call. *)
Theorem check_mode_echo :
  forall (W : Type) (host : Host W),
    (forall (module : floating_ip.AnsibleModule) (s : W * list Event),
        floating_ip.check_mode module = true ->
        floating_ip.core host module s
        = (inr (floating_ip_echo (floating_ip.params module)), s))
    /\
    (forall (module : image_import.AnsibleModule) (s : W * list Event),
        image_import.check_mode module = true ->
        let p := image_import.params module in
        match image_import.checksum p with
        | None => image_import.core host module s = (inr (image_echo p VNone), s)
        | Some c =>
            (c = EmptyString ->
             image_import.core host module s = (inr (image_echo p VNone), s))
            /\ (forall a b, c = a +:+ String ":" b ->
                image_import.core host module s = (inr (image_echo p (VStr c)), s))
            /\ (c <> EmptyString -> (forall a b, c <> a +:+ String ":" b) ->
                image_import.core host module s = (inl (FailJson checksum_format_message), s))
        end).
Proof.
  intros W host. split.
  - intros module s Hcheck. unfold floating_ip.core. rewrite Hcheck. reflexivity.
  - intros module s Hcheck p.
    unfold image_import.core, image_import.split_checksum. fold p.
    destruct (image_import.checksum p) as [c|] eqn:Hc.
    + repeat split.
      * intros ->. simpl. unfold bind, lift, ret; simpl. rewrite Hcheck. reflexivity.
      * intros a b Hab.
        assert (Ht : truthy (Some c) = true) by (subst c; destruct a; reflexivity).
        rewrite Ht. simpl pyfmt.
        destruct (str_split1_cases ":" c) as [[_ Hno] | (a' & b' & Hs & Hc')].
        { exfalso. exact (Hno a b Hab). }
        rewrite Hs. unfold bind, lift, ret; simpl. rewrite Hcheck.
        unfold image_echo, image_import.join_checksum. simpl pyfmt.
        replace (a' +:+ ":" +:+ b') with c by (rewrite Hc'; reflexivity). reflexivity.
      * intros Hne Hno.
        assert (Ht : truthy (Some c) = true) by (destruct c; [congruence | reflexivity]).
        rewrite Ht. simpl pyfmt.
        destruct (str_split1_cases ":" c) as [[Hs _] | (a' & b' & _ & Hc')].
        { rewrite Hs. reflexivity. }
        exfalso. exact (Hno a' b' Hc').
    + simpl. unfold bind, lift, ret; simpl. rewrite Hcheck. reflexivity.
Qed.

Lemma check_mode_echo_witness :
  floating_ip.core demo.host dry_run_release (demo.world, [])
  = (inr (floating_ip_echo (floating_ip.params dry_run_release)), (demo.world, []))
  /\ image_import.core demo.host dry_run_import (demo.world, [])
     = (inr (image_echo (image_import.params dry_run_import) (VStr "sha256:00f76f2f")),
        (demo.world, [])).
Proof.
  split.
  - exact (proj1 (check_mode_echo demo.World demo.host) dry_run_release (demo.world, [])
             eq_refl).
  - exact (proj1 (proj2 (proj2 (check_mode_echo demo.World demo.host) dry_run_import
                           (demo.world, []) eq_refl))
             "sha256" "00f76f2f" eq_refl).
Defined.

(** A checksum without [':'] stops a check-mode run of the image operation:
    nothing is returned. *)
Lemma check_mode_malformed_checksum :
  image_import.check_mode dry_run_bad_checksum = true
  /\ ~ exists d, fst (image_import.core demo.host dry_run_bad_checksum (demo.world, [])) = inr d.
Proof.
  split; [reflexivity|]. intros [d H]. vm_compute in H. discriminate H.
Qed.

(** ** Floating IPs *)

Section floating_ip_runs.
Context {W : Type} (host : Host W).

Lemma get_network_run (name_or_id project_id : pystr) (w w' : W) (tr : list Event)
    (networks : list Network) :
  handle host (cloud_search_networks name_or_id (tenant_filter project_id)) w
  = (Returned networks, w') ->
  floating_ip.get_network host name_or_id project_id (w, tr)
  = (match networks with
     | [network] => inr network
     | _ => inl (network_error name_or_id)
     end,
     (w', tr ++ [Ev (cloud_search_networks name_or_id (tenant_filter project_id)) true])).
Proof.
  intros H. unfold floating_ip.get_network.
  erewrite bind_inr by (apply call_returned; exact H).
  destruct networks as [|n [|n' l]]; reflexivity.
Qed.

Lemma allocate_run (address network_name project_name : pystr) (state : string)
    (timeout : Z) (wait : bool) (s s1 s2 : W * list Event)
    (project : Project) (network : Network) (fips : list FloatingIP) (w3 : W) :
  floating_ip.get_project host project_name s = (inr project, s1) ->
  floating_ip.get_network host network_name (prj_id project) s1 = (inr network, s2) ->
  handle host (cloud_search_floating_ips (allocate_filters network project address)) (fst s2)
  = (Returned fips, w3) ->
  floating_ip.allocate host address network_name project_name state timeout wait s
  = match fips with
    | fip0 :: _ =>
        ret (false, fip_floating_ip_address fip0, net_name network, net_id network,
             prj_name project, prj_id project)
    | [] =>
        let* fip :=
          call host (cloud_network_create_ip address (net_id network) (prj_id project)
                       timeout wait) in
        ret (true, fip_floating_ip_address fip, net_name network, net_id network,
             prj_name project, prj_id project)
    end
      (w3, snd s2 ++ [Ev (cloud_search_floating_ips (allocate_filters network project address))
                        true]).
Proof.
  intros Hp Hn Hs. unfold floating_ip.allocate.
  rewrite (bind_inr _ _ _ _ _ Hp), (bind_inr _ _ _ _ _ Hn).
  destruct s2 as [w2 tr2]. simpl in Hs.
  fold (allocate_filters network project address).
  erewrite bind_inr by (apply call_returned; exact Hs).
  reflexivity.
Qed.

Lemma release_run (address network_name project_name : pystr) (state : string)
    (timeout : Z) (wait : bool) (s s1 s2 : W * list Event)
    (project : Project) (network : Network) (fips : list FloatingIP) (w3 : W) :
  floating_ip.get_project host project_name s = (inr project, s1) ->
  floating_ip.get_network host network_name (prj_id project) s1 = (inr network, s2) ->
  handle host (cloud_search_floating_ips (release_filters network project address)) (fst s2)
  = (Returned fips, w3) ->
  floating_ip.release host address network_name project_name state timeout wait s
  = match fips with
    | [] =>
        ret (false, address, net_name network, net_id network,
             prj_name project, prj_id project)
    | [fip] =>
        let* _ := call host (cloud_network_delete_ip fip false) in
        ret (true, fip_floating_ip_address fip, net_name network, net_id network,
             prj_name project, prj_id project)
    | _ => raise AssertionError
    end
      (w3, snd s2 ++ [Ev (cloud_search_floating_ips (release_filters network project address))
                        true]).
Proof.
  intros Hp Hn Hs. unfold floating_ip.release.
  rewrite (bind_inr _ _ _ _ _ Hp), (bind_inr _ _ _ _ _ Hn).
  destruct s2 as [w2 tr2]. simpl in Hs.
  fold (release_filters network project address).
  erewrite bind_inr by (apply call_returned; exact Hs).
  destruct fips as [|fip [|fip' l]]; reflexivity.
Qed.

End floating_ip_runs.

(** C2.  Desired state [present]: once project and network are resolved,
    the floating IPs matching {network, project, address?} are queried.
    With one or more matches the run reports [changed=false] and the
    address of the first match, and issues nothing further.  With none, one
    creation call is issued, carrying the address hint and the caller's
    [timeout] and [wait], and the run reports [changed=true] with the
    address of the floating IP created. *)
Theorem allocate_reconciles :
  forall (W : Type) (host : Host W) (module : floating_ip.AnsibleModule)
         (s s1 s2 : W * list Event) (project : Project) (network : Network)
         (fips : list FloatingIP) (w3 : W),
    let p := floating_ip.params module in
    let address := floating_ip.floating_ip_address p in
    let filters := allocate_filters network project address in
    let searched := snd s2 ++ [Ev (cloud_search_floating_ips filters) true] in
    let create :=
      cloud_network_create_ip address (net_id network) (prj_id project)
        (floating_ip.timeout p) (floating_ip.wait p) in
    floating_ip.check_mode module = false ->
    floating_ip.state p = "present" ->
    floating_ip.get_project host (floating_ip.project_name p) s = (inr project, s1) ->
    floating_ip.get_network host (floating_ip.floating_network_name p) (prj_id project) s1
    = (inr network, s2) ->
    handle host (cloud_search_floating_ips filters) (fst s2) = (Returned fips, w3) ->
    match fips with
    | fip0 :: _ =>
        floating_ip.core host module s
        = (inr (floating_ip_result p false (fip_floating_ip_address fip0) network project),
           (w3, searched))
    | [] =>
        forall (fip : FloatingIP) (w4 : W),
          handle host create w3 = (Returned fip, w4) ->
          floating_ip.core host module s
          = (inr (floating_ip_result p true (fip_floating_ip_address fip) network project),
             (w4, searched ++ [Ev create true]))
    end.
Proof.
  intros W host module s s1 s2 project network fips w3 p address filters searched create
         Hcheck Hstate Hp Hn Hs.
  pose proof (allocate_run host address (floating_ip.floating_network_name p)
                (floating_ip.project_name p) (floating_ip.state p) (floating_ip.timeout p)
                (floating_ip.wait p) s s1 s2 project network fips w3 Hp Hn Hs) as Hrun.
  unfold floating_ip.core. rewrite Hcheck. fold p. rewrite Hstate. simpl bool_decide. cbv iota.
  rewrite Hstate in Hrun. fold address.
  destruct fips as [|fip0 rest].
  - intros fip w4 Hc.
    erewrite bind_inr in Hrun by (apply call_returned; exact Hc).
    rewrite (bind_inr _ _ _ _ _ Hrun).
    unfold floating_ip_result. rewrite Hstate. reflexivity.
  - rewrite (bind_inr _ _ _ _ _ Hrun).
    unfold floating_ip_result. rewrite Hstate. reflexivity.
Qed.

Lemma allocate_reconciles_witness :
  fst (floating_ip.core demo.host allocate_any (demo.world, []))
  = inr (floating_ip_result (floating_ip.params allocate_any) false (Some "203.0.113.2")
           demo.ext_net demo.devstack)
  /\ fst (floating_ip.core demo.host allocate_fresh (demo.world, []))
     = inr (floating_ip_result (floating_ip.params allocate_fresh) true (Some "203.0.113.9")
              demo.ext_net demo.devstack).
Proof.
  split.
  - exact (f_equal fst
             (allocate_reconciles demo.World demo.host allocate_any (demo.world, [])
                (demo.world, [Ev cloud_current_project true]) (demo.world, resolved_ext_net)
                demo.devstack demo.ext_net [{| fip_floating_ip_address := Some "203.0.113.2" |}]
                demo.world eq_refl eq_refl eq_refl eq_refl eq_refl)).
  - exact (f_equal fst
             (allocate_reconciles demo.World demo.host allocate_fresh (demo.world, [])
                (demo.world, [Ev cloud_current_project true]) (demo.world, resolved_ext_net)
                demo.devstack demo.ext_net [] demo.world eq_refl eq_refl eq_refl eq_refl eq_refl
                {| fip_floating_ip_address := Some "203.0.113.9" |}
                (demo.with_floating_ips demo.world
                   [{| fip_floating_ip_address := Some "203.0.113.2" |};
                    {| fip_floating_ip_address := Some "203.0.113.9" |}])
                eq_refl)).
Defined.

Lemma release_recheck_is_dead {W : Type} (host : Host W)
    (address network_name project_name : pystr) (state : string) (timeout : Z) (wait : bool)
    (s : W * list Event) :
  floating_ip.release host address network_name project_name state timeout wait s
  = release_single_guard host address network_name project_name state timeout wait s.
Proof.
  unfold floating_ip.release, release_single_guard, bind.
  destruct (floating_ip.get_project host project_name s) as [[e|project] s1]; [reflexivity|].
  destruct (floating_ip.get_network host network_name (prj_id project) s1)
    as [[e|network] [w2 tr2]]; [reflexivity|].
  unfold call, release_filters.
  destruct (handle host _ w2) as [[fips|err] w3]; [|reflexivity].
  destruct fips as [|fip [|fip' l]]; reflexivity.
Qed.

(** C3.  Desired state [absent]: once project and network are resolved,
    the floating IPs matching {address, network, project} are queried.
    With no match the run reports [changed=false] and echoes the requested
    address.  With exactly one match that floating IP is deleted and the
    run reports [changed=true] with its address.  With more than one match
    the run ends in the assertion failure and deletes nothing.  The
    re-check for more than one match behind the assertion is dead: the
    function without it runs identically on every input. *)
Theorem release_reconciles :
  forall (W : Type) (host : Host W) (module : floating_ip.AnsibleModule)
         (s s1 s2 : W * list Event) (project : Project) (network : Network)
         (fips : list FloatingIP) (w3 : W),
    let p := floating_ip.params module in
    let address := floating_ip.floating_ip_address p in
    let filters := release_filters network project address in
    let searched := snd s2 ++ [Ev (cloud_search_floating_ips filters) true] in
    floating_ip.check_mode module = false ->
    floating_ip.state p = "absent" ->
    floating_ip.get_project host (floating_ip.project_name p) s = (inr project, s1) ->
    floating_ip.get_network host (floating_ip.floating_network_name p) (prj_id project) s1
    = (inr network, s2) ->
    handle host (cloud_search_floating_ips filters) (fst s2) = (Returned fips, w3) ->
    match fips with
    | [] =>
        floating_ip.core host module s
        = (inr (floating_ip_result p false address network project), (w3, searched))
    | [fip] =>
        forall (w4 : W),
          handle host (cloud_network_delete_ip fip false) w3 = (Returned tt, w4) ->
          floating_ip.core host module s
          = (inr (floating_ip_result p true (fip_floating_ip_address fip) network project),
             (w4, searched ++ [Ev (cloud_network_delete_ip fip false) true]))
    | _ :: _ :: _ =>
        floating_ip.core host module s = (inl AssertionError, (w3, searched))
    end
    /\ (forall (a n pn : pystr) (st : string) (t : Z) (wt : bool) (s' : W * list Event),
           floating_ip.release host a n pn st t wt s'
           = release_single_guard host a n pn st t wt s').
Proof.
  intros W host module s s1 s2 project network fips w3 p address filters searched
         Hcheck Hstate Hp Hn Hs.
  split; [|intros; apply release_recheck_is_dead].
  pose proof (release_run host address (floating_ip.floating_network_name p)
                (floating_ip.project_name p) (floating_ip.state p) (floating_ip.timeout p)
                (floating_ip.wait p) s s1 s2 project network fips w3 Hp Hn Hs) as Hrun.
  unfold floating_ip.core. rewrite Hcheck. fold p. rewrite Hstate. simpl bool_decide. cbv iota.
  rewrite Hstate in Hrun. fold address.
  destruct fips as [|fip [|fip' rest]].
  - rewrite (bind_inr _ _ _ _ _ Hrun).
    unfold floating_ip_result. rewrite Hstate. reflexivity.
  - intros w4 Hd.
    erewrite bind_inr in Hrun by (apply call_returned; exact Hd).
    rewrite (bind_inr _ _ _ _ _ Hrun).
    unfold floating_ip_result. rewrite Hstate. reflexivity.
  - rewrite (bind_inl _ _ _ _ _ Hrun). reflexivity.
Qed.

Lemma release_reconciles_witness :
  fst (floating_ip.core demo.host release_unknown (demo.world, []))
  = inr (floating_ip_result (floating_ip.params release_unknown) false (Some "203.0.113.77")
           demo.ext_net demo.devstack)
  /\ fst (floating_ip.core demo.host release_known (demo.world, []))
     = inr (floating_ip_result (floating_ip.params release_known) true (Some "203.0.113.2")
              demo.ext_net demo.devstack).
Proof.
  split.
  - exact (f_equal fst
             (proj1 (release_reconciles demo.World demo.host release_unknown (demo.world, [])
                       (demo.world, [Ev cloud_current_project true])
                       (demo.world, resolved_ext_net) demo.devstack demo.ext_net []
                       demo.world eq_refl eq_refl eq_refl eq_refl eq_refl))).
  - exact (f_equal fst
             (proj1 (release_reconciles demo.World demo.host release_known (demo.world, [])
                       (demo.world, [Ev cloud_current_project true])
                       (demo.world, resolved_ext_net) demo.devstack demo.ext_net
                       [{| fip_floating_ip_address := Some "203.0.113.2" |}]
                       demo.world eq_refl eq_refl eq_refl eq_refl eq_refl)
                (demo.with_floating_ips demo.world []) eq_refl)).
Defined.

(** C4.  A network lookup by name-or-id, filtered by tenant when a project
    id is given, succeeds with exactly one entry and then that network is
    the one the floating IPs are queried for.  With no entry or more than
    one it raises, and the invocation ends there: the trace stops at the
    network lookup, so no floating IP is queried, created or deleted. *)
Theorem network_lookup_is_exact :
  forall (W : Type) (host : Host W) (module : floating_ip.AnsibleModule)
         (s : W * list Event) (project : Project) (w1 w2 : W) (tr1 : list Event)
         (networks : list Network),
    let p := floating_ip.params module in
    let name_or_id := floating_ip.floating_network_name p in
    let lookup := cloud_search_networks name_or_id (tenant_filter (prj_id project)) in
    let looked_up := tr1 ++ [Ev lookup true] in
    floating_ip.check_mode module = false ->
    floating_ip.state p = "present" \/ floating_ip.state p = "absent" ->
    floating_ip.get_project host (floating_ip.project_name p) s = (inr project, (w1, tr1)) ->
    handle host lookup w1 = (Returned networks, w2) ->
    match networks with
    | [network] =>
        floating_ip.get_network host name_or_id (prj_id project) (w1, tr1)
        = (inr network, (w2, looked_up))
        /\ exists r w3 ok rest,
            floating_ip.core host module s
            = (r, (w3, looked_up
                       ++ Ev (cloud_search_floating_ips
                                (if bool_decide (floating_ip.state p = "present")
                                 then allocate_filters network project
                                        (floating_ip.floating_ip_address p)
                                 else release_filters network project
                                        (floating_ip.floating_ip_address p))) ok
                       :: rest))
    | _ =>
        floating_ip.get_network host name_or_id (prj_id project) (w1, tr1)
        = (inl (network_error name_or_id), (w2, looked_up))
        /\ floating_ip.core host module s = (inl (network_error name_or_id), (w2, looked_up))
    end.
Proof.
  intros W host module s project w1 w2 tr1 networks p name_or_id lookup looked_up
         Hcheck Hstate Hp Hl.
  pose proof (get_network_run host name_or_id (prj_id project) w1 w2 tr1 networks Hl) as Hn.
  fold lookup in Hn. fold looked_up in Hn.
  assert (Hfail : forall e, floating_ip.get_network host name_or_id (prj_id project) (w1, tr1)
                            = (inl e, (w2, looked_up)) ->
                            floating_ip.core host module s = (inl e, (w2, looked_up))).
  { intros e He. unfold floating_ip.core. rewrite Hcheck. fold p.
    destruct Hstate as [-> | ->]; simpl bool_decide; cbv iota;
      apply bind_inl; [unfold floating_ip.allocate | unfold floating_ip.release];
      rewrite (bind_inr _ _ _ _ _ Hp); apply bind_inl; exact He. }
  destruct networks as [|network [|network' l]].
  - split; [exact Hn | exact (Hfail _ Hn)].
  - split; [exact Hn|].
    unfold floating_ip.core. rewrite Hcheck. fold p.
    destruct Hstate as [Hst | Hst]; rewrite Hst; simpl bool_decide; cbv iota.
    + unfold floating_ip.allocate, bind at 1 2 3 4.
      rewrite Hp. fold name_or_id. rewrite Hn.
      fold (allocate_filters network project (floating_ip.floating_ip_address p)).
      unfold call.
      destruct (handle host (cloud_search_floating_ips _) w2) as [[fips|err] w3].
      * destruct fips as [|fip0 fips].
        -- unfold bind.
           destruct (handle host (cloud_network_create_ip _ _ _ _ _) w3) as [[fip|err] w4];
             simpl; rewrite <- app_assoc; do 4 eexists; reflexivity.
        -- simpl. do 4 eexists. reflexivity.
      * simpl. do 4 eexists. reflexivity.
    + unfold floating_ip.release, bind at 1 2 3 4.
      rewrite Hp. fold name_or_id. rewrite Hn.
      fold (release_filters network project (floating_ip.floating_ip_address p)).
      unfold call.
      destruct (handle host (cloud_search_floating_ips _) w2) as [[fips|err] w3].
      * destruct fips as [|fip [|fip' fips]].
        -- simpl. do 4 eexists. reflexivity.
        -- unfold bind, first_item. simpl.
           destruct (handle host (cloud_network_delete_ip _ _) w3) as [[u|err] w4];
             simpl; rewrite <- app_assoc; do 4 eexists; reflexivity.
        -- simpl. do 4 eexists. reflexivity.
      * simpl. do 4 eexists. reflexivity.
  - split; [exact Hn | exact (Hfail _ Hn)].
Qed.

Lemma network_lookup_is_exact_witness :
  floating_ip.core demo.host allocate_on_missing_network (demo.world, [])
  = (inl (network_error (Some "int_net")),
     (demo.world,
      [Ev cloud_current_project true;
       Ev (cloud_search_networks (Some "int_net") (tenant_filter (prj_id demo.devstack)))
         true])).
Proof.
  exact (proj2 (network_lookup_is_exact demo.World demo.host allocate_on_missing_network
                  (demo.world, []) demo.devstack demo.world demo.world
                  [Ev cloud_current_project true] [] eq_refl (or_introl eq_refl)
                  eq_refl eq_refl)).
Defined.

(** ** Images *)

(** [import_from_disk] on an existing path: an expected digest is compared
    with the digest of the file before anything is uploaded.  A mismatch
    raises, and the trace ends at the digest.  With a match, or with no
    expected digest, the upload call follows the identity re-check and the
    size query, and its image is returned. *)
Lemma import_from_disk_verifies :
  forall (W : Type) (host : Host W) (algorithm checksum format id name : pystr)
         (state : string) (timeout : Z) (file : string) (wait : bool)
         (w w1 w2 : W) (tr : list Event) (checksum_on_disk : pystr),
    let digest := module_digest_from_file file algorithm in
    let checked :=
      tr ++ Ev (os_path_exists file) true :: (if truthy checksum then [Ev digest true] else []) in
    let upload :=
      cloud_create_image name file format wait timeout (upload_kwargs id algorithm checksum) in
    handle host (os_path_exists file) w = (Returned true, w1) ->
    (if truthy checksum
     then handle host digest w1 = (Returned checksum_on_disk, w2)
     else w2 = w1) ->
    (truthy checksum = true -> checksum <> checksum_on_disk ->
     image_import.import_from_disk host algorithm checksum format id name state timeout
       (Some file) wait (w, tr)
     = (inl (checksum_mismatch checksum checksum_on_disk), (w2, checked)))
    /\
    (truthy checksum = false \/ checksum = checksum_on_disk ->
     forall (w3 w4 w5 : W) (size_on_disk : Z) (image : Image),
       handle host (cloud_get_image (py_or id name)) w2 = (Returned None, w3) ->
       handle host (os_path_getsize file) w3 = (Returned size_on_disk, w4) ->
       handle host upload w4 = (Returned image, w5) ->
       exists (w6 : W) (rest : list Event),
         image_import.import_from_disk host algorithm checksum format id name state timeout
           (Some file) wait (w, tr)
         = (inr (img_id image, img_size image),
            (w6, checked ++ [Ev (cloud_get_image (py_or id name)) true;
                             Ev (os_path_getsize file) true;
                             Ev upload true] ++ rest))
         /\ forallb is_housekeeping rest = true).
Proof.
  intros W host algorithm checksum format id name state timeout file wait w w1 w2 tr
         checksum_on_disk digest checked upload Hex Hdig.
  split.
  - intros Ht Hne. unfold image_import.import_from_disk.
    rewrite (bind_inr _ _ (w, tr) file (w, tr) eq_refl).
    erewrite bind_inr by (apply call_returned; exact Hex). cbv beta. change (negb true) with false. cbv iota.
    subst checked. rewrite Ht in *.
    apply bind_inl.
    erewrite bind_inr by (apply call_returned; exact Hdig).
    rewrite bool_decide_eq_false_2 by exact Hne. simpl.
    rewrite <- app_assoc. reflexivity.
  - intros Hok w3 w4 w5 size_on_disk image Hget Hsize Hup.
    assert (Hver : (if truthy checksum
                    then let* checksum_on_disk := call host digest in
                         if negb (bool_decide (checksum = checksum_on_disk))
                         then raise (checksum_mismatch checksum checksum_on_disk)
                         else ret tt
                    else ret tt) (w1, tr ++ [Ev (os_path_exists file) true])
                   = (inr tt, (w2, checked))).
    { subst checked. destruct (truthy checksum) eqn:Ht.
      - destruct Hok as [Hf | Heq]; [discriminate|].
        erewrite bind_inr by (apply call_returned; exact Hdig).
        rewrite bool_decide_eq_true_2 by exact Heq. simpl.
        rewrite <- app_assoc. reflexivity.
      - subst w2. reflexivity. }
    assert (Hkw : (if py_in algorithm [Some "md5"; Some "sha256"]
                   then <[pyfmt algorithm := of_str checksum]>
                          (<["validate_checksum" := VBool true]>
                             (if truthy id then <["id" := of_str id]> ∅ else ∅))
                   else if truthy id then <["id" := of_str id]> ∅ else ∅)
                  = upload_kwargs id algorithm checksum).
    { unfold upload_kwargs. destruct (truthy id); reflexivity. }
    assert (Hrun :
              image_import.import_from_disk host algorithm checksum format id name state
                timeout (Some file) wait (w, tr)
              = (let* _ :=
                   if negb (bool_decide (img_size image = Some size_on_disk)) then
                     tell host (module_log ("[DEBUG] image size on disk is "
                                            +:+ pretty size_on_disk
                                            +:+ ", but the uploaded size is "
                                            +:+ match img_size image with
                                                | Some z => pretty z
                                                | None => "None"
                                                end))
                   else ret tt in
                 ret (img_id image, img_size image))
                  (w5, checked ++ [Ev (cloud_get_image (py_or id name)) true;
                                   Ev (os_path_getsize file) true;
                                   Ev upload true])).
    { match goal with |- _ = ?r => set (rhs := r) end.
      unfold image_import.import_from_disk.
      rewrite (bind_inr _ _ (w, tr) file (w, tr) eq_refl).
      erewrite bind_inr by (apply call_returned; exact Hex). cbv beta. change (negb true) with false. cbv iota.
      run_with Hver. run_call Hget. run_call Hsize.
      rewrite Hkw. fold upload.
      run_call Hup.
      subst rhs. rewrite <- !app_assoc. reflexivity. }
    rewrite Hrun. unfold bind, tell, ret, negb.
    destruct (bool_decide (img_size image = Some size_on_disk)); cbv beta iota.
    + exists w5, []. split; [|reflexivity]. rewrite app_nil_r. reflexivity.
    + match goal with
      | |- context [handle host (module_log ?m) w5] =>
          destruct (handle host (module_log m) w5) as [r w6] eqn:Hlog
      end.
      match type of Hlog with
      | handle _ ?c _ = _ => exists w6, [Ev c (replied r)]
      end.
      split; [|reflexivity].
      rewrite <- !app_assoc. reflexivity.
Qed.

Section local_import.
Context {W : Type} (host : Host W).

(** A local import that finds no image under the key and has a format is
    [import_from_disk] on the locator, and its result put into the
    record. *)
Lemma core_local_import (module : image_import.AnsibleModule) (w w0 : W) (tr : list Event)
    (algorithm value name' key fmt : pystr) :
  let p := image_import.params module in
  image_import.check_mode module = false ->
  image_import.state p = "present" ->
  image_import.split_checksum (image_import.checksum p) = inr (algorithm, value) ->
  image_import.uri_is_url host (image_import.uri p) = false ->
  identity_key (image_import.id p) (image_import.name p) (image_import.uri p) name' key ->
  handle host (cloud_get_image key) w = (Returned None, w0) ->
  image_import.default_format (image_import.format p) name' = inr fmt ->
  truthy fmt = true ->
  image_import.core host module (w, tr)
  = (let* (i, size) :=
       image_import.import_from_disk host algorithm value fmt (image_import.id p) name'
         (image_import.state p) (image_import.timeout p) (image_import.uri p)
         (image_import.wait p) in
     ret (image_result p algorithm value true i name' size fmt))
      (w0, tr ++ [Ev (cloud_get_image key) true]).
Proof.
  intros p Hcheck Hstate Hsplit Hlocal Hkey Hget Hfmt Ht.
  assert (Himport :
            image_import.import_ host algorithm value (image_import.format p)
              (image_import.id p) (image_import.name p) (image_import.state p)
              (image_import.timeout p) (image_import.uri p) (image_import.wait p) (w, tr)
            = (let* (i, size) :=
                 image_import.import_from_disk host algorithm value fmt (image_import.id p)
                   name' (image_import.state p) (image_import.timeout p)
                   (image_import.uri p) (image_import.wait p) in
               ret (true, i, name', size, fmt))
                (w0, tr ++ [Ev (cloud_get_image key) true])).
  { unfold image_import.import_. rewrite Hlocal. cbv iota.
    destruct Hkey as [(Hk & -> & ->) | (Hk & u & Hu & Hbase & -> & ->)].
    - rewrite Hk. change (negb true) with false. cbv iota.
      rewrite bind_ret. run_call Hget.
      rewrite Hfmt. simpl lift. rewrite bind_ret, Ht. reflexivity.
    - rewrite Hk, Hu. change (negb false) with true. cbv iota.
      unfold image_import.basename_of, lift at 1. rewrite bind_ret.
      destruct (os_path_basename u) as [|c b] eqn:Hb; [congruence|].
      change (negb (truthy (Some (String c b)))) with false. cbv iota.
      rewrite bind_ret. run_call Hget.
      rewrite <- Hu, Hfmt. simpl lift. rewrite bind_ret, Ht. reflexivity. }
  unfold image_import.core. fold p. rewrite Hsplit. simpl lift. rewrite bind_ret.
  rewrite Hcheck, Hstate. simpl bool_decide. cbv iota.
  rewrite Hstate in Himport. unfold bind at 1. rewrite Himport. rewrite <- Hstate.
  unfold bind.
  destruct (image_import.import_from_disk _ _ _ _ _ _ _ _ _ _ _) as [[e | [i size]] s'];
    reflexivity.
Qed.

End local_import.

(** C5, as amended.  In every run of the image operation, local or remote,
    an upload is preceded by the digest call on the very file uploaded,
    with the algorithm of the checksum parameter [algorithm:value], and
    that call answered [value], whenever the value is not empty.  For a
    local import that has found no image under the key, has a format and
    has found the file: with such a checksum the digest of the file is
    computed with that algorithm and compared with the value; a mismatch
    raises, the trace ends at the digest and nothing is uploaded; a match
    goes on to the upload.  With no checksum the run goes on to the upload
    without a digest, and so it does for a checksum whose value is
    empty. *)
Theorem checksum_before_upload :
  forall (W : Type) (host : Host W) (module : image_import.AnsibleModule),
    let p := image_import.params module in
    (forall (w : W) (tr : list Event),
        exists log,
          snd (snd (image_import.core host module (w, tr))) = tr ++ map event_of log
          /\ replays host w log (fst (snd (image_import.core host module (w, tr))))
          /\ forall (pre post : list Answer) (name : pystr) (file : string) (format : pystr)
                    (wait : bool) (timeout : Z) (kwargs : gmap string PyVal)
                    (reply : Reply Image) (algorithm value : string),
               log = pre ++ An (cloud_create_image name file format wait timeout kwargs) reply
                            :: post ->
               image_import.checksum p = Some (algorithm +:+ String ":" value) ->
               str_mem ":" algorithm = false -> value <> EmptyString ->
               In (An (module_digest_from_file file (Some algorithm)) (Returned (Some value)))
                 pre)
    /\
    (forall (w w0 w1 : W) (tr : list Event) (name' key fmt : pystr) (file : string),
        image_import.check_mode module = false ->
        image_import.state p = "present" ->
        image_import.uri p = Some file ->
        image_import.uri_is_url host (Some file) = false ->
        identity_key (image_import.id p) (image_import.name p) (image_import.uri p) name' key ->
        handle host (cloud_get_image key) w = (Returned None, w0) ->
        image_import.default_format (image_import.format p) name' = inr fmt ->
        truthy fmt = true ->
        handle host (os_path_exists file) w0 = (Returned true, w1) ->
        let found := tr ++ [Ev (cloud_get_image key) true; Ev (os_path_exists file) true] in
        let run := image_import.core host module (w, tr) in
        (forall (algorithm value : string) (w2 : W) (checksum_on_disk : pystr),
            image_import.checksum p = Some (algorithm +:+ String ":" value) ->
            str_mem ":" algorithm = false ->
            value <> EmptyString ->
            let digest := module_digest_from_file file (Some algorithm) in
            handle host digest w1 = (Returned checksum_on_disk, w2) ->
            (checksum_on_disk <> Some value ->
             run = (inl (checksum_mismatch (Some value) checksum_on_disk),
                    (w2, found ++ [Ev digest true])))
            /\ (checksum_on_disk = Some value ->
                proceeds_to_upload host module (Some algorithm) (Some value) name' fmt file
                  (w2, found ++ [Ev digest true]) run))
        /\ (truthy (image_import.checksum p) = false ->
            proceeds_to_upload host module None None name' fmt file (w1, found) run)
        /\ (forall algorithm : string,
               image_import.checksum p = Some (algorithm +:+ ":") ->
               str_mem ":" algorithm = false ->
               proceeds_to_upload host module (Some algorithm) (Some EmptyString) name' fmt
                 file (w1, found) run)).
Proof.
  intros W host module p. split.
  - intros w tr.
    destruct (image_import_core_settled host module w tr) as (log & Ht & Hw & Hs).
    exists log. split; [exact Ht|]. split; [exact Hw|].
    intros pre post name file format wait timeout kwargs reply algorithm value Hlog Hc Ha Hv.
    destruct (settled_is_reconciled _ _ _ Hs) as [_ Hall].
    destruct (Hall pre _ post Hlog eq_refl) as (_ & Hj & _).
    exact (proj1 (proj2 (proj2 Hj)) algorithm value Hc Ha Hv).
  - intros w w0 w1 tr name' key fmt file Hcheck Hstate Huri Hlocal Hkey Hget Hfmt Ht Hex
           found run.
    rewrite <- Huri in Hlocal.
    assert (Hup : forall algorithm value w2 checked,
               image_import.split_checksum (image_import.checksum p) = inr (algorithm, value) ->
               (if truthy value
                then handle host (module_digest_from_file file algorithm) w1
                     = (Returned value, w2)
                else w2 = w1) ->
               checked = found ++ (if truthy value
                                   then [Ev (module_digest_from_file file algorithm) true]
                                   else []) ->
               proceeds_to_upload host module algorithm value name' fmt file (w2, checked)
                 run).
    { intros algorithm value w2 checked Hsplit Hdig -> w3 w4 w5 size_on_disk image
             Hre Hsize Hupl.
      subst run.
      rewrite (core_local_import host module w w0 tr algorithm value name' key fmt
                 Hcheck Hstate Hsplit Hlocal Hkey Hget Hfmt Ht).
      fold p. rewrite Huri.
      destruct (proj2 (import_from_disk_verifies W host algorithm value fmt
                         (image_import.id p) name' (image_import.state p)
                         (image_import.timeout p) file (image_import.wait p) w0 w1 w2
                         (tr ++ [Ev (cloud_get_image key) true]) value Hex Hdig)
                  (ltac:(destruct (truthy value); [right; reflexivity | left; reflexivity]))
                  w3 w4 w5 size_on_disk image Hre Hsize Hupl)
        as (w6 & rest & Hrun & Hrest).
      exists w6, rest. split; [|exact Hrest].
      unfold bind. rewrite Hrun. cbv beta iota. unfold ret. f_equal. f_equal.
      unfold found. simpl snd. rewrite <- !app_assoc. reflexivity. }
    split; [|split].
    + intros algorithm value w2 checksum_on_disk Hc Ha Hv digest Hdig.
      pose proof (split_checksum_joined algorithm value Ha) as Hsplit. rewrite <- Hc in Hsplit.
      assert (Hval : truthy (Some value) = true) by (destruct value; [congruence | reflexivity]).
      split.
      * intros Hne. subst run.
        rewrite (core_local_import host module w w0 tr (Some algorithm) (Some value) name'
                   key fmt Hcheck Hstate Hsplit Hlocal Hkey Hget Hfmt Ht).
        fold p. rewrite Huri.
        assert (Hdig' : if truthy (Some value)
                        then handle host digest w1 = (Returned checksum_on_disk, w2)
                        else w2 = w1) by (rewrite Hval; exact Hdig).
        pose proof (proj1 (import_from_disk_verifies W host (Some algorithm) (Some value) fmt
                             (image_import.id p) name' (image_import.state p)
                             (image_import.timeout p) file (image_import.wait p) w0 w1 w2
                             (tr ++ [Ev (cloud_get_image key) true]) checksum_on_disk
                             Hex Hdig')
                      Hval (fun H => Hne (eq_sym H))) as Hrun.
        unfold bind. rewrite Hrun. rewrite Hval. unfold found.
        rewrite <- !app_assoc. reflexivity.
      * intros ->. apply (Hup (Some algorithm) (Some value) w2); [exact Hsplit | |].
        -- rewrite Hval. exact Hdig.
        -- rewrite Hval. reflexivity.
    + intros Hnone. apply (Hup None None w1).
      * unfold image_import.split_checksum. rewrite Hnone. reflexivity.
      * reflexivity.
      * simpl. rewrite app_nil_r. reflexivity.
    + intros algorithm Hc Ha.
      pose proof (split_checksum_joined algorithm EmptyString Ha) as Hsplit.
      rewrite <- Hc in Hsplit.
      apply (Hup (Some algorithm) (Some EmptyString) w1); [exact Hsplit | reflexivity |].
      simpl. rewrite app_nil_r. reflexivity.
Qed.

Lemma checksum_before_upload_witness :
  image_import.core demo.host import_wrong_digest (demo.world, [])
  = (inl (checksum_mismatch (Some "ffff") (Some "00f76f2f")),
     (demo.world,
      [Ev (cloud_get_image (Some "debian-10.qcow2")) true;
       Ev (os_path_exists "/srv/images/debian-10.qcow2") true;
       Ev (module_digest_from_file "/srv/images/debian-10.qcow2" (Some "sha256")) true])).
Proof.
  assert (Hkey : identity_key None None (Some "/srv/images/debian-10.qcow2")
                   (Some "debian-10.qcow2") (Some "debian-10.qcow2")).
  { right. split; [reflexivity|]. exists "/srv/images/debian-10.qcow2".
    repeat split; discriminate. }
  refine (proj1 (proj1 (proj2 (checksum_before_upload demo.World demo.host
                                 import_wrong_digest)
                          demo.world demo.world demo.world [] (Some "debian-10.qcow2")
                          (Some "debian-10.qcow2") (Some "qcow2")
                          "/srv/images/debian-10.qcow2"
                          eq_refl eq_refl eq_refl eq_refl Hkey eq_refl eq_refl eq_refl
                          eq_refl)
                   "sha256" "ffff" demo.world (Some "00f76f2f") eq_refl eq_refl _ eq_refl)
            _); discriminate.
Defined.

(** The checksum [sha256:] names an algorithm and an empty value.  The
    digest of the file is not empty, yet nothing is computed or compared:
    the file is uploaded and the run reports [changed=true]. *)
Lemma empty_digest_is_not_compared :
  image_import.checksum (image_import.params import_unverified) = Some ("sha256" +:+ ":")
  /\ handle demo.host (module_digest_from_file "/srv/images/debian-10.qcow2" (Some "sha256"))
       demo.world
     = (Returned (Some "00f76f2f"), demo.world)
  /\ fst (image_import.core demo.host import_unverified (demo.world, []))
     = inr (image_result (image_import.params import_unverified) (Some "sha256")
              (Some EmptyString) true (Some "1961709b-64c0") (Some "debian-10.qcow2")
              (Some 536392192%Z) (Some "qcow2"))
  /\ snd (snd (image_import.core demo.host import_unverified (demo.world, [])))
     = [Ev (cloud_get_image (Some "debian-10.qcow2")) true;
        Ev (os_path_exists "/srv/images/debian-10.qcow2") true;
        Ev (cloud_get_image (Some "debian-10.qcow2")) true;
        Ev (os_path_getsize "/srv/images/debian-10.qcow2") true;
        Ev (cloud_create_image (Some "debian-10.qcow2") "/srv/images/debian-10.qcow2"
              (Some "qcow2") true 180
              (upload_kwargs None (Some "sha256") (Some EmptyString))) true].
Proof. repeat split; vm_compute; reflexivity. Qed.

(** C10.  Desired state [present], a local locator, an id but no name, no
    format, and no image with that id: the format default is computed from
    the absent name, and the run ends in a [TypeError], not in the
    [ValueError] of an underivable format, right after the lookup. *)
Theorem import_by_id_without_name :
  forall (W : Type) (host : Host W) (algorithm checksum format id : pystr) (state : string)
         (timeout : Z) (uri : pystr) (wait : bool) (w w' : W) (tr : list Event),
    image_import.uri_is_url host uri = false ->
    truthy id = true ->
    truthy format = false ->
    handle host (cloud_get_image id) w = (Returned None, w') ->
    image_import.import_ host algorithm checksum format id None state timeout uri wait (w, tr)
    = (inl image_import.none_is_no_path, (w', tr ++ [Ev (cloud_get_image id) true])).
Proof.
  intros W host algorithm checksum format id state timeout uri wait w w' tr
         Hlocal Hid Hfmt Hget.
  unfold image_import.import_. rewrite Hlocal. cbv iota.
  replace (py_or id None) with id by (unfold py_or; rewrite Hid; reflexivity).
  rewrite Hid. change (negb true) with false. cbv iota.
  rewrite bind_ret. run_call Hget.
  unfold image_import.default_format. rewrite Hfmt. reflexivity.
Qed.

Lemma import_by_id_without_name_witness :
  image_import.import_ demo.host None None None (Some "0c1d") None "present" 180
    (Some "/srv/images/cirros") true (demo.world, [])
  = (inl image_import.none_is_no_path,
     (demo.world, [Ev (cloud_get_image (Some "0c1d")) true])).
Proof.
  exact (import_by_id_without_name demo.World demo.host None None None (Some "0c1d")
           "present" 180 (Some "/srv/images/cirros") true demo.world demo.world []
           eq_refl eq_refl eq_refl eq_refl).
Defined.

(** C9.  Desired state [absent] and no image under the identity key: the
    run reports [changed=false] with [size] and [format] both null,
    whatever format the caller gave, [id] as given, and [name] as given or,
    when neither id nor name was given, the base name of the locator. *)
Theorem delete_absent_reports_null :
  forall (W : Type) (host : Host W) (module : image_import.AnsibleModule)
         (w w' : W) (tr : list Event) (algorithm checksum name' key : pystr),
    let p := image_import.params module in
    image_import.check_mode module = false ->
    image_import.state p = "absent" ->
    image_import.split_checksum (image_import.checksum p) = inr (algorithm, checksum) ->
    (truthy (py_or (image_import.id p) (image_import.name p)) = false ->
     image_import.uri_is_url host (image_import.uri p) = false) ->
    identity_key (image_import.id p) (image_import.name p) (image_import.uri p) name' key ->
    handle host (cloud_get_image key) w = (Returned None, w') ->
    image_import.core host module (w, tr)
    = (inr (image_result p algorithm checksum false (image_import.id p) name' None None),
       (w', tr ++ [Ev (cloud_get_image key) true])).
Proof.
  intros W host module w w' tr algorithm checksum name' key p
         Hcheck Hstate Hsplit Hlocal Hkey Hget.
  assert (Hdel : image_import.delete host algorithm checksum (image_import.format p)
                   (image_import.id p) (image_import.name p) (image_import.state p)
                   (image_import.timeout p) (image_import.uri p) (image_import.wait p) (w, tr)
                 = (inr (false, image_import.id p, name', None, None),
                    (w', tr ++ [Ev (cloud_get_image key) true]))).
  { unfold image_import.delete.
    destruct Hkey as [(Ht & -> & ->) | (Ht & u & Hu & Hbase & -> & ->)].
    - rewrite Ht. change (negb true) with false. cbv iota.
      rewrite bind_ret. run_call Hget. reflexivity.
    - rewrite Ht, (Hlocal Ht), Hu. change (negb false) with true. cbv iota.
      unfold image_import.basename_of, lift. rewrite bind_ret.
      destruct (os_path_basename u) as [|c b] eqn:Hb; [congruence|].
      change (negb (truthy (Some (String c b)))) with false. cbv iota.
      rewrite bind_ret. run_call Hget. reflexivity. }
  unfold image_import.core. fold p. rewrite Hsplit. simpl lift. rewrite bind_ret.
  rewrite Hcheck, Hstate. simpl bool_decide. cbv iota.
  rewrite Hstate in Hdel. run_with Hdel.
  unfold image_result. rewrite Hstate. reflexivity.
Qed.

Lemma delete_absent_reports_null_witness :
  fst (image_import.core demo.host
         (image_request None (Some "raw") None None "absent" (Some "/srv/images/cirros") false)
         (demo.world, []))
  = inr (dict [("changed", VBool false); ("size", VNone); ("checksum", VNone);
               ("format", VNone); ("id", VNone); ("name", VStr "cirros");
               ("state", VStr "absent"); ("timeout", VInt 180);
               ("uri", VStr "/srv/images/cirros"); ("wait", VBool true)]).
Proof.
  refine (f_equal fst
            (delete_absent_reports_null demo.World demo.host
               (image_request None (Some "raw") None None "absent" (Some "/srv/images/cirros")
                  false)
               demo.world demo.world [] None None (Some "cirros") (Some "cirros")
               eq_refl eq_refl eq_refl (fun _ => eq_refl) _ eq_refl)).
  right. split; [reflexivity|]. exists "/srv/images/cirros".
  repeat split; discriminate.
Defined.

(** X16.  Desired state [present] and an image already under the identity
    key.  For a local locator the key is the id if given, else the name if
    given, else the base name of the locator, and the run reports
    [changed=false] with the id, name, size and format of that image after
    the lookup alone.  For a remote locator whose response is open, with a
    file name found and a format given or derived, the run reports the
    same after the lookup, the key being the id if given, else the name if
    given, else that file name, unless closing the response or removing
    the directory fails.  In both cases nothing is copied to disk, no
    digest is computed and nothing is uploaded or deleted. *)
Theorem import_existing_is_noop :
  forall (W : Type) (host : Host W) (algorithm checksum format id name : pystr)
         (state : string) (timeout : Z) (uri : pystr) (wait : bool) (image : Image)
         (tr : list Event),
    let found :=
      (false, img_id image, img_name image, img_size image, img_disk_format image) in
    (forall (w w' : W) (name' key : pystr),
        image_import.uri_is_url host uri = false ->
        identity_key id name uri name' key ->
        handle host (cloud_get_image key) w = (Returned (Some image), w') ->
        image_import.import_ host algorithm checksum format id name state timeout uri wait
          (w, tr)
        = (inr found, (w', tr ++ [Ev (cloud_get_image key) true])))
    /\
    (forall (u : string) (w w1 w2 w3 : W) (dir : string) (r : Response) (fmt : pystr),
        uri = Some u ->
        image_import.uri_is_url host uri = true ->
        handle host tempfile_TemporaryDirectory w = (Returned dir, w1) ->
        handle host (open_url u) w1 = (Returned r, w2) ->
        let filename := remote_filename host r u name in
        let name' := if negb (truthy name) then filename else name in
        truthy filename = true ->
        image_import.default_format format name' = inr fmt ->
        truthy fmt = true ->
        handle host (cloud_get_image (py_or id name')) w2 = (Returned (Some image), w3) ->
        forall (w4 w5 : W) (closed cleaned : Reply unit),
          handle host (response_close r) w3 = (closed, w4) ->
          handle host (tempfile_cleanup dir) w4 = (cleaned, w5) ->
          image_import.import_ host algorithm checksum format id name state timeout uri wait
            (w, tr)
          = (after_release (inr found) closed cleaned,
             (w5, tr ++ [Ev tempfile_TemporaryDirectory true;
                         Ev (open_url u) true;
                         Ev (cloud_get_image (py_or id name')) true;
                         Ev (response_close r) (replied closed);
                         Ev (tempfile_cleanup dir) (replied cleaned)]))).
Proof.
  intros W host algorithm checksum format id name state timeout uri wait image tr found.
  split.
  - intros w w' name' key Hlocal Hkey Hget.
    unfold image_import.import_. rewrite Hlocal. cbv iota.
    destruct Hkey as [(Ht & -> & ->) | (Ht & u & Hu & Hbase & -> & ->)].
    + rewrite Ht. change (negb true) with false. cbv iota.
      rewrite bind_ret. run_call Hget. reflexivity.
    + rewrite Ht, Hu. change (negb false) with true. cbv iota.
      unfold image_import.basename_of, lift. rewrite bind_ret.
      destruct (os_path_basename u) as [|c b] eqn:Hb; [congruence|].
      change (negb (truthy (Some (String c b)))) with false. cbv iota.
      rewrite bind_ret. run_call Hget. reflexivity.
  - intros u w w1 w2 w3 dir r fmt Hu Hurl Hdir Hopen filename name' Hfile Hfmt Hfmt' Hget
           w4 w5 closed cleaned Hclose Hclean.
    unfold image_import.import_. rewrite Hurl, Hu. cbv iota.
    unfold with_ at 1. rewrite (call_returned host _ _ _ _ _ Hdir).
    unfold bind at 1. unfold with_ at 1. rewrite (call_returned host _ _ _ _ _ Hopen).
    fold (remote_filename host r u name). fold filename. fold name'.
    rewrite Hfile. change (negb true) with false. cbv iota.
    rewrite Hfmt. simpl lift. rewrite bind_ret. rewrite Hfmt'.
    change (negb true) with false. cbv iota.
    run_call Hget. unfold ret at 1. unfold call. rewrite Hclose. cbv beta iota.
    rewrite <- !app_assoc.
    destruct closed as [[]|err]; cbv beta iota delta [ret]; rewrite Hclean;
      destruct cleaned as [[]|err']; rewrite <- !app_assoc; reflexivity.
Qed.

Lemma import_existing_is_noop_witness :
  image_import.import_ demo.host None None None None None "present" 180
    (Some "/srv/images/debian") true (demo.world, [])
  = (inr (false, Some "7a3f", Some "debian", Some 536392192%Z, Some "qcow2"),
     (demo.world, [Ev (cloud_get_image (Some "debian")) true])).
Proof.
  refine (proj1 (import_existing_is_noop demo.World demo.host None None None None None
                   "present" 180 (Some "/srv/images/debian") true demo.debian [])
            demo.world demo.world (Some "debian") (Some "debian") eq_refl _ eq_refl).
  right. split; [reflexivity|]. exists "/srv/images/debian".
  repeat split; discriminate.
Defined.

(** C1.  An image with the id asked for exists, and the import by that id
    from a local locator reports it with [changed=false] after the lookup
    alone.  The import by the same id from a remote locator whose name has
    no extension does not: it fails on the format before it looks the
    image up, and returns nothing. *)
Lemma import_existing_remote_without_format :
  handle demo.host (cloud_get_image (Some "7a3f")) demo.world
  = (Returned (Some demo.debian), demo.world)
  /\ image_import.core demo.host import_existing_local_by_id (demo.world, [])
     = (inr (image_result (image_import.params import_existing_local_by_id) None None false
               (Some "7a3f") (Some "debian") (Some 536392192%Z) (Some "qcow2")),
        (demo.world, [Ev (cloud_get_image (Some "7a3f")) true]))
  /\ image_import.core demo.host import_existing_by_id (demo.world, [])
     = (inl format_error_remote,
        (demo.world,
         [Ev tempfile_TemporaryDirectory true;
          Ev (open_url "https://example.com/debian") true;
          Ev (response_close {| getheader := fun h =>
                                  if bool_decide (h = "Content-Disposition")
                                  then None else None |}) true;
          Ev (tempfile_cleanup "/tmp/tmpk3x") true]))
  /\ ~ exists d, fst (image_import.core demo.host import_existing_by_id (demo.world, []))
                 = inr d.
Proof.
  split; [reflexivity|]. split; [vm_compute; reflexivity|]. split; [reflexivity|].
  intros [d H]. vm_compute in H. discriminate H.
Qed.

(** ** Extensions *)

Lemma str_rfind_ge (c : ascii) (s : string) : (-1 <= str_rfind c s)%Z.
Proof.
  induction s as [|a s IH]; simpl; [lia|].
  destruct (0 <=? str_rfind c s)%Z eqn:E; [apply Z.leb_le in E; lia|].
  case_bool_decide; lia.
Qed.

Lemma str_rfind_app (c : ascii) (a b : string) :
  str_rfind c (a +:+ b)
  = if (0 <=? str_rfind c b)%Z then (Z.of_nat (String.length a) + str_rfind c b)%Z
    else str_rfind c a.
Proof.
  induction a as [|x a IH].
  - change (EmptyString +:+ b) with b.
    change (Z.of_nat (String.length EmptyString)) with 0%Z.
    change (str_rfind c EmptyString) with (-1)%Z.
    pose proof (str_rfind_ge c b).
    destruct (0 <=? str_rfind c b)%Z eqn:E; [lia|]. apply Z.leb_gt in E. lia.
  - change (String x a +:+ b) with (String x (a +:+ b)).
    cbn [str_rfind String.length]. rewrite IH.
    destruct (0 <=? str_rfind c b)%Z eqn:E; [|reflexivity].
    apply Z.leb_le in E.
    rewrite (proj2 (Z.leb_le 0 (Z.of_nat (String.length a) + str_rfind c b))) by lia. lia.
Qed.

Lemma str_drop_app (a b : string) (n : nat) :
  str_drop (String.length a + n) (a +:+ b) = str_drop n b.
Proof. induction a as [|x a IH]; simpl; [reflexivity | exact IH]. Qed.

Lemma str_drop_drop (m n : nat) (s : string) :
  str_drop n (str_drop m s) = str_drop (m + n) s.
Proof.
  revert s. induction m as [|m IH]; intros s; simpl; [reflexivity|].
  destruct s as [|a s]; [destruct n; reflexivity | apply IH].
Qed.

Lemma splitext_scan_some (fuel : nat) (p : string) (i d : nat) (r : string * string) :
  splitext_scan fuel p i d = Some r -> r = (str_take d p, str_drop d p).
Proof.
  revert i. induction fuel as [|fuel IH]; intros i; simpl; [discriminate|].
  case_bool_decide; [|discriminate].
  case_bool_decide; [intros [= <-]; reflexivity | apply IH].
Qed.

(** The scan needs no more fuel than the distance it has to cover, which
    is what [os_path_splitext] gives it: more fuel changes nothing. *)
Lemma splitext_scan_fuel (fuel fuel' : nat) (p : string) (i d : nat) :
  (d - i <= fuel)%nat -> (d - i <= fuel')%nat ->
  splitext_scan fuel p i d = splitext_scan fuel' p i d.
Proof.
  revert fuel' i. induction fuel as [|fuel IH]; intros fuel' i Hf Hf'.
  - destruct fuel' as [|fuel']; [reflexivity|]. simpl.
    rewrite bool_decide_eq_false_2 by lia. reflexivity.
  - destruct fuel' as [|fuel']; simpl.
    + rewrite bool_decide_eq_false_2 by lia. reflexivity.
    + case_bool_decide; [|reflexivity].
      case_bool_decide; [reflexivity|]. apply IH; lia.
Qed.

(** The extension [splitext] reports is empty or starts at the last dot. *)
Lemma os_path_splitext_ext (p : string) :
  snd (os_path_splitext p) = EmptyString
  \/ ((0 <= str_rfind "."%char p)%Z
      /\ snd (os_path_splitext p) = str_drop (Z.to_nat (str_rfind "."%char p)) p).
Proof.
  unfold os_path_splitext.
  pose proof (str_rfind_ge "/"%char p) as Hsep.
  destruct (str_rfind "/"%char p <? str_rfind "."%char p)%Z eqn:E; [|left; reflexivity].
  apply Z.ltb_lt in E.
  destruct (splitext_scan _ p _ _) as [r|] eqn:Hscan; [|left; reflexivity].
  apply splitext_scan_some in Hscan. subst r. right. split; [lia | reflexivity].
Qed.

Lemma default_format_by_extension (format : pystr) (n : string) :
  truthy format = false ->
  let ext := snd (os_path_splitext n) in
  (ext = EmptyString -> image_import.default_format format (Some n) = inr (Some EmptyString))
  /\ ((1 < String.length ext)%nat ->
      image_import.default_format format (Some n) = inr (Some (after_last_dot n))
      /\ truthy (Some (after_last_dot n)) = true).
Proof.
  intros Hf ext. unfold image_import.default_format. rewrite Hf. simpl negb. cbv iota.
  fold ext. split.
  - intros ->. reflexivity.
  - intros Hlen.
    destruct (os_path_splitext_ext n) as [He | [Hdot He]]; fold ext in He.
    { rewrite He in Hlen. simpl in Hlen. lia. }
    assert (Hdrop : str_drop 1 ext = after_last_dot n).
    { unfold after_last_dot. rewrite (proj2 (Z.leb_le 0 _)) by exact Hdot.
      rewrite He, str_drop_drop. f_equal. lia. }
    rewrite bool_decide_eq_true_2 by exact Hlen.
    destruct ext as [|a [|b ext']]; simpl in Hlen; try lia.
    simpl truthy. simpl andb. cbv iota. rewrite Hdrop. split; [reflexivity|].
    rewrite <- Hdrop. reflexivity.
Qed.

Lemma basename_under_directory (dir f : string) :
  str_rfind "/"%char f = (-1)%Z ->
  os_path_basename (dir +:+ String "/" f) = f.
Proof.
  intros Hf.
  assert (Hs : str_rfind "/"%char (String "/" f) = 0%Z)
    by (cbn [str_rfind]; rewrite Hf; reflexivity).
  unfold os_path_basename. rewrite str_rfind_app, Hs.
  change (0 <=? 0)%Z with true. cbv iota.
  replace (Z.to_nat (Z.of_nat (String.length dir) + 0 + 1)) with (String.length dir + 1)%nat
    by lia.
  rewrite str_drop_app. reflexivity.
Qed.

Lemma str_rfind_mem (c : ascii) (s : string) :
  (0 <=? str_rfind c s)%Z = str_mem c s.
Proof.
  induction s as [|a s IH]; [reflexivity|]. cbn [str_rfind str_mem].
  rewrite <- IH. pose proof (str_rfind_ge c s).
  destruct (0 <=? str_rfind c s)%Z eqn:E.
  - apply Z.leb_le in E. rewrite orb_true_r. apply Z.leb_le. lia.
  - rewrite orb_false_r. case_bool_decide; reflexivity.
Qed.

Lemma str_endswith_mem (c : ascii) (s : string) :
  str_endswith c s = true -> str_mem c s = true.
Proof.
  induction s as [|x s IH]; [discriminate|]. cbn [str_endswith str_mem].
  destruct s as [|y s]; [intros ->; reflexivity|].
  intros H. rewrite (IH H). apply orb_true_r.
Qed.

Lemma str_app_cons (x : ascii) (a b : string) : String x a +:+ b = String x (a +:+ b).
Proof. reflexivity. Qed.

Lemma str_app_nil (b : string) : EmptyString +:+ b = b.
Proof. reflexivity. Qed.

Lemma str_app_assoc (a b c : string) : (a +:+ b) +:+ c = a +:+ (b +:+ c).
Proof.
  induction a as [|x a IH]; [reflexivity|]. rewrite !str_app_cons, IH. reflexivity.
Qed.

Lemma str_length_app (a b : string) :
  String.length (a +:+ b) = (String.length a + String.length b)%nat.
Proof.
  induction a as [|x a IH]; [reflexivity|].
  rewrite str_app_cons. cbn [String.length]. rewrite IH. reflexivity.
Qed.

Lemma str_mem_app (c : ascii) (a b : string) :
  str_mem c (a +:+ b) = str_mem c a || str_mem c b.
Proof.
  induction a as [|x a IH]; [reflexivity|].
  rewrite str_app_cons. cbn [str_mem]. rewrite IH, orb_assoc. reflexivity.
Qed.

Lemma str_rfind_none (c : ascii) (s : string) :
  str_mem c s = false -> str_rfind c s = (-1)%Z.
Proof.
  intros H. rewrite <- str_rfind_mem in H. apply Z.leb_gt in H.
  pose proof (str_rfind_ge c s). lia.
Qed.

Lemma str_take_app (a b : string) : str_take (String.length a) (a +:+ b) = a.
Proof.
  induction a as [|x a IH]; [destruct b; reflexivity|].
  rewrite str_app_cons. cbn [String.length str_take]. rewrite IH. reflexivity.
Qed.

Lemma str_drop_length_app (a b : string) : str_drop (String.length a) (a +:+ b) = b.
Proof.
  induction a as [|x a IH]; [reflexivity|].
  rewrite str_app_cons. cbn [String.length str_drop]. exact IH.
Qed.

(** The last slash of a directory part is its last character. *)
Lemma str_rfind_directory (d : string) :
  d = EmptyString \/ str_endswith "/" d = true ->
  str_rfind "/" d = (Z.of_nat (String.length d) - 1)%Z.
Proof.
  intros [-> | H]; [reflexivity|].
  induction d as [|x d IH]; [discriminate|].
  cbn [str_rfind String.length]. destruct d as [|y d].
  - simpl in H. apply bool_decide_eq_true in H. subst x. reflexivity.
  - change (str_endswith "/" (String x (String y d))) with (str_endswith "/" (String y d)) in H.
    rewrite (IH H). cbn [String.length].
    rewrite (proj2 (Z.leb_le 0 _)) by lia. lia.
Qed.

Lemma str_rfind_lt (c : ascii) (s : string) : (str_rfind c s < Z.of_nat (String.length s))%Z.
Proof.
  induction s as [|a s IH]; cbn [str_rfind String.length]; [lia|].
  destruct (0 <=? str_rfind c s)%Z; [lia|]. case_bool_decide; lia.
Qed.

(** The character at an index behind a prefix. *)
Lemma str_at_app (a b : string) (j : nat) :
  str_at (String.length a + j) (a +:+ b) = str_at j b.
Proof. unfold str_at. rewrite str_drop_app. reflexivity. Qed.

Lemma str_at_dots (k j : nat) (e : string) : (j < k)%nat -> str_at j (dots k +:+ e) = ".".
Proof.
  revert j. induction k as [|k IH]; intros j Hj; [lia|].
  destruct j as [|j]; [reflexivity|]. apply (IH j). lia.
Qed.

(** A string that is not of dots only has a first character that is no
    dot. *)
Lemma only_dots_false (b : string) :
  only_dots b = false ->
  exists j, (j < String.length b)%nat /\ str_at j b <> "."
            /\ forall i, (i < j)%nat -> str_at i b = ".".
Proof.
  induction b as [|x b IH]; [discriminate|]. simpl.
  case_bool_decide as Hx; simpl.
  - intros H. destruct (IH H) as (j & Hj & Hat & Hbefore). exists (S j).
    split; [lia|]. split; [exact Hat|].
    intros [|i] Hi; [subst x; reflexivity | apply Hbefore; lia].
  - intros _. exists 0%nat. split; [lia|]. split; [|intros i Hi; lia].
    unfold str_at. simpl. destruct b; congruence.
Qed.

Lemma only_dots_true (b : string) : only_dots b = true -> b = dots (String.length b).
Proof.
  induction b as [|x b IH]; [reflexivity|]. simpl.
  intros [Hx Hb]%andb_true_iff. apply bool_decide_eq_true in Hx. subst x.
  rewrite <- (IH Hb). reflexivity.
Qed.

(** The scan stops at the first character that is no dot. *)
Lemma splitext_scan_stops (fuel : nat) (p : string) (i j d : nat) :
  (i <= j < d)%nat -> (d - i <= fuel)%nat -> str_at j p <> "." ->
  splitext_scan fuel p i d = Some (str_take d p, str_drop d p).
Proof.
  revert i. induction fuel as [|fuel IH]; intros i Hij Hf Hat; [lia|].
  simpl. rewrite bool_decide_eq_true_2 by lia.
  case_bool_decide as Hi; [reflexivity|].
  apply IH; [|lia | exact Hat].
  destruct (decide (i = j)) as [-> | Hne]; [|lia].
  exfalso. apply Hat. destruct (decide (str_at j p = ".")); [assumption | contradiction].
Qed.

Lemma splitext_scan_dots (fuel : nat) (p : string) (i d : nat) :
  (forall j, (i <= j < d)%nat -> str_at j p = ".") ->
  splitext_scan fuel p i d = None.
Proof.
  revert i. induction fuel as [|fuel IH]; intros i Hall; [reflexivity|].
  simpl. case_bool_decide as Hlt; [|reflexivity].
  rewrite bool_decide_eq_false_2 by (intros H; apply H, Hall; lia).
  apply IH. intros j Hj. apply Hall. lia.
Qed.

Lemma str_at_prefix (a b : string) (j : nat) :
  (j < String.length a)%nat -> str_at j (a +:+ b) = str_at j a.
Proof.
  revert j. induction a as [|x a IH]; intros j Hj; [simpl in Hj; lia|].
  destruct j as [|j]; [reflexivity|].
  rewrite str_app_cons. unfold str_at. cbn [str_drop].
  apply (IH j). simpl in Hj. lia.
Qed.

Lemma str_mem_dots (c : ascii) (k : nat) : c <> "."%char -> str_mem c (dots k) = false.
Proof.
  intros Hc. induction k as [|k IH]; [reflexivity|]. simpl.
  rewrite bool_decide_eq_false_2 by congruence. exact IH.
Qed.

Lemma dots_shift (k : nat) (e : string) : dots k +:+ String "." e = dots (S k) +:+ e.
Proof.
  induction k as [|k IH]; [reflexivity|].
  change (dots (S k)) with (String "." (dots k)). rewrite str_app_cons, IH. reflexivity.
Qed.

Lemma str_length_dots (k : nat) : String.length (dots k) = k.
Proof. induction k as [|k IH]; [reflexivity|]. simpl. rewrite IH. reflexivity. Qed.

Lemma str_rfind_last_dot (b e : string) :
  str_mem "." e = false ->
  str_rfind "." (b +:+ String "." e) = Z.of_nat (String.length b).
Proof.
  intros He. rewrite str_rfind_app.
  assert (H0 : str_rfind "." (String "." e) = 0%Z).
  { cbn [str_rfind]. rewrite (str_rfind_none _ _ He). reflexivity. }
  rewrite H0. change (0 <=? 0)%Z with true. cbv iota. lia.
Qed.

(** A name with an extension: [splitext] splits it at the last dot. *)
Lemma os_path_splitext_extension (d b e : string) :
  str_mem "/" b = false -> only_dots b = false ->
  str_mem "/" e = false -> str_mem "." e = false ->
  os_path_splitext (d +:+ b +:+ String "." e) = (d +:+ b, String "." e)
  /\ after_last_dot (d +:+ b +:+ String "." e) = e.
Proof.
  intros Hb Hdots He Hdot.
  rewrite <- str_app_assoc.
  assert (Hdotidx : str_rfind "." ((d +:+ b) +:+ String "." e)
                    = Z.of_nat (String.length (d +:+ b)))
    by (apply str_rfind_last_dot; exact Hdot).
  split.
  - unfold os_path_splitext. rewrite Hdotidx.
    assert (Hsep : str_rfind "/" ((d +:+ b) +:+ String "." e) = str_rfind "/" d).
    { rewrite str_rfind_app.
      assert (H1 : str_rfind "/" (String "." e) = (-1)%Z).
      { cbn [str_rfind]. rewrite (str_rfind_none _ _ He). reflexivity. }
      rewrite H1. change (0 <=? -1)%Z with false. cbv iota.
      rewrite str_rfind_app, (str_rfind_none _ _ Hb). reflexivity. }
    rewrite Hsep. pose proof (str_rfind_lt "/" d) as Hlt.
    pose proof (str_rfind_ge "/" d) as Hge.
    rewrite str_length_app in *.
    rewrite (proj2 (Z.ltb_lt _ _)) by lia.
    destruct (only_dots_false b Hdots) as (j & Hj & Hat & _).
    rewrite (splitext_scan_stops _ _ _ (String.length d + j)).
    + rewrite Nat2Z.id, <- str_length_app, str_take_app, str_drop_length_app. reflexivity.
    + lia.
    + lia.
    + rewrite str_app_assoc, str_at_app, str_at_prefix by exact Hj. exact Hat.
  - unfold after_last_dot. rewrite Hdotidx.
    rewrite (proj2 (Z.leb_le 0 _)) by lia.
    replace (Z.to_nat (Z.of_nat (String.length (d +:+ b)) + 1))
      with (String.length (d +:+ b) + 1)%nat by lia.
    rewrite str_drop_app. reflexivity.
Qed.

(** A name without extension: [splitext] gives none. *)
Lemma os_path_splitext_no_extension (d : string) (k : nat) (e : string) :
  d = EmptyString \/ str_endswith "/" d = true ->
  str_mem "/" e = false -> str_mem "." e = false ->
  snd (os_path_splitext (d +:+ dots k +:+ e)) = EmptyString.
Proof.
  intros Hd He Hdot. unfold os_path_splitext.
  assert (Hsep : str_rfind "/" (d +:+ dots k +:+ e)
                 = (Z.of_nat (String.length d) - 1)%Z).
  { rewrite str_rfind_app, (str_rfind_none "/" (dots k +:+ e)).
    - change (0 <=? -1)%Z with false. cbv iota. apply str_rfind_directory. exact Hd.
    - rewrite str_mem_app, He, str_mem_dots by discriminate. reflexivity. }
  rewrite Hsep. destruct k as [|k].
  - change (dots 0 +:+ e) with e.
    rewrite str_rfind_app, (str_rfind_none _ _ Hdot).
    change (0 <=? -1)%Z with false. cbv iota.
    pose proof (str_rfind_lt "." d).
    rewrite (proj2 (Z.ltb_ge _ _)) by lia. reflexivity.
  - assert (Hdotidx : str_rfind "." (d +:+ dots (S k) +:+ e)
                      = (Z.of_nat (String.length d) + Z.of_nat k)%Z).
    { rewrite str_rfind_app.
      assert (H1 : str_rfind "." (dots (S k) +:+ e) = Z.of_nat k).
      { clear Hsep. induction k as [|k IH].
        - change (dots 1 +:+ e) with (String "." e). cbn [str_rfind].
          rewrite (str_rfind_none _ _ Hdot). reflexivity.
        - change (dots (S (S k)) +:+ e) with (String "." (dots (S k) +:+ e)).
          cbn [str_rfind]. rewrite IH.
          rewrite (proj2 (Z.leb_le 0 _)) by lia. lia. }
      rewrite H1. rewrite (proj2 (Z.leb_le 0 _)) by lia. reflexivity. }
    rewrite Hdotidx. rewrite (proj2 (Z.ltb_lt _ _)) by lia.
    rewrite splitext_scan_dots; [reflexivity|].
    intros j Hj.
    replace j with (String.length d + (j - String.length d))%nat by lia.
    rewrite str_at_app. apply str_at_dots. lia.
Qed.

(** Every name splits into a directory part and a last component. *)
Lemma split_directory (n : string) :
  exists d base : string,
    n = d +:+ base /\ str_mem "/" base = false
    /\ (d = EmptyString \/ str_endswith "/" d = true).
Proof.
  induction n as [|a r (d & base & Hn & Hbase & Hd)].
  - exists EmptyString, EmptyString. auto.
  - destruct Hd as [-> | Hd].
    + rewrite str_app_nil in Hn. subst r.
      destruct (decide (a = "/"%char)) as [-> | Ha].
      * exists "/", base. split; [reflexivity|]. split; [exact Hbase | right; reflexivity].
      * exists EmptyString, (String a base). split; [reflexivity|].
        split; [|left; reflexivity].
        simpl. rewrite bool_decide_eq_false_2 by exact Ha. exact Hbase.
    + exists (String a d), base. split; [rewrite str_app_cons, <- Hn; reflexivity|].
      split; [exact Hbase|]. right. destruct d; [discriminate | exact Hd].
Qed.

(** A string that holds [c] splits at the last [c]. *)
Lemma split_at_last (c : ascii) (s : string) :
  str_mem c s = true -> exists a e, s = a +:+ String c e /\ str_mem c e = false.
Proof.
  induction s as [|x s IH]; [discriminate|]. simpl.
  destruct (str_mem c s) eqn:Hs.
  - intros _. destruct (IH eq_refl) as (a & e & -> & He).
    exists (String x a), e. split; [reflexivity | exact He].
  - rewrite orb_false_r. intros ->%bool_decide_eq_true.
    exists EmptyString, s. split; [reflexivity | exact Hs].
Qed.

(** The rule is complete: a name has an extension or it has none. *)
Lemma extension_or_none (n : string) : has_no_extension n \/ exists e, has_extension n e.
Proof.
  destruct (split_directory n) as (d & base & -> & Hbase & Hd).
  destruct (str_mem "." base) eqn:Hdot.
  - destruct (split_at_last _ _ Hdot) as (b & e & -> & He).
    rewrite str_mem_app in Hbase. apply orb_false_elim in Hbase as [Hb Hse].
    simpl in Hse.
    destruct (only_dots b) eqn:Hob.
    + left. exists d, (S (String.length b)), e.
      split; [rewrite (only_dots_true _ Hob) at 1; rewrite dots_shift; reflexivity|].
      auto.
    + right. exists e, d, b. auto.
  - left. exists d, 0%nat, base. auto.
Qed.

Section extension_runs.
Context {W : Type} (host : Host W).

(** The format default of a name, by the rule. *)
Lemma default_format_by_rule (format : pystr) (n : string) :
  truthy format = false ->
  (has_no_extension n ->
   image_import.default_format format (Some n) = inr (Some EmptyString))
  /\ (forall e, has_extension n e -> e <> EmptyString ->
      image_import.default_format format (Some n) = inr (Some e) /\ truthy (Some e) = true).
Proof.
  intros Hf. destruct (default_format_by_extension format n Hf) as [Hempty Hlong]. split.
  - intros (d & k & e & -> & Hd & He & Hdot). apply Hempty.
    apply os_path_splitext_no_extension; assumption.
  - intros e (d & b & -> & Hb & Hdots & He & Hdot) Hne.
    destruct (os_path_splitext_extension d b e Hb Hdots He Hdot) as [Hsplit Hafter].
    rewrite <- Hafter at 2 3. apply Hlong. rewrite Hsplit. simpl.
    destruct e; [congruence | simpl; lia].
Qed.

(** A local import up to the format default. *)
Lemma import_local_looked_up (algorithm checksum format id name : pystr) (state : string)
    (timeout : Z) (uri : pystr) (wait : bool) (w w' : W) (tr : list Event)
    (name' key : pystr) :
  image_import.uri_is_url host uri = false ->
  identity_key id name uri name' key ->
  handle host (cloud_get_image key) w = (Returned None, w') ->
  image_import.import_ host algorithm checksum format id name state timeout uri wait (w, tr)
  = (let* format0 := lift (image_import.default_format format name') in
     if negb (truthy format0) then raise format_error_local
     else
       let* (id0, size) :=
         image_import.import_from_disk host algorithm checksum format0 id name' state
           timeout uri wait in
       ret (true, id0, name', size, format0))
      (w', tr ++ [Ev (cloud_get_image key) true]).
Proof.
  intros Hlocal Hkey Hget.
  unfold image_import.import_. rewrite Hlocal. cbv iota.
  destruct Hkey as [(Ht & -> & ->) | (Ht & u & Hu & Hbase & -> & ->)].
  - rewrite Ht. change (negb true) with false. cbv iota.
    rewrite bind_ret. run_call Hget. reflexivity.
  - rewrite Ht, Hu. change (negb false) with true. cbv iota.
    unfold image_import.basename_of, lift at 1. rewrite bind_ret.
    destruct (os_path_basename u) as [|c b] eqn:Hb; [congruence|].
    change (negb (truthy (Some (String c b)))) with false. cbv iota.
    rewrite bind_ret. run_call Hget. reflexivity.
Qed.

(** A remote import up to the format default. *)
Lemma import_remote_opened (algorithm checksum format id name : pystr) (state : string)
    (timeout : Z) (u : string) (wait : bool) (w w1 w2 : W) (tr : list Event)
    (dir : string) (r : Response) (n : string) :
  image_import.uri_is_url host (Some u) = true ->
  handle host tempfile_TemporaryDirectory w = (Returned dir, w1) ->
  handle host (open_url u) w1 = (Returned r, w2) ->
  truthy (remote_filename host r u name) = true ->
  (if negb (truthy name) then remote_filename host r u name else name) = Some n ->
  image_import.import_ host algorithm checksum format id name state timeout (Some u) wait
    (w, tr)
  = with_ (ret dir) (fun dir => call host (tempfile_cleanup dir))
      (fun dir =>
         let* fetched :=
           with_ (ret r) (fun r => call host (response_close r))
             (fun r =>
                let* format0 := lift (image_import.default_format format (Some n)) in
                if negb (truthy format0) then raise format_error_remote
                else
                  let* image := call host (cloud_get_image (py_or id (Some n))) in
                  match image with
                  | Some image =>
                      ret (inl (false, img_id image, img_name image, img_size image,
                                img_disk_format image))
                  | None =>
                      let local_image_path :=
                        os_path_join dir (pyfmt (remote_filename host r u name)) in
                      let* _ := call host (shutil_copyfileobj r local_image_path) in
                      ret (inr (local_image_path, Some n, format0))
                  end) in
         match fetched with
         | inl result => ret result
         | inr (local_image_path, name0, format0) =>
             let* (id0, size) :=
               image_import.import_from_disk host algorithm checksum format0 id name0 state
                 timeout (Some local_image_path) wait in
             ret (true, id0, name0, size, format0)
         end)
      (w2, tr ++ [Ev tempfile_TemporaryDirectory true; Ev (open_url u) true]).
Proof.
  intros Hurl Hdir Hopen Hfile Hname.
  unfold image_import.import_. rewrite Hurl. cbv iota.
  unfold with_ at 1. rewrite (call_returned host _ _ _ _ _ Hdir).
  unfold bind at 1. unfold with_ at 1. rewrite (call_returned host _ _ _ _ _ Hopen).
  fold (remote_filename host r u name).
  rewrite Hfile, Hname. change (negb true) with false. cbv iota.
  rewrite <- app_assoc. reflexivity.
Qed.

End extension_runs.

(** C6, as amended.  A name has an extension when its last path component
    holds a dot that is preceded, within the component, by a character
    that is not a dot; the extension is the text after the last dot, which
    then holds neither dot nor slash.  Every name has an extension in this
    sense or has none, and [os.path.splitext] agrees: it reports the text
    from the last dot on, or nothing.  With no explicit format, a resolved
    name with an extension that is not empty makes that extension the
    format of the upload and of the result.  A resolved name without
    extension, as every name without a dot, ends the run in the
    [ValueError] of an underivable format: for a local locator after the
    lookup has found no image; for a remote one once the response is open,
    if closing it and removing the directory do not fail.  A locator
    [dir/debian-10.qcow2] has the name [debian-10.qcow2] and the format
    [qcow2]. *)
Theorem format_from_extension :
  forall (W : Type) (host : Host W) (algorithm checksum format id name : pystr)
         (state : string) (timeout : Z) (uri : pystr) (wait : bool) (tr : list Event),
    truthy format = false ->
    (forall n e : string,
        has_extension n e ->
        snd (os_path_splitext n) = String "." e /\ after_last_dot n = e)
    /\ (forall n : string, has_no_extension n -> snd (os_path_splitext n) = EmptyString)
    /\ (forall n : string, has_no_extension n \/ exists e, has_extension n e)
    /\
    (forall (w w' : W) (name' key : pystr) (n : string),
        image_import.uri_is_url host uri = false ->
        identity_key id name uri name' key ->
        name' = Some n ->
        handle host (cloud_get_image key) w = (Returned None, w') ->
        let looked_up := (w', tr ++ [Ev (cloud_get_image key) true]) in
        (has_no_extension n ->
         image_import.import_ host algorithm checksum format id name state timeout uri wait
           (w, tr)
         = (inl format_error_local, looked_up))
        /\ (forall e : string,
               has_extension n e -> e <> EmptyString ->
               image_import.import_ host algorithm checksum format id name state timeout uri
                 wait (w, tr)
               = (let* (id, size) :=
                    image_import.import_from_disk host algorithm checksum (Some e) id name'
                      state timeout uri wait in
                  ret (true, id, name', size, Some e)) looked_up))
    /\
    (forall (u : string) (w w1 w2 : W) (dir : string) (r : Response) (n : string),
        uri = Some u ->
        image_import.uri_is_url host uri = true ->
        handle host tempfile_TemporaryDirectory w = (Returned dir, w1) ->
        handle host (open_url u) w1 = (Returned r, w2) ->
        let filename := remote_filename host r u name in
        truthy filename = true ->
        (if negb (truthy name) then filename else name) = Some n ->
        let opened := tr ++ [Ev tempfile_TemporaryDirectory true; Ev (open_url u) true] in
        (has_no_extension n ->
         forall (w3 w4 : W) (closed cleaned : Reply unit),
           handle host (response_close r) w2 = (closed, w3) ->
           handle host (tempfile_cleanup dir) w3 = (cleaned, w4) ->
           image_import.import_ host algorithm checksum format id name state timeout uri wait
             (w, tr)
           = (after_release (inl format_error_remote) closed cleaned,
              (w4, opened ++ [Ev (response_close r) (replied closed);
                              Ev (tempfile_cleanup dir) (replied cleaned)])))
        /\ (forall e : string,
               has_extension n e -> e <> EmptyString ->
               forall (w3 w4 w5 : W),
                 let key := py_or id (Some n) in
                 let local_image_path := os_path_join dir (pyfmt filename) in
                 handle host (cloud_get_image key) w2 = (Returned None, w3) ->
                 handle host (shutil_copyfileobj r local_image_path) w3 = (Returned tt, w4) ->
                 handle host (response_close r) w4 = (Returned tt, w5) ->
                 image_import.import_ host algorithm checksum format id name state timeout uri
                   wait (w, tr)
                 = with_ (ret dir) (fun dir => call host (tempfile_cleanup dir))
                     (fun _ =>
                        let* (id, size) :=
                          image_import.import_from_disk host algorithm checksum (Some e) id
                            (Some n) state timeout (Some local_image_path) wait in
                        ret (true, id, Some n, size, Some e))
                     (w5, opened ++ [Ev (cloud_get_image key) true;
                                     Ev (shutil_copyfileobj r local_image_path) true;
                                     Ev (response_close r) true])))
    /\ (forall dir : string,
           os_path_basename (dir +:+ "/debian-10.qcow2") = "debian-10.qcow2"
           /\ has_extension "debian-10.qcow2" "qcow2").
Proof.
  intros W host algorithm checksum format id name state timeout uri wait tr Hfmt.
  split; [|split; [|split; [|split; [|split]]]].
  - intros n e (d & b & -> & Hb & Hdots & He & Hdot).
    destruct (os_path_splitext_extension d b e Hb Hdots He Hdot) as [-> Hafter].
    split; [reflexivity | exact Hafter].
  - intros n (d & k & e & -> & Hd & He & Hdot).
    apply os_path_splitext_no_extension; assumption.
  - exact extension_or_none.
  - intros w w' name' key n Hlocal Hkey Hn Hget looked_up.
    rewrite (import_local_looked_up host algorithm checksum format id name state timeout uri
               wait w w' tr name' key Hlocal Hkey Hget), Hn.
    destruct (default_format_by_rule format n Hfmt) as [Hnone Hsome]. split.
    + intros Hno. rewrite (Hnone Hno). reflexivity.
    + intros e He Hne. destruct (Hsome e He Hne) as [-> Ht].
      simpl lift. rewrite bind_ret, Ht. reflexivity.
  - intros u w w1 w2 dir r n Hu Hurl Hdir Hopen filename Hfile Hname opened.
    subst uri.
    rewrite (import_remote_opened host algorithm checksum format id name state timeout u wait
               w w1 w2 tr dir r n Hurl Hdir Hopen Hfile Hname).
    destruct (default_format_by_rule format n Hfmt) as [Hnone Hsome]. split.
    + intros Hno w3 w4 closed cleaned Hclose Hclean.
      rewrite (Hnone Hno).
      unfold with_ at 1. unfold ret at 1. cbv beta iota.
      unfold bind at 1. unfold with_ at 1. unfold ret at 1. cbv beta iota.
      simpl lift. rewrite bind_ret.
      change (negb (truthy (Some EmptyString))) with true. cbv iota.
      unfold raise at 1. unfold call. cbv beta iota. rewrite Hclose. cbv beta iota.
      subst opened.
      destruct closed as [[]|err]; cbv beta iota; rewrite Hclean;
        destruct cleaned as [[]|err']; rewrite <- !app_assoc; reflexivity.
    + intros e He Hne w3 w4 w5 key local_image_path Hget Hcopy Hclose.
      destruct (Hsome e He Hne) as [-> Ht].
      unfold with_ at 1. unfold ret at 1. cbv beta iota.
      unfold bind at 1. unfold with_ at 1. unfold ret at 1. cbv beta iota.
      simpl lift. rewrite bind_ret, Ht. change (negb true) with false. cbv iota.
      fold key. run_call Hget. fold filename. fold local_image_path. run_call Hcopy.
      unfold ret at 1. rewrite (call_returned host _ _ _ _ _ Hclose). cbv beta iota.
      subst opened. rewrite <- !app_assoc. reflexivity.
  - intros dir. split.
    + apply (basename_under_directory dir "debian-10.qcow2"). reflexivity.
    + exists EmptyString, "debian-10". repeat split; reflexivity.
Qed.

Lemma format_from_extension_witness :
  fst (image_import.import_ demo.host None None None None None "present" 180
         (Some "/srv/images/debian-10.qcow2") true (demo.world, []))
  = inr (true, Some "1961709b-64c0", Some "debian-10.qcow2", Some 536392192%Z, Some "qcow2").
Proof.
  assert (Hkey : identity_key None None (Some "/srv/images/debian-10.qcow2")
                   (Some "debian-10.qcow2") (Some "debian-10.qcow2")).
  { right. split; [reflexivity|]. exists "/srv/images/debian-10.qcow2".
    repeat split; discriminate. }
  assert (Hext : has_extension "debian-10.qcow2" "qcow2")
    by (exists EmptyString, "debian-10"; repeat split; reflexivity).
  rewrite (proj2 (proj1 (proj2 (proj2 (proj2
                   (format_from_extension demo.World demo.host None None None None None
                      "present" 180 (Some "/srv/images/debian-10.qcow2") true [] eq_refl))))
                    demo.world demo.world (Some "debian-10.qcow2") (Some "debian-10.qcow2")
                    "debian-10.qcow2" eq_refl Hkey eq_refl eq_refl)
             "qcow2" Hext ltac:(discriminate)).
  reflexivity.
Defined.

(** The file [.qcow2] has the characters [qcow2] after its last dot, and no
    image is named so, yet its import ends in the format error: for
    [os.path.splitext] a name of leading dots only has no extension. *)
Lemma hidden_file_has_no_format :
  after_last_dot (os_path_basename "/srv/images/.qcow2") = "qcow2"
  /\ image_import.import_ demo.host None None None None None "present" 180
       (Some "/srv/images/.qcow2") true (demo.world, [])
     = (inl format_error_local, (demo.world, [Ev (cloud_get_image (Some ".qcow2")) true])).
Proof. split; reflexivity. Qed.

(** ** The order of calls *)



(** * Further properties of the modules *)

(** ** Project resolution *)

(** X1.  [get_project] answers from the session alone, without a project
    lookup, when no name is given (one read of the current project) and
    when the name given is the name or the id of the current project. *)
Theorem get_project_of_session :
  forall (W : Type) (host : Host W) (name_or_id : pystr) (tr : list Event)
         (w w1 w2 w3 : W) (cp1 cp2 cp3 : Project),
    handle host cloud_current_project w = (Returned cp1, w1) ->
    handle host cloud_current_project w1 = (Returned cp2, w2) ->
    handle host cloud_current_project w2 = (Returned cp3, w3) ->
    (truthy name_or_id = false ->
     floating_ip.get_project host name_or_id (w, tr)
     = (inr cp1, (w1, tr ++ [Ev cloud_current_project true])))
    /\ (truthy name_or_id = true ->
        name_or_id = prj_name cp1 \/ name_or_id = prj_id cp2 ->
        floating_ip.get_project host name_or_id (w, tr)
        = (inr cp3, (w3, tr ++ [Ev cloud_current_project true;
                                Ev cloud_current_project true;
                                Ev cloud_current_project true]))).
Proof.
  intros W host name_or_id tr w w1 w2 w3 cp1 cp2 cp3 H1 H2 H3.
  unfold floating_ip.get_project. split.
  - intros Ht. rewrite Ht. change (negb false) with true. cbv iota.
    erewrite bind_inr by (run_call H1; reflexivity). reflexivity.
  - intros Ht Hin. rewrite Ht. change (negb true) with false. cbv iota.
    assert (Hpy : py_in name_or_id [prj_name cp1; prj_id cp2] = true).
    { unfold py_in. simpl. destruct Hin as [-> | ->].
      - rewrite bool_decide_eq_true_2 by reflexivity. reflexivity.
      - rewrite (bool_decide_eq_true_2 (prj_id cp2 = prj_id cp2)) by reflexivity.
        rewrite orb_true_r. reflexivity. }
    erewrite bind_inr
      by (run_call H1; run_call H2; rewrite Hpy; run_call H3; reflexivity).
    cbv beta iota. rewrite <- !app_assoc. reflexivity.
Qed.

Lemma get_project_of_session_witness :
  floating_ip.get_project demo.host None (demo.world, [])
  = (inr demo.devstack, (demo.world, [Ev cloud_current_project true]))
  /\ floating_ip.get_project demo.host (Some "devstack") (demo.world, [])
     = (inr demo.devstack,
        (demo.world, [Ev cloud_current_project true; Ev cloud_current_project true;
                      Ev cloud_current_project true])).
Proof.
  split.
  - exact (proj1 (get_project_of_session demo.World demo.host None [] demo.world demo.world
                    demo.world demo.world demo.devstack demo.devstack demo.devstack
                    eq_refl eq_refl eq_refl) eq_refl).
  - exact (proj2 (get_project_of_session demo.World demo.host (Some "devstack") []
                    demo.world demo.world demo.world demo.world demo.devstack demo.devstack
                    demo.devstack eq_refl eq_refl eq_refl) eq_refl (or_introl eq_refl)).
Defined.

(** X2.  A project name that is neither name nor id of the current project
    is looked up; when the lookup finds nothing, [get_project] raises
    ["Project ... does not exist"], and an invocation for [present] or
    [absent] ends there: no network and no floating IP is queried. *)
Theorem unknown_project_stops_the_run :
  forall (W : Type) (host : Host W) (module : floating_ip.AnsibleModule) (tr : list Event)
         (w w1 w2 w3 : W) (cp1 cp2 : Project),
    let p := floating_ip.params module in
    let name_or_id := floating_ip.project_name p in
    let looked_up :=
      (w3, tr ++ [Ev cloud_current_project true; Ev cloud_current_project true;
                  Ev (cloud_get_project name_or_id) true]) in
    truthy name_or_id = true ->
    name_or_id <> prj_name cp1 -> name_or_id <> prj_id cp2 ->
    handle host cloud_current_project w = (Returned cp1, w1) ->
    handle host cloud_current_project w1 = (Returned cp2, w2) ->
    handle host (cloud_get_project name_or_id) w2 = (Returned None, w3) ->
    floating_ip.get_project host name_or_id (w, tr) = (inl (project_error name_or_id), looked_up)
    /\ (floating_ip.check_mode module = false ->
        floating_ip.state p = "present" \/ floating_ip.state p = "absent" ->
        floating_ip.core host module (w, tr) = (inl (project_error name_or_id), looked_up)).
Proof.
  intros W host module tr w w1 w2 w3 cp1 cp2 p name_or_id looked_up Ht Hn1 Hn2 H1 H2 H3.
  assert (Hget : floating_ip.get_project host name_or_id (w, tr)
                 = (inl (project_error name_or_id), looked_up)).
  { unfold floating_ip.get_project. rewrite Ht. change (negb true) with false. cbv iota.
    assert (Hpy : py_in name_or_id [prj_name cp1; prj_id cp2] = false).
    { unfold py_in. simpl. rewrite !bool_decide_eq_false_2 by assumption. reflexivity. }
    erewrite bind_inr
      by (run_call H1; run_call H2; rewrite Hpy; apply call_returned; exact H3).
    cbv beta iota. subst looked_up. rewrite <- !app_assoc. reflexivity. }
  split; [exact Hget|].
  intros Hcheck Hstate. unfold floating_ip.core. rewrite Hcheck. fold p.
  destruct Hstate as [-> | ->]; simpl bool_decide; cbv iota;
    apply bind_inl; [unfold floating_ip.allocate | unfold floating_ip.release];
    apply bind_inl; exact Hget.
Qed.

Lemma unknown_project_stops_the_run_witness :
  floating_ip.core demo.host allocate_in_unknown_project (demo.world, [])
  = (inl (project_error (Some "nova")),
     (demo.world, [Ev cloud_current_project true; Ev cloud_current_project true;
                   Ev (cloud_get_project (Some "nova")) true])).
Proof.
  refine (proj2 (unknown_project_stops_the_run demo.World demo.host
                   allocate_in_unknown_project [] demo.world demo.world demo.world demo.world
                   demo.devstack demo.devstack eq_refl _ _ eq_refl eq_refl eq_refl)
            eq_refl (or_introl eq_refl)); discriminate.
Defined.

(** ** Deleting images *)

(** X3.  Desired state [absent] and an image under the identity key: it is
    deleted by that key with the caller's [wait] and [timeout], and the run
    reports [changed=true] with the id, name, size and format the image had
    when it was looked up. *)
Theorem delete_present_reports_image :
  forall (W : Type) (host : Host W) (module : image_import.AnsibleModule)
         (w w1 w2 : W) (tr : list Event) (algorithm checksum name' key : pystr)
         (image : Image),
    let p := image_import.params module in
    let removal := cloud_delete_image key (image_import.wait p) (image_import.timeout p) in
    image_import.check_mode module = false ->
    image_import.state p = "absent" ->
    image_import.split_checksum (image_import.checksum p) = inr (algorithm, checksum) ->
    (truthy (py_or (image_import.id p) (image_import.name p)) = false ->
     image_import.uri_is_url host (image_import.uri p) = false) ->
    identity_key (image_import.id p) (image_import.name p) (image_import.uri p) name' key ->
    handle host (cloud_get_image key) w = (Returned (Some image), w1) ->
    handle host removal w1 = (Returned tt, w2) ->
    image_import.core host module (w, tr)
    = (inr (image_result p algorithm checksum true (img_id image) (img_name image)
              (img_size image) (img_disk_format image)),
       (w2, tr ++ [Ev (cloud_get_image key) true; Ev removal true])).
Proof.
  intros W host module w w1 w2 tr algorithm checksum name' key image p removal
         Hcheck Hstate Hsplit Hlocal Hkey Hget Hdel.
  assert (Hrun : image_import.delete host algorithm checksum (image_import.format p)
                   (image_import.id p) (image_import.name p) (image_import.state p)
                   (image_import.timeout p) (image_import.uri p) (image_import.wait p) (w, tr)
                 = (inr (true, img_id image, img_name image, img_size image,
                         img_disk_format image),
                    (w2, tr ++ [Ev (cloud_get_image key) true; Ev removal true]))).
  { unfold image_import.delete.
    destruct Hkey as [(Ht & -> & ->) | (Ht & u & Hu & Hbase & -> & ->)].
    - rewrite Ht. change (negb true) with false. cbv iota.
      rewrite bind_ret. run_call Hget. run_call Hdel.
      rewrite <- !app_assoc. reflexivity.
    - rewrite Ht, (Hlocal Ht), Hu. change (negb false) with true. cbv iota.
      unfold image_import.basename_of, lift. rewrite bind_ret.
      destruct (os_path_basename u) as [|c b] eqn:Hb; [congruence|].
      change (negb (truthy (Some (String c b)))) with false. cbv iota.
      rewrite bind_ret. run_call Hget. run_call Hdel.
      rewrite <- !app_assoc. reflexivity. }
  unfold image_import.core. fold p. rewrite Hsplit. simpl lift. rewrite bind_ret.
  rewrite Hcheck, Hstate. simpl bool_decide. cbv iota.
  rewrite Hstate in Hrun. run_with Hrun.
  unfold image_result. rewrite Hstate. reflexivity.
Qed.

Lemma delete_present_reports_image_witness :
  fst (image_import.core demo.host delete_debian (demo.world, []))
  = inr (dict [("changed", VBool true); ("size", VInt 536392192); ("checksum", VNone);
               ("format", VStr "qcow2"); ("id", VStr "7a3f"); ("name", VStr "debian");
               ("state", VStr "absent"); ("timeout", VInt 180);
               ("uri", VNone); ("wait", VBool true)]).
Proof.
  refine (f_equal fst
            (delete_present_reports_image demo.World demo.host delete_debian
               demo.world demo.world (demo.with_images demo.world []) [] None None
               (Some "debian") (Some "debian") demo.debian
               eq_refl eq_refl eq_refl _ _ eq_refl eq_refl)).
  - discriminate.
  - left. repeat split.
Defined.

(** X4.  Desired state [absent] with neither id nor name: a remote locator
    is refused, a local locator without a last path component is refused,
    and no locator at all ends in a [TypeError]; in each case before any
    call is made. *)
Theorem delete_without_identity :
  forall (W : Type) (host : Host W) (module : image_import.AnsibleModule)
         (s : W * list Event) (algorithm checksum : pystr),
    let p := image_import.params module in
    image_import.check_mode module = false ->
    image_import.state p = "absent" ->
    image_import.split_checksum (image_import.checksum p) = inr (algorithm, checksum) ->
    truthy (py_or (image_import.id p) (image_import.name p)) = false ->
    (image_import.uri_is_url host (image_import.uri p) = true ->
     image_import.core host module s
     = (inl (ValueError "name is required for deleting images if uri is given as an url"), s))
    /\ (forall u, image_import.uri p = Some u ->
                  image_import.uri_is_url host (Some u) = false ->
                  os_path_basename u = EmptyString ->
                  image_import.core host module s
                  = (inl (ValueError "name is required for deleting images"), s))
    /\ (image_import.uri p = None ->
        image_import.core host module s = (inl image_import.none_is_no_path, s)).
Proof.
  intros W host module s algorithm checksum p Hcheck Hstate Hsplit Ht.
  assert (Hcore : forall e,
             image_import.delete host algorithm checksum (image_import.format p)
               (image_import.id p) (image_import.name p) "absent"
               (image_import.timeout p) (image_import.uri p) (image_import.wait p) s
             = (inl e, s) ->
             image_import.core host module s = (inl e, s)).
  { intros e He. unfold image_import.core. fold p. rewrite Hsplit. simpl lift.
    rewrite bind_ret, Hcheck, Hstate. simpl bool_decide. cbv iota.
    apply bind_inl. exact He. }
  split; [|split].
  - intros Hurl. apply Hcore. unfold image_import.delete.
    rewrite Ht, Hurl. reflexivity.
  - intros u Hu Hlocal Hbase. apply Hcore. unfold image_import.delete.
    rewrite Ht, Hu, Hlocal. unfold image_import.basename_of. rewrite Hbase. reflexivity.
  - intros Hu. apply Hcore. unfold image_import.delete.
    rewrite Ht, Hu. reflexivity.
Qed.

Lemma delete_without_identity_witness :
  image_import.core demo.host delete_nothing (demo.world, [])
  = (inl image_import.none_is_no_path, (demo.world, [])).
Proof.
  exact (proj2 (proj2 (delete_without_identity demo.World demo.host delete_nothing
                         (demo.world, []) None None eq_refl eq_refl eq_refl eq_refl))
           eq_refl).
Defined.

(** ** Uploading from disk *)

Section upload_runs.
Context {W : Type} (host : Host W).

(** The checksum block of [import_from_disk] when the digest on disk is the
    expected one, or none is expected. *)
Lemma verification_passes (algorithm checksum : pystr) (file : string) (w1 w2 : W)
    (tr : list Event) :
  (if truthy checksum
   then handle host (module_digest_from_file file algorithm) w1 = (Returned checksum, w2)
   else w2 = w1) ->
  (if truthy checksum then
     let* checksum_on_disk := call host (module_digest_from_file file algorithm) in
     if negb (bool_decide (checksum = checksum_on_disk)) then
       raise (PyException ("Checksum mismatch " +:+ pyfmt checksum +:+ " != "
                           +:+ pyfmt checksum_on_disk))
     else ret tt
   else ret tt) (w1, tr)
  = (inr tt,
     (w2, tr ++ (if truthy checksum
                 then [Ev (module_digest_from_file file algorithm) true] else []))).
Proof.
  intros Hdig. destruct (truthy checksum).
  - run_call Hdig. rewrite bool_decide_eq_true_2 by reflexivity. reflexivity.
  - subst w2. rewrite app_nil_r. reflexivity.
Qed.

(** [import_from_disk] up to and including the identity re-check. *)
Lemma import_from_disk_rechecks (algorithm checksum format id name : pystr) (state : string)
    (timeout : Z) (file : string) (wait : bool) (w w1 w2 w3 : W) (tr : list Event)
    (found : option Image) :
  handle host (os_path_exists file) w = (Returned true, w1) ->
  (if truthy checksum
   then handle host (module_digest_from_file file algorithm) w1 = (Returned checksum, w2)
   else w2 = w1) ->
  handle host (cloud_get_image (py_or id name)) w2 = (Returned found, w3) ->
  image_import.import_from_disk host algorithm checksum format id name state timeout
    (Some file) wait (w, tr)
  = match found with
    | Some _ => raise (image_exists_error (py_or id name))
    | None =>
        let* size_on_disk := call host (os_path_getsize file) in
        let* image :=
          call host (cloud_create_image name file format wait timeout
                       (upload_kwargs id algorithm checksum)) in
        let* _ :=
          if negb (bool_decide (img_size image = Some size_on_disk))
          then tell host (module_log (size_note size_on_disk (img_size image)))
          else ret tt in
        ret (img_id image, img_size image)
    end
      (w3, tr ++ Ev (os_path_exists file) true
              :: (if truthy checksum
                  then [Ev (module_digest_from_file file algorithm) true] else [])
              ++ [Ev (cloud_get_image (py_or id name)) true]).
Proof.
  intros Hex Hdig Hget.
  match goal with |- _ = ?r => set (rhs := r) end.
  unfold image_import.import_from_disk. rewrite bind_ret.
  run_call Hex. change (negb true) with false. cbv iota.
  run_with (verification_passes algorithm checksum file w1 w2
              (tr ++ [Ev (os_path_exists file) true]) Hdig).
  run_call Hget. subst rhs.
  replace ((tr ++ [Ev (os_path_exists file) true])
           ++ (if truthy checksum
               then [Ev (module_digest_from_file file algorithm) true] else []))
    with (tr ++ Ev (os_path_exists file) true
             :: (if truthy checksum
                 then [Ev (module_digest_from_file file algorithm) true] else []))
    by (rewrite <- app_assoc; reflexivity).
  replace ((tr ++ Ev (os_path_exists file) true
               :: (if truthy checksum
                   then [Ev (module_digest_from_file file algorithm) true] else []))
           ++ [Ev (cloud_get_image (py_or id name)) true])
    with (tr ++ Ev (os_path_exists file) true
             :: (if truthy checksum
                 then [Ev (module_digest_from_file file algorithm) true] else [])
             ++ [Ev (cloud_get_image (py_or id name)) true])
    by (rewrite <- app_assoc; reflexivity).
  destruct found; [reflexivity|].
  unfold upload_kwargs, size_note. destruct (truthy id); reflexivity.
Qed.

End upload_runs.

(** X5.  [import_from_disk] uploads nothing when the path does not exist
    (it raises after the existence test alone) and nothing when, digest
    accepted, an image is found under the identity key (it raises ["image
    ... exists already"] right after that lookup). *)
Theorem import_from_disk_refuses :
  forall (W : Type) (host : Host W) (algorithm checksum format id name : pystr)
         (state : string) (timeout : Z) (file : string) (wait : bool) (w w1 : W)
         (tr : list Event) (present : bool),
    handle host (os_path_exists file) w = (Returned present, w1) ->
    (present = false ->
     image_import.import_from_disk host algorithm checksum format id name state timeout
       (Some file) wait (w, tr)
     = (inl (missing_path_error (Some file)), (w1, tr ++ [Ev (os_path_exists file) true])))
    /\ (present = true ->
        forall (w2 w3 : W) (existing : Image),
          (if truthy checksum
           then handle host (module_digest_from_file file algorithm) w1
                = (Returned checksum, w2)
           else w2 = w1) ->
          handle host (cloud_get_image (py_or id name)) w2 = (Returned (Some existing), w3) ->
          image_import.import_from_disk host algorithm checksum format id name state timeout
            (Some file) wait (w, tr)
          = (inl (image_exists_error (py_or id name)),
             (w3, tr ++ Ev (os_path_exists file) true
                     :: (if truthy checksum
                         then [Ev (module_digest_from_file file algorithm) true] else [])
                     ++ [Ev (cloud_get_image (py_or id name)) true]))).
Proof.
  intros W host algorithm checksum format id name state timeout file wait w w1 tr present Hex.
  split.
  - intros ->. unfold image_import.import_from_disk. rewrite bind_ret.
    run_call Hex. reflexivity.
  - intros -> w2 w3 existing Hdig Hget.
    rewrite (import_from_disk_rechecks host algorithm checksum format id name state timeout
               file wait w w1 w2 w3 tr (Some existing) Hex Hdig Hget).
    reflexivity.
Qed.

Lemma import_from_disk_refuses_witness :
  image_import.import_from_disk demo.host None None (Some "qcow2") None (Some "debian")
    "present" 180 (Some "/srv/images/debian-10.qcow2") true (demo.world, [])
  = (inl (image_exists_error (Some "debian")),
     (demo.world, [Ev (os_path_exists "/srv/images/debian-10.qcow2") true;
                   Ev (cloud_get_image (Some "debian")) true])).
Proof.
  exact (proj2 (import_from_disk_refuses demo.World demo.host None None (Some "qcow2") None
                  (Some "debian") "present" 180 "/srv/images/debian-10.qcow2" true
                  demo.world demo.world [] true eq_refl)
           eq_refl demo.world demo.world demo.debian eq_refl eq_refl).
Defined.

(** X6.  After an upload [import_from_disk] returns the id and the size the
    cloud reports, whatever the size on disk.  A difference between the two
    sizes is logged, once, and is no failure; equal sizes log nothing. *)
Theorem size_difference_is_logged :
  forall (W : Type) (host : Host W) (algorithm checksum format id name : pystr)
         (state : string) (timeout : Z) (file : string) (wait : bool)
         (w w1 w2 w3 w4 w5 w6 : W) (tr : list Event) (size_on_disk : Z) (image : Image)
         (logged : Reply unit),
    let upload :=
      cloud_create_image name file format wait timeout (upload_kwargs id algorithm checksum) in
    let note := module_log (size_note size_on_disk (img_size image)) in
    let uploaded :=
      tr ++ Ev (os_path_exists file) true
         :: (if truthy checksum
             then [Ev (module_digest_from_file file algorithm) true] else [])
         ++ [Ev (cloud_get_image (py_or id name)) true;
             Ev (os_path_getsize file) true; Ev upload true] in
    handle host (os_path_exists file) w = (Returned true, w1) ->
    (if truthy checksum
     then handle host (module_digest_from_file file algorithm) w1 = (Returned checksum, w2)
     else w2 = w1) ->
    handle host (cloud_get_image (py_or id name)) w2 = (Returned None, w3) ->
    handle host (os_path_getsize file) w3 = (Returned size_on_disk, w4) ->
    handle host upload w4 = (Returned image, w5) ->
    handle host note w5 = (logged, w6) ->
    image_import.import_from_disk host algorithm checksum format id name state timeout
      (Some file) wait (w, tr)
    = (inr (img_id image, img_size image),
       if bool_decide (img_size image = Some size_on_disk)
       then (w5, uploaded)
       else (w6, uploaded ++ [Ev note (replied logged)])).
Proof.
  intros W host algorithm checksum format id name state timeout file wait
         w w1 w2 w3 w4 w5 w6 tr size_on_disk image logged upload note uploaded
         Hex Hdig Hget Hsize Hup Hlog.
  rewrite (import_from_disk_rechecks host algorithm checksum format id name state timeout
             file wait w w1 w2 w3 tr None Hex Hdig Hget).
  run_call Hsize. fold upload. run_call Hup. fold note.
  assert (Htr : ((tr ++ Ev (os_path_exists file) true
                     :: (if truthy checksum
                         then [Ev (module_digest_from_file file algorithm) true] else [])
                     ++ [Ev (cloud_get_image (py_or id name)) true])
                 ++ [Ev (os_path_getsize file) true]) ++ [Ev upload true] = uploaded).
  { subst uploaded. rewrite <- !app_assoc. simpl. rewrite <- !app_assoc. reflexivity. }
  rewrite Htr.
  destruct (bool_decide (img_size image = Some size_on_disk)).
  - reflexivity.
  - change (negb false) with true. cbv iota.
    unfold bind, tell. rewrite Hlog. reflexivity.
Qed.

Lemma size_difference_is_logged_witness :
  image_import.import_from_disk demo.host None None (Some "raw") None (Some "cirros")
    "present" 180 (Some "/srv/images/cirros") true (demo.world, [])
  = (inr (Some "1961709b-64c0", Some 1024%Z),
     (demo.with_images demo.world
        [demo.debian;
         {| img_id := Some "1961709b-64c0"; img_name := Some "cirros";
            img_size := Some 1024%Z; img_disk_format := Some "raw" |}],
      [Ev (os_path_exists "/srv/images/cirros") true;
       Ev (cloud_get_image (Some "cirros")) true;
       Ev (os_path_getsize "/srv/images/cirros") true;
       Ev (cloud_create_image (Some "cirros") "/srv/images/cirros" (Some "raw") true 180
             (upload_kwargs None None None)) true])).
Proof.
  exact (size_difference_is_logged demo.World demo.host None None (Some "raw") None
           (Some "cirros") "present" 180 "/srv/images/cirros" true
           demo.world demo.world demo.world demo.world demo.world
           (demo.with_images demo.world
              [demo.debian;
               {| img_id := Some "1961709b-64c0"; img_name := Some "cirros";
                  img_size := Some 1024%Z; img_disk_format := Some "raw" |}])
           (demo.with_images demo.world
              [demo.debian;
               {| img_id := Some "1961709b-64c0"; img_name := Some "cirros";
                  img_size := Some 1024%Z; img_disk_format := Some "raw" |}])
           [] 1024%Z
           {| img_id := Some "1961709b-64c0"; img_name := Some "cirros";
              img_size := Some 1024%Z; img_disk_format := Some "raw" |}
           (Returned tt) eq_refl eq_refl eq_refl eq_refl eq_refl eq_refl).
Defined.

(** ** Importing *)

(** X7.  A locator whose scheme is empty or [file] is a local path, and it
    is tested on disk as it stands, scheme included: when nothing exists
    under that very string, the import fails with ["Image path ... does not
    exist"] after the lookup and the existence test, and uploads nothing. *)
Theorem local_locator_is_tested_verbatim :
  forall (W : Type) (host : Host W) (algorithm checksum format id name : pystr)
         (state : string) (timeout : Z) (u : string) (wait : bool) (w w1 w2 : W)
         (tr : list Event) (name' key fmt : pystr),
    scheme (urlsplit host u) = "file" \/ scheme (urlsplit host u) = EmptyString ->
    identity_key id name (Some u) name' key ->
    handle host (cloud_get_image key) w = (Returned None, w1) ->
    image_import.default_format format name' = inr fmt ->
    truthy fmt = true ->
    handle host (os_path_exists u) w1 = (Returned false, w2) ->
    image_import.import_ host algorithm checksum format id name state timeout (Some u) wait
      (w, tr)
    = (inl (missing_path_error (Some u)),
       (w2, tr ++ [Ev (cloud_get_image key) true; Ev (os_path_exists u) true])).
Proof.
  intros W host algorithm checksum format id name state timeout u wait w w1 w2 tr
         name' key fmt Hscheme Hkey Hget Hfmt Hfmt' Hex.
  assert (Hlocal : image_import.uri_is_url host (Some u) = false).
  { unfold image_import.uri_is_url. destruct Hscheme as [-> | ->]; reflexivity. }
  assert (Hdisk : image_import.import_from_disk host algorithm checksum fmt id name' state
                    timeout (Some u) wait (w1, tr ++ [Ev (cloud_get_image key) true])
                  = (inl (missing_path_error (Some u)),
                     (w2, tr ++ [Ev (cloud_get_image key) true; Ev (os_path_exists u) true]))).
  { unfold image_import.import_from_disk. rewrite bind_ret. run_call Hex.
    rewrite <- app_assoc. reflexivity. }
  unfold image_import.import_. rewrite Hlocal. cbv iota.
  destruct Hkey as [(Ht & -> & ->) | (Ht & u' & [= <-] & Hbase & -> & ->)].
  - rewrite Ht. change (negb true) with false. cbv iota.
    rewrite bind_ret. run_call Hget. rewrite Hfmt. simpl lift. rewrite bind_ret, Hfmt'.
    change (negb true) with false. cbv iota.
    apply bind_inl. exact Hdisk.
  - rewrite Ht. change (negb false) with true. cbv iota.
    unfold image_import.basename_of, lift at 1. rewrite bind_ret.
    destruct (os_path_basename u) as [|c b] eqn:Hb; [congruence|].
    change (negb (truthy (Some (String c b)))) with false. cbv iota.
    rewrite bind_ret. run_call Hget. rewrite Hfmt. simpl lift. rewrite bind_ret, Hfmt'.
    change (negb true) with false. cbv iota.
    apply bind_inl. exact Hdisk.
Qed.

Lemma local_locator_is_tested_verbatim_witness :
  image_import.import_ demo.host None None None None None "present" 180
    (Some "file:///srv/images/debian-10.qcow2") true (demo.world, [])
  = (inl (missing_path_error (Some "file:///srv/images/debian-10.qcow2")),
     (demo.world, [Ev (cloud_get_image (Some "debian-10.qcow2")) true;
                   Ev (os_path_exists "file:///srv/images/debian-10.qcow2") true])).
Proof.
  apply (local_locator_is_tested_verbatim demo.World demo.host None None None None None
           "present" 180 "file:///srv/images/debian-10.qcow2" true
           demo.world demo.world demo.world [] (Some "debian-10.qcow2")
           (Some "debian-10.qcow2") (Some "qcow2")).
  - left. vm_compute. reflexivity.
  - right. split; [reflexivity|]. exists "file:///srv/images/debian-10.qcow2".
    split; [reflexivity|]. split; [vm_compute; discriminate|].
    split; vm_compute; reflexivity.
  - vm_compute. reflexivity.
  - vm_compute. reflexivity.
  - reflexivity.
  - vm_compute. reflexivity.
Defined.

(** X8.  A remote import for which no file name can be found (no
    [Content-Disposition] header, a locator path without a last segment,
    no name given) ends in ["no name given and name could not be derived
    from uri"] once the response is open: no image is looked up, nothing is
    downloaded, and response and temporary directory are released; should
    closing the response or removing the directory fail, that failure is
    the outcome instead. *)
Theorem remote_import_without_file_name :
  forall (W : Type) (host : Host W) (algorithm checksum format id name : pystr)
         (state : string) (timeout : Z) (u : string) (wait : bool) (w w1 w2 w3 w4 : W)
         (tr : list Event) (dir : string) (r : Response) (closed cleaned : Reply unit),
    image_import.uri_is_url host (Some u) = true ->
    handle host tempfile_TemporaryDirectory w = (Returned dir, w1) ->
    handle host (open_url u) w1 = (Returned r, w2) ->
    handle host (response_close r) w2 = (closed, w3) ->
    handle host (tempfile_cleanup dir) w3 = (cleaned, w4) ->
    getheader r "Content-Disposition" = None ->
    os_path_basename (path (urlsplit host u)) = EmptyString ->
    truthy name = false ->
    image_import.import_ host algorithm checksum format id name state timeout (Some u) wait
      (w, tr)
    = (after_release
         (inl (ValueError "no name given and name could not be derived from uri"))
         closed cleaned,
       (w4, tr ++ [Ev tempfile_TemporaryDirectory true; Ev (open_url u) true;
                   Ev (response_close r) (replied closed);
                   Ev (tempfile_cleanup dir) (replied cleaned)])).
Proof.
  intros W host algorithm checksum format id name state timeout u wait w w1 w2 w3 w4 tr
         dir r closed cleaned Hurl Hdir Hopen Hclose Hclean Hcd Hbase Hname.
  unfold image_import.import_. rewrite Hurl. cbv iota.
  unfold with_ at 1. rewrite (call_returned host _ _ _ _ _ Hdir).
  unfold bind at 1. unfold with_ at 1. rewrite (call_returned host _ _ _ _ _ Hopen).
  rewrite Hcd, Hbase. cbn [truthy negb]. rewrite Hname. cbn [truthy negb].
  unfold raise at 1. unfold call. cbv beta iota. rewrite Hclose. cbv beta iota.
  rewrite <- !app_assoc.
  destruct closed as [[]|err]; cbv beta iota; rewrite Hclean;
    destruct cleaned as [[]|err']; rewrite <- !app_assoc; reflexivity.
Qed.

Lemma remote_import_without_file_name_witness :
  image_import.import_ demo.host None None None None None "present" 180
    (Some "https://example.com/images/") true (world_with_listing, [])
  = (inl (ValueError "no name given and name could not be derived from uri"),
     (world_with_listing,
      [Ev tempfile_TemporaryDirectory true; Ev (open_url "https://example.com/images/") true;
       Ev (response_close no_headers) true; Ev (tempfile_cleanup "/tmp/tmpk3x") true])).
Proof.
  apply (remote_import_without_file_name demo.World demo.host None None None None None
           "present" 180 "https://example.com/images/" true
           world_with_listing world_with_listing world_with_listing world_with_listing
           world_with_listing [] "/tmp/tmpk3x" no_headers (Returned tt) (Returned tt)).
  all: vm_compute; reflexivity.
Defined.

(** ** Names, checksums and the file-name hint *)

(** [basename] by cases on the first character. *)
Lemma os_path_basename_cons (a : ascii) (r : string) :
  os_path_basename (String a r)
  = if str_mem "/"%char r then os_path_basename r
    else if bool_decide (a = "/"%char) then r else String a r.
Proof.
  unfold os_path_basename. cbn [str_rfind]. rewrite <- str_rfind_mem.
  pose proof (str_rfind_ge "/"%char r).
  destruct (0 <=? str_rfind "/"%char r)%Z eqn:E.
  - apply Z.leb_le in E.
    replace (Z.to_nat (str_rfind "/"%char r + 1 + 1))
      with (S (Z.to_nat (str_rfind "/"%char r + 1))) by lia.
    reflexivity.
  - case_bool_decide; reflexivity.
Qed.

(** X9.  The name taken from a locator is its last path component: the
    locator is some directory part, empty or ending in ['/'], followed by
    the name, and the name holds no ['/'].  It is empty exactly when the
    locator is empty or ends in ['/']; [None] is no locator. *)
Theorem basename_is_last_component :
  forall (uri : pystr) (n : string),
    image_import.basename_of uri = inr n ->
    exists u d,
      uri = Some u /\ u = d +:+ n
      /\ str_mem "/"%char n = false
      /\ (d = EmptyString \/ str_endswith "/"%char d = true)
      /\ (n = EmptyString <-> u = EmptyString \/ str_endswith "/"%char u = true).
Proof.
  intros [u|] n H; [|discriminate]. injection H as <-.
  exists u. induction u as [|a r IH].
  - exists EmptyString. repeat split; auto.
  - rewrite os_path_basename_cons. destruct IH as (d & _ & Hd & Hn & Hdir & Hempty).
    destruct (str_mem "/"%char r) eqn:Hmem.
    + exists (String a d). split; [reflexivity|].
      split; [change (String a d +:+ os_path_basename r)
                with (String a (d +:+ os_path_basename r)); rewrite <- Hd; reflexivity|].
      split; [exact Hn|]. split.
      * right. destruct Hdir as [-> | Hdir].
        -- exfalso. change (EmptyString +:+ os_path_basename r) with (os_path_basename r) in Hd.
           rewrite <- Hd, Hmem in Hn. discriminate.
        -- destruct d; [discriminate|]. exact Hdir.
      * rewrite Hempty. destruct r as [|b r']; [discriminate|].
        split; (intros [H | H]; [discriminate | right; exact H]).
    + case_bool_decide as Ha.
      * subst a. exists "/". split; [reflexivity|]. split; [reflexivity|].
        split; [exact Hmem|]. split; [right; reflexivity|].
        destruct r as [|b r']; [split; auto|].
        split; [discriminate|]. intros [H | H]; [discriminate|]. exfalso.
        change (str_endswith "/"%char (String b r') = true) in H.
        rewrite (str_endswith_mem _ _ H) in Hmem. discriminate.
      * exists EmptyString. split; [reflexivity|]. split; [reflexivity|].
        split; [simpl; rewrite bool_decide_eq_false_2 by exact Ha; exact Hmem|].
        split; [left; reflexivity|].
        split; [discriminate|]. intros [H | H]; [discriminate|]. exfalso.
        destruct r as [|b r'].
        -- simpl in H. apply bool_decide_eq_true_1 in H. congruence.
        -- change (str_endswith "/"%char (String b r') = true) in H.
           rewrite (str_endswith_mem _ _ H) in Hmem. discriminate.
Qed.

Lemma basename_is_last_component_witness :
  exists u d,
    Some "/srv/images/debian-10.qcow2" = Some u /\ u = d +:+ "debian-10.qcow2"
    /\ str_mem "/"%char "debian-10.qcow2" = false
    /\ (d = EmptyString \/ str_endswith "/"%char d = true)
    /\ ("debian-10.qcow2" = EmptyString
        <-> u = EmptyString \/ str_endswith "/"%char u = true).
Proof.
  exact (basename_is_last_component (Some "/srv/images/debian-10.qcow2") "debian-10.qcow2"
           eq_refl).
Defined.

Lemma str_split1_first (sep : ascii) (s a b : string) :
  str_split1 sep s = [a; b] -> s = a +:+ String sep b /\ str_mem sep a = false.
Proof.
  revert a. induction s as [|c s IH]; intros a; simpl; [discriminate|].
  case_bool_decide as Hc.
  - intros [= <- <-]. subst c. split; reflexivity.
  - destruct (str_split1 sep s) as [|x [|y [|z l]]] eqn:Hs; try discriminate.
    intros [= <- <-]. destruct (IH x eq_refl) as [-> Hx].
    split; [reflexivity|]. simpl. rewrite bool_decide_eq_false_2 by exact Hc. exact Hx.
Qed.

Lemma str_split1_length (sep : ascii) (s : string) :
  length (str_split1 sep s) = 2 \/ str_split1 sep s = [s].
Proof.
  destruct (str_split1_cases sep s) as [[H _] | (a & b & H & _)];
    [right; exact H | left; rewrite H; reflexivity].
Qed.

(** X10.  [checksum] is split at its first [':'] only: the algorithm holds
    no [':'], the value is all that follows, further [':'] included, and
    [algorithm:value] put together again is the checksum given.  An absent
    or empty checksum gives no algorithm and no value; any other checksum
    without [':'] is refused. *)
Theorem checksum_splits_at_first_colon :
  forall (checksum : pystr),
    match image_import.split_checksum checksum with
    | inr (Some algorithm, Some value) =>
        checksum = Some (algorithm +:+ String ":" value)
        /\ str_mem ":"%char algorithm = false
        /\ image_import.join_checksum (Some algorithm) (Some value) = of_str checksum
    | inr (None, None) => truthy checksum = false
    | inr _ => False
    | inl e =>
        e = FailJson checksum_format_message
        /\ truthy checksum = true
        /\ str_mem ":"%char (pyfmt checksum) = false
    end.
Proof.
  intros checksum. unfold image_import.split_checksum.
  destruct (truthy checksum) eqn:Ht; [|reflexivity].
  destruct checksum as [c|]; [|discriminate]. simpl pyfmt.
  destruct (str_split1_cases ":" c) as [[Hs Hno] | (a & b & Hs & Hc)]; rewrite Hs.
  - split; [reflexivity|]. split; [reflexivity|].
    destruct (str_mem ":"%char c) eqn:Hm; [|reflexivity]. exfalso.
    clear Hs Ht. induction c as [|x c IH]; [discriminate|].
    simpl in Hm. case_bool_decide as Hx.
    + subst x. exact (Hno EmptyString c eq_refl).
    + apply IH; [|exact Hm]. intros a b ->. exact (Hno (String x a) b eq_refl).
  - destruct (str_split1_first _ _ _ _ Hs) as [_ Ha].
    split; [rewrite Hc; reflexivity|]. split; [exact Ha|].
    unfold image_import.join_checksum. simpl. rewrite Hc. reflexivity.
Qed.

Lemma findall_filename_skips (s : string) (skip : nat) :
  String.length s <= skip -> findall_filename skip s = [].
Proof.
  revert skip. induction s as [|a s IH]; intros skip H; [reflexivity|]. simpl in *.
  destruct skip as [|k]; [lia|]. apply IH. lia.
Qed.

Lemma line_prefix_whole (g : string) :
  str_mem newline g = false -> line_prefix g = g.
Proof.
  induction g as [|a g IH]; [reflexivity|]. simpl. intros H.
  apply orb_false_elim in H as [Ha Hg]. rewrite Ha, (IH Hg). reflexivity.
Qed.

(** X11.  The file name hinted by a [Content-Disposition] header is all
    that follows the first [filename=] up to the end of the line, taken as
    it stands: quotes and further parameters stay part of the name. *)
Theorem file_name_hint_is_verbatim :
  forall (before hint : string),
    str_mem "f"%char before = false ->
    hint <> EmptyString ->
    str_mem newline hint = false ->
    head (re_findall_filename (before +:+ "filename=" +:+ hint)) = Some hint.
Proof.
  intros before hint Hb Hne Hnl. unfold re_findall_filename.
  induction before as [|a before IH].
  - pose proof (line_prefix_whole hint Hnl) as Hline.
    destruct hint as [|c hint]; [congruence|].
    change (EmptyString +:+ "filename=" +:+ String c hint)
      with (String "f" ("ilename=" +:+ String c hint)).
    cbn [findall_filename].
    change (String.prefix "filename=" (String "f" ("ilename=" +:+ String c hint))) with true.
    cbv iota.
    change (str_drop 9 (String "f" ("ilename=" +:+ String c hint))) with (String c hint).
    rewrite Hline. reflexivity.
  - simpl in Hb. apply orb_false_elim in Hb as [Ha Hb].
    change (String a before +:+ "filename=" +:+ hint)
      with (String a (before +:+ "filename=" +:+ hint)).
    cbn [findall_filename].
    assert (Hp : String.prefix "filename=" (String a (before +:+ "filename=" +:+ hint))
                 = false).
    { apply bool_decide_eq_false_1 in Ha. cbn [String.prefix].
      destruct (ascii_dec "f" a) as [E|E]; [congruence | reflexivity]. }
    rewrite Hp. exact (IH Hb).
Qed.

Lemma file_name_hint_is_verbatim_witness :
  head (re_findall_filename ("attachment; " +:+ "filename=" +:+ "debian.qcow2; size=7"))
  = Some "debian.qcow2; size=7".
Proof.
  apply (file_name_hint_is_verbatim "attachment; " "debian.qcow2; size=7");
    [reflexivity | discriminate | reflexivity].
Defined.

(** ** What each operation may call *)

Section emit_rules.
Context {W : Type} (host : Host W) (P : Event -> bool).

Lemma emits_ret {A} (a : A) : emits P (ret (W := W) a).
Proof. intros w tr. exists []. simpl. rewrite app_nil_r. split; reflexivity. Qed.

Lemma emits_raise {A} (e : Exn) : emits P (raise (W := W) (A := A) e).
Proof. intros w tr. exists []. simpl. rewrite app_nil_r. split; reflexivity. Qed.

Lemma emits_lift {A} (r : Exn + A) : emits P (lift (W := W) r).
Proof. destruct r; [apply emits_raise | apply emits_ret]. Qed.

Lemma emits_first_item {A} (l : list A) : emits P (first_item (W := W) l).
Proof. unfold first_item. destruct (l !! 0%nat); [apply emits_ret | apply emits_raise]. Qed.

Lemma emits_call {X} (c : Call X) :
  (forall ok, P (Ev c ok) = true) -> emits P (call host c).
Proof.
  intros Hc w tr. unfold call. destruct (handle host c w) as [r w'].
  exists [Ev c (replied r)]. split; [reflexivity|]. cbn [forallb]. rewrite Hc. reflexivity.
Qed.

Lemma emits_tell (c : Call unit) :
  (forall ok, P (Ev c ok) = true) -> emits P (tell host c).
Proof.
  intros Hc w tr. unfold tell. destruct (handle host c w) as [r w'].
  exists [Ev c (replied r)]. split; [reflexivity|]. cbn [forallb]. rewrite Hc. reflexivity.
Qed.

Lemma emits_bind {A B} (m : M W A) (k : A -> M W B) :
  emits P m -> (forall a, emits P (k a)) -> emits P (bind m k).
Proof.
  intros Hm Hk w tr. unfold bind.
  destruct (Hm w tr) as (added1 & Ht1 & Hp1).
  destruct (m (w, tr)) as [[e | a] [w1 tr1]]; simpl in *.
  - exists added1. split; assumption.
  - subst tr1. destruct (Hk a w1 (tr ++ added1)) as (added2 & Ht2 & Hp2).
    exists (added1 ++ added2). rewrite Ht2, app_assoc, forallb_app, Hp1, Hp2.
    split; reflexivity.
Qed.

Lemma emits_with {A B} (enter : M W A) (leave : A -> M W unit) (body : A -> M W B) :
  emits P enter -> (forall a, emits P (leave a)) -> (forall a, emits P (body a)) ->
  emits P (with_ enter leave body).
Proof.
  intros He Hl Hb w tr. unfold with_.
  destruct (He w tr) as (added1 & Ht1 & Hp1).
  destruct (enter (w, tr)) as [[e | a] [w1 tr1]]; simpl in *.
  - exists added1. split; assumption.
  - subst tr1. destruct (Hb a w1 (tr ++ added1)) as (added2 & Ht2 & Hp2).
    destruct (body a (w1, tr ++ added1)) as [r [w2 tr2]]. simpl in *. subst tr2.
    destruct (Hl a w2 ((tr ++ added1) ++ added2)) as (added3 & Ht3 & Hp3).
    destruct (leave a (w2, (tr ++ added1) ++ added2)) as [[e | u] [w3 tr3]]; simpl in *;
      subst tr3.
    all: exists (added1 ++ added2 ++ added3).
    all: rewrite !app_assoc, !forallb_app, Hp1, Hp2, Hp3; split; reflexivity.
Qed.

End emit_rules.

Create HintDb calls.

(** Proof search for [emits]; what a branch has established about its
    condition stays at hand for the calls below it. *)
Ltac emit :=
  repeat lazymatch goal with
    | |- emits _ (bind _ _) => apply emits_bind; [|intros ?]
    | |- emits _ (ret _) => apply emits_ret
    | |- emits _ (raise _) => apply emits_raise
    | |- emits _ (lift _) => apply emits_lift
    | |- emits _ (first_item _) => apply emits_first_item
    | |- emits _ (call _ _) =>
        apply emits_call; intros ?; first [reflexivity | assumption]
    | |- emits _ (tell _ _) =>
        apply emits_tell; intros ?; first [reflexivity | assumption]
    | |- emits _ (with_ _ _ _) => apply emits_with; [|intros ?|intros ?]
    | |- emits _ (if ?b then _ else _) => destruct b eqn:?
    | |- emits _ (match ?x with _ => _ end) => destruct x eqn:?
    | |- emits _ _ => solve [eauto with calls]
    end.

Section floating_ip_calls.
Context {W : Type} (host : Host W).

Lemma get_project_calls (P : Event -> bool) (name_or_id : pystr) :
  (forall ok, P (Ev cloud_current_project ok) = true) ->
  (forall k ok, P (Ev (cloud_get_project k) ok) = true) ->
  emits P (floating_ip.get_project host name_or_id).
Proof.
  intros H1 H2. unfold floating_ip.get_project.
  repeat first [ apply emits_bind; [|intros ?] | apply emits_ret | apply emits_raise
               | apply emits_call; intros ?; first [apply H1 | apply H2]
               | match goal with
                 | |- emits _ (if ?b then _ else _) => destruct b
                 | |- emits _ (match ?x with _ => _ end) => destruct x
                 end ].
Qed.

Lemma get_network_calls (P : Event -> bool) (name_or_id project_id : pystr) :
  (forall k f ok, P (Ev (cloud_search_networks k f) ok) = true) ->
  emits P (floating_ip.get_network host name_or_id project_id).
Proof.
  intros H. unfold floating_ip.get_network.
  apply emits_bind; [apply emits_call; intros ?; apply H | intros networks].
  destruct (_ || _); [apply emits_raise | apply emits_first_item].
Qed.

Lemma allocate_calls (address network_name project_name : pystr) (state : string)
    (timeout : Z) (wait : bool) :
  emits allocation_call
    (floating_ip.allocate host address network_name project_name state timeout wait).
Proof.
  unfold floating_ip.allocate.
  apply emits_bind; [apply get_project_calls; reflexivity | intros project].
  apply emits_bind; [apply get_network_calls; reflexivity | intros network].
  emit.
Qed.

Lemma release_calls (address network_name project_name : pystr) (state : string)
    (timeout : Z) (wait : bool) :
  emits release_call
    (floating_ip.release host address network_name project_name state timeout wait).
Proof.
  unfold floating_ip.release.
  apply emits_bind; [apply get_project_calls; reflexivity | intros project].
  apply emits_bind; [apply get_network_calls; reflexivity | intros network].
  emit.
Qed.

End floating_ip_calls.

Section image_import_calls.
Context {W : Type} (host : Host W).

Lemma import_from_disk_calls (algorithm checksum format id name : pystr) (state : string)
    (timeout : Z) (path : pystr) (wait : bool) :
  emits import_call
    (image_import.import_from_disk host algorithm checksum format id name state timeout path
       wait).
Proof. unfold image_import.import_from_disk. emit. Qed.

Hint Resolve import_from_disk_calls : calls.

Lemma import_calls (algorithm checksum format id name : pystr) (state : string)
    (timeout : Z) (uri : pystr) (wait : bool) :
  emits import_call
    (image_import.import_ host algorithm checksum format id name state timeout uri wait).
Proof. unfold image_import.import_. emit. Qed.

Lemma delete_calls (algorithm checksum format id name : pystr) (state : string)
    (timeout : Z) (uri : pystr) (wait : bool) :
  emits removal_call
    (image_import.delete host algorithm checksum format id name state timeout uri wait).
Proof. unfold image_import.delete. emit. Qed.

End image_import_calls.

(** X12.  Each operation keeps to its own calls.  An allocation reads the
    current project and looks up projects, networks and floating IPs, and
    may create a floating IP, but never deletes one; a release may delete
    one but never creates one.  An image import never removes an image; an
    image removal does nothing but look the image up and remove it: it
    never fetches, touches the local disk or uploads. *)
Theorem operations_keep_to_their_calls :
  forall (W : Type) (host : Host W),
    (forall module : floating_ip.AnsibleModule,
        floating_ip.state (floating_ip.params module) = "present" ->
        emits allocation_call (floating_ip.core host module))
    /\ (forall module : floating_ip.AnsibleModule,
           floating_ip.state (floating_ip.params module) = "absent" ->
           emits release_call (floating_ip.core host module))
    /\ (forall module : image_import.AnsibleModule,
           image_import.state (image_import.params module) = "present" ->
           emits import_call (image_import.core host module))
    /\ (forall module : image_import.AnsibleModule,
           image_import.state (image_import.params module) = "absent" ->
           emits removal_call (image_import.core host module)).
Proof.
  intros W host. repeat split; intros module Hstate.
  - unfold floating_ip.core. rewrite Hstate. simpl bool_decide. cbv iota.
    destruct (floating_ip.check_mode module); [apply emits_ret|].
    apply emits_bind; [apply allocate_calls | intros o].
    destruct o as [[[[[? ?] ?] ?] ?] ?]. apply emits_ret.
  - unfold floating_ip.core. rewrite Hstate. simpl bool_decide. cbv iota.
    destruct (floating_ip.check_mode module); [apply emits_ret|].
    apply emits_bind; [apply release_calls | intros o].
    destruct o as [[[[[? ?] ?] ?] ?] ?]. apply emits_ret.
  - unfold image_import.core. rewrite Hstate. simpl bool_decide. cbv iota.
    apply emits_bind; [apply emits_lift | intros [algorithm checksum]].
    destruct (image_import.check_mode module); [apply emits_ret|].
    apply emits_bind; [apply import_calls | intros o].
    destruct o as [[[[? ?] ?] ?] ?]. apply emits_ret.
  - unfold image_import.core. rewrite Hstate. simpl bool_decide. cbv iota.
    apply emits_bind; [apply emits_lift | intros [algorithm checksum]].
    destruct (image_import.check_mode module); [apply emits_ret|].
    apply emits_bind; [apply delete_calls | intros o].
    destruct o as [[[[? ?] ?] ?] ?]. apply emits_ret.
Qed.

Lemma operations_keep_to_their_calls_witness :
  emits removal_call (image_import.core demo.host delete_debian).
Proof.
  exact (proj2 (proj2 (proj2 (operations_keep_to_their_calls demo.World demo.host)))
           delete_debian eq_refl).
Defined.

(** ** Keys and formats *)

Section emit_to_rules.
Context {W : Type} (host : Host W) (P : Event -> bool).

Lemma emits_to_ret {A} (Q : A -> Prop) (a : A) : Q a -> emits_to P Q (ret (W := W) a).
Proof.
  intros Ha w tr. exists []. simpl. rewrite app_nil_r.
  split; [reflexivity|]. split; [reflexivity|]. intros b [= <-]. exact Ha.
Qed.

Lemma emits_to_raise {A} (Q : A -> Prop) (e : Exn) : emits_to P Q (raise (W := W) e).
Proof.
  intros w tr. exists []. simpl. rewrite app_nil_r.
  split; [reflexivity|]. split; [reflexivity|]. discriminate.
Qed.

Lemma emits_to_bind {A B} (Q : B -> Prop) (m : M W A) (k : A -> M W B) :
  emits P m -> (forall a, emits_to P Q (k a)) -> emits_to P Q (bind m k).
Proof.
  intros Hm Hk w tr. unfold bind.
  destruct (Hm w tr) as (added1 & Ht1 & Hp1).
  destruct (m (w, tr)) as [[e | a] [w1 tr1]]; simpl in *.
  - exists added1. split; [exact Ht1|]. split; [exact Hp1 | discriminate].
  - subst tr1. destruct (Hk a w1 (tr ++ added1)) as (added2 & Ht2 & Hp2 & Hq).
    exists (added1 ++ added2). rewrite Ht2, app_assoc, forallb_app, Hp1, Hp2.
    split; [reflexivity|]. split; [reflexivity | exact Hq].
Qed.

Lemma emits_to_with {A B} (Q : B -> Prop) (enter : M W A) (leave : A -> M W unit)
    (body : A -> M W B) :
  emits P enter -> (forall a, emits P (leave a)) -> (forall a, emits_to P Q (body a)) ->
  emits_to P Q (with_ enter leave body).
Proof.
  intros He Hl Hb w tr. unfold with_.
  destruct (He w tr) as (added1 & Ht1 & Hp1).
  destruct (enter (w, tr)) as [[e | a] [w1 tr1]]; simpl in *.
  - exists added1. split; [exact Ht1|]. split; [exact Hp1 | discriminate].
  - subst tr1. destruct (Hb a w1 (tr ++ added1)) as (added2 & Ht2 & Hp2 & Hq).
    destruct (body a (w1, tr ++ added1)) as [r [w2 tr2]]. simpl in *. subst tr2.
    destruct (Hl a w2 ((tr ++ added1) ++ added2)) as (added3 & Ht3 & Hp3).
    destruct (leave a (w2, (tr ++ added1) ++ added2)) as [[e | u] [w3 tr3]]; simpl in *;
      subst tr3.
    all: exists (added1 ++ added2 ++ added3).
    all: rewrite !app_assoc, !forallb_app, Hp1, Hp2, Hp3.
    all: split; [reflexivity|]; split; [reflexivity|].
    + discriminate.
    + exact Hq.
Qed.

Lemma emits_after {A B} (Q : A -> Prop) (m : M W A) (k : A -> M W B) :
  emits_to P Q m -> (forall a, Q a -> emits P (k a)) -> emits P (bind m k).
Proof.
  intros Hm Hk w tr. unfold bind.
  destruct (Hm w tr) as (added1 & Ht1 & Hp1 & Hq).
  destruct (m (w, tr)) as [[e | a] [w1 tr1]]; simpl in *.
  - exists added1. split; assumption.
  - subst tr1. destruct (Hk a (Hq a eq_refl) w1 (tr ++ added1)) as (added2 & Ht2 & Hp2).
    exists (added1 ++ added2). rewrite Ht2, app_assoc, forallb_app, Hp1, Hp2.
    split; reflexivity.
Qed.

End emit_to_rules.

Section well_keyed_calls.
Context {W : Type} (host : Host W).

Lemma import_from_disk_well_keyed (algorithm checksum format id name : pystr)
    (state : string) (timeout : Z) (path : pystr) (wait : bool) :
  truthy format = true -> truthy (py_or id name) = true ->
  emits well_keyed
    (image_import.import_from_disk host algorithm checksum format id name state timeout path
       wait).
Proof. intros Hf Hk. unfold image_import.import_from_disk. emit. Qed.

Lemma py_or_truthy_r (id name : pystr) : truthy name = true -> truthy (py_or id name) = true.
Proof. intros H. unfold py_or. destruct (truthy id) eqn:E; [exact E | exact H]. Qed.

Lemma py_or_falsy (id name : pystr) : truthy (py_or id name) = false -> truthy id = false.
Proof. unfold py_or. destruct (truthy id) eqn:E; [rewrite E; discriminate | reflexivity]. Qed.

Lemma import_well_keyed (algorithm checksum format id name : pystr) (state : string)
    (timeout : Z) (uri : pystr) (wait : bool) :
  emits well_keyed
    (image_import.import_ host algorithm checksum format id name state timeout uri wait).
Proof.
  assert (Hlocal :
            emits well_keyed
              (let* (name0, name_or_id) :=
                 if negb (truthy (py_or id name)) then
                   let* name0 := lift (image_import.basename_of uri) in
                   if negb (truthy (Some name0)) then
                     raise (ValueError
                              "no image name given and image name could not be derived from uri")
                   else ret (Some name0, Some name0)
                 else ret (name, py_or id name) in
               let* image := call host (cloud_get_image name_or_id) in
               match image with
               | Some image =>
                   ret (false, img_id image, img_name image, img_size image,
                        img_disk_format image)
               | None =>
                   let* format0 := lift (image_import.default_format format name0) in
                   if negb (truthy format0) then
                     raise (ValueError
                              "no image format given and format could not be derived from uri")
                   else
                     let* (id0, size) :=
                       image_import.import_from_disk host algorithm checksum format0 id name0
                         state timeout uri wait in
                     ret (true, id0, name0, size, format0)
               end)).
  { apply (emits_after _ (fun p : pystr * pystr =>
                            truthy (snd p) = true /\ truthy (py_or id (fst p)) = true)).
    - destruct (negb (truthy (py_or id name))) eqn:Hk.
      + apply emits_to_bind; [apply emits_lift | intros nm].
        destruct (negb (truthy (Some nm))) eqn:Hn; [apply emits_to_raise|].
        apply negb_false_iff in Hn. apply emits_to_ret.
        split; [exact Hn | apply py_or_truthy_r; exact Hn].
      + apply negb_false_iff in Hk. apply emits_to_ret. split; exact Hk.
    - intros [name0 key] [Hkey Hfull]. simpl in Hkey, Hfull.
      apply emits_bind; [apply emits_call; intros ok; exact Hkey | intros image].
      destruct image; [apply emits_ret|].
      apply emits_bind; [apply emits_lift | intros fmt].
      destruct (negb (truthy fmt)) eqn:Hfmt; [apply emits_raise|].
      apply negb_false_iff in Hfmt.
      apply emits_bind; [apply import_from_disk_well_keyed; assumption | intros [i sz]].
      apply emits_ret. }
  unfold image_import.import_.
  destruct (image_import.uri_is_url host uri); [destruct uri as [u|]|];
    [|exact Hlocal | exact Hlocal].
  clear Hlocal.
  apply emits_with; [emit | intros dir; emit | intros dir].
  apply (emits_after _ (fun fetched : image_import.Outcome + string * pystr * pystr =>
                          match fetched with
                          | inl _ => True
                          | inr (_, name', fmt) =>
                              truthy fmt = true /\ truthy (py_or id name') = true
                          end)).
  - apply emits_to_with; [emit | intros r; emit | intros r].
    set (filename := if negb (truthy (if negb (truthy _) then _ else _)) then name else _).
    destruct (negb (truthy filename)) eqn:Hfile; [apply emits_to_raise|].
    apply negb_false_iff in Hfile.
    assert (Hname : truthy (if negb (truthy name) then filename else name) = true).
    { destruct (truthy name) eqn:E; [exact E | exact Hfile]. }
    apply emits_to_bind; [apply emits_lift | intros fmt].
    destruct (negb (truthy fmt)) eqn:Hfmt; [apply emits_to_raise|].
    apply negb_false_iff in Hfmt.
    pose proof (py_or_truthy_r id _ Hname) as Hkey.
    apply emits_to_bind; [apply emits_call; intros ok; exact Hkey | intros image].
    destruct image; [apply emits_to_ret; exact I|].
    apply emits_to_bind; [emit | intros _].
    apply emits_to_ret. split; assumption.
  - intros [result | [[local_image_path name'] fmt]]; [intros _; apply emits_ret|].
    intros [Hfmt Hkey].
    apply emits_bind; [apply import_from_disk_well_keyed; assumption | intros [i sz]].
    apply emits_ret.
Qed.

Lemma delete_well_keyed (algorithm checksum format id name : pystr) (state : string)
    (timeout : Z) (uri : pystr) (wait : bool) :
  emits well_keyed
    (image_import.delete host algorithm checksum format id name state timeout uri wait).
Proof.
  unfold image_import.delete.
  apply (emits_after _ (fun p : pystr * pystr => truthy (snd p) = true)).
  - destruct (negb (truthy (py_or id name))) eqn:Hk.
    + destruct (image_import.uri_is_url host uri); [apply emits_to_raise|].
      apply emits_to_bind; [apply emits_lift | intros nm].
      destruct (negb (truthy (Some nm))) eqn:Hn; [apply emits_to_raise|].
      apply negb_false_iff in Hn. apply emits_to_ret. exact Hn.
    + apply negb_false_iff in Hk. apply emits_to_ret. exact Hk.
  - intros [name0 key] Hkey. simpl in Hkey.
    apply emits_bind; [apply emits_call; intros ok; exact Hkey | intros image].
    destruct image; [|apply emits_ret].
    apply emits_bind; [apply emits_call; intros ok; exact Hkey | intros _].
    apply emits_ret.
Qed.

End well_keyed_calls.

(** X13.  Every image lookup and every image removal of the image module
    names its target by a non-empty key, and every upload states a
    non-empty disk format, whatever the parameters and the answers of the
    cloud are. *)
Theorem image_calls_name_their_target :
  forall (W : Type) (host : Host W) (module : image_import.AnsibleModule),
    emits well_keyed (image_import.core host module).
Proof.
  intros W host module. unfold image_import.core.
  apply emits_bind; [apply emits_lift | intros [algorithm checksum]].
  destruct (image_import.check_mode module); [apply emits_ret|].
  apply emits_bind.
  - destruct (bool_decide _); [apply import_well_keyed|].
    destruct (bool_decide _); [apply delete_well_keyed | apply emits_raise].
  - intros o. destruct o as [[[[? ?] ?] ?] ?]. apply emits_ret.
Qed.

(** ** The changed flag *)

Lemma committed_app (l1 l2 : list Event) : committed (l1 ++ l2) = committed l1 || committed l2.
Proof. apply existsb_app. Qed.

Lemma quiet_uncommitted (l : list Event) : forallb quiet l = true -> committed l = false.
Proof.
  induction l as [|e l IH]; [reflexivity|]. simpl. intros [He Hl]%andb_true_iff.
  unfold quiet in He. apply negb_true_iff in He. rewrite He. simpl. exact (IH Hl).
Qed.

Section report_rules.
Context {W : Type} (host : Host W).

Lemma reports_ret {A} (Q : A -> bool -> Prop) (a : A) : Q a false -> reports Q (ret (W := W) a).
Proof.
  intros Ha w tr. exists []. simpl. rewrite app_nil_r.
  split; [reflexivity|]. intros b [= <-]. exact Ha.
Qed.

Lemma reports_raise {A} (Q : A -> bool -> Prop) (e : Exn) : reports Q (raise (W := W) e).
Proof.
  intros w tr. exists []. simpl. rewrite app_nil_r. split; [reflexivity | discriminate].
Qed.

Lemma reports_after {A B} (Q0 : A -> Prop) (Q : B -> bool -> Prop) (m : M W A)
    (k : A -> M W B) :
  emits_to quiet Q0 m -> (forall a, Q0 a -> reports Q (k a)) -> reports Q (bind m k).
Proof.
  intros Hm Hk w tr. unfold bind.
  destruct (Hm w tr) as (added1 & Ht1 & Hp1 & Hq).
  destruct (m (w, tr)) as [[e | a] [w1 tr1]]; simpl in *.
  - exists added1. split; [exact Ht1 | discriminate].
  - subst tr1. destruct (Hk a (Hq a eq_refl) w1 (tr ++ added1)) as (added2 & Ht2 & Hr).
    exists (added1 ++ added2). rewrite Ht2, app_assoc. split; [reflexivity|].
    rewrite committed_app, (quiet_uncommitted _ Hp1). exact Hr.
Qed.

Lemma reports_bind {A B} (Q : B -> bool -> Prop) (m : M W A) (k : A -> M W B) :
  emits quiet m -> (forall a, reports Q (k a)) -> reports Q (bind m k).
Proof.
  intros Hm Hk. apply (reports_after (fun _ => True)); [|intros a _; apply Hk].
  intros w tr. destruct (Hm w tr) as (added & Ht & Hp). exists added. auto.
Qed.

Lemma reports_with {A B} (Q : B -> bool -> Prop) (enter : M W A) (leave : A -> M W unit)
    (body : A -> M W B) :
  emits quiet enter -> (forall a, emits quiet (leave a)) -> (forall a, reports Q (body a)) ->
  reports Q (with_ enter leave body).
Proof.
  intros He Hl Hb w tr. unfold with_.
  destruct (He w tr) as (added1 & Ht1 & Hp1).
  destruct (enter (w, tr)) as [[e | a] [w1 tr1]]; simpl in *.
  - exists added1. split; [exact Ht1 | discriminate].
  - subst tr1. destruct (Hb a w1 (tr ++ added1)) as (added2 & Ht2 & Hr).
    destruct (body a (w1, tr ++ added1)) as [r [w2 tr2]]. simpl in *. subst tr2.
    destruct (Hl a w2 ((tr ++ added1) ++ added2)) as (added3 & Ht3 & Hp3).
    destruct (leave a (w2, (tr ++ added1) ++ added2)) as [[e | u] [w3 tr3]]; simpl in *;
      subst tr3.
    all: exists (added1 ++ added2 ++ added3); rewrite !app_assoc; split; [reflexivity|].
    + discriminate.
    + rewrite !committed_app, (quiet_uncommitted _ Hp1), (quiet_uncommitted _ Hp3),
        orb_false_r.
      exact Hr.
Qed.

Lemma reports_then {A B} (Q1 : A -> bool -> Prop) (Q : B -> bool -> Prop) (m : M W A)
    (k : A -> M W B) :
  reports Q1 m -> (forall a c, Q1 a c -> emits_to quiet (fun b => Q b c) (k a)) ->
  reports Q (bind m k).
Proof.
  intros Hm Hk w tr. unfold bind.
  destruct (Hm w tr) as (added1 & Ht1 & Hr).
  destruct (m (w, tr)) as [[e | a] [w1 tr1]]; simpl in *.
  - exists added1. split; [exact Ht1 | discriminate].
  - subst tr1.
    destruct (Hk a _ (Hr a eq_refl) w1 (tr ++ added1)) as (added2 & Ht2 & Hp2 & Hq).
    exists (added1 ++ added2). rewrite Ht2, app_assoc. split; [reflexivity|].
    rewrite committed_app, (quiet_uncommitted _ Hp2), orb_false_r. exact Hq.
Qed.

Lemma reports_call {X B} (Q : B -> bool -> Prop) (c : Call X) (k : X -> M W B) :
  is_mutation (Ev c true) = true ->
  (forall x, emits_to quiet (fun b => Q b true) (k x)) ->
  reports Q (bind (call host c) k).
Proof.
  intros Hc Hk. apply (reports_then (fun _ b => b = true)).
  - intros w tr. unfold call. destruct (handle host c w) as [[x | err] w1]; simpl.
    + exists [Ev c true]. split; [reflexivity|]. intros _ _.
      change (committed [Ev c true]) with (is_mutation (Ev c true) && true || false).
      rewrite Hc. reflexivity.
    + exists [Ev c false]. split; [reflexivity | discriminate].
  - intros x b ->. apply Hk.
Qed.

End report_rules.

Ltac emit_to :=
  repeat lazymatch goal with
    | |- emits_to _ _ (bind _ _) => apply emits_to_bind; [emit | intros ?]
    | |- emits_to _ _ (ret _) => apply emits_to_ret; first [reflexivity | exact I | assumption]
    | |- emits_to _ _ (raise _) => apply emits_to_raise
    | |- emits_to _ _ (with_ _ _ _) => apply emits_to_with; [emit | intros ?; emit | intros ?]
    | |- emits_to _ _ (if ?b then _ else _) => destruct b eqn:?
    | |- emits_to _ _ (match ?x with _ => _ end) => destruct x eqn:?
    end.

Ltac report :=
  repeat lazymatch goal with
    | |- reports _ (ret _) => apply reports_ret; reflexivity
    | |- reports _ (raise _) => apply reports_raise
    | |- reports _ (bind (call _ _) _) =>
        first [ apply reports_call; [reflexivity | intros ?; emit_to]
              | apply reports_bind; [emit | intros ?] ]
    | |- reports _ (bind _ _) => apply reports_bind; [emit | intros ?]
    | |- reports _ (with_ _ _ _) => apply reports_with; [emit | intros ?; emit | intros ?]
    | |- reports _ (if ?b then _ else _) => destruct b eqn:?
    | |- reports _ (match ?x with _ => _ end) => destruct x eqn:?
    end.

Section changed_flag.
Context {W : Type} (host : Host W).

Lemma get_project_quiet (name_or_id : pystr) : emits quiet (floating_ip.get_project host name_or_id).
Proof. unfold floating_ip.get_project. emit. Qed.

Lemma get_network_quiet (name_or_id project_id : pystr) :
  emits quiet (floating_ip.get_network host name_or_id project_id).
Proof. unfold floating_ip.get_network. emit. Qed.

Hint Resolve get_project_quiet get_network_quiet : calls.

Lemma allocate_reports (floating_ip_address floating_network_name project_name : pystr)
    (state : string) (timeout : Z) (wait : bool) :
  reports (fun o b => floating_ip_changed o = b)
    (floating_ip.allocate host floating_ip_address floating_network_name project_name state
       timeout wait).
Proof. unfold floating_ip.allocate. report. Qed.

Lemma release_reports (floating_ip_address floating_network_name project_name : pystr)
    (state : string) (timeout : Z) (wait : bool) :
  reports (fun o b => floating_ip_changed o = b)
    (floating_ip.release host floating_ip_address floating_network_name project_name state
       timeout wait).
Proof. unfold floating_ip.release. report. Qed.

Lemma import_from_disk_reports (algorithm checksum format id name : pystr) (state : string)
    (timeout : Z) (path : pystr) (wait : bool) :
  reports (fun _ b => b = true)
    (image_import.import_from_disk host algorithm checksum format id name state timeout path
       wait).
Proof. unfold image_import.import_from_disk. report. Qed.

Lemma delete_reports (algorithm checksum format id name : pystr) (state : string)
    (timeout : Z) (uri : pystr) (wait : bool) :
  reports (fun o b => image_changed o = b)
    (image_import.delete host algorithm checksum format id name state timeout uri wait).
Proof. unfold image_import.delete. report. Qed.

Lemma import_reports (algorithm checksum format id name : pystr) (state : string)
    (timeout : Z) (uri : pystr) (wait : bool) :
  reports (fun o b => image_changed o = b)
    (image_import.import_ host algorithm checksum format id name state timeout uri wait).
Proof.
  assert (Hupload :
            forall fmt name' path (result : pystr -> option Z -> image_import.Outcome),
              (forall i sz, image_changed (result i sz) = true) ->
              reports (fun o b => image_changed o = b)
                (let* (i, sz) :=
                   image_import.import_from_disk host algorithm checksum fmt id name' state
                     timeout path wait in
                 ret (result i sz))).
  { intros fmt name' path result Hres.
    apply (reports_then (fun _ b => b = true)); [apply import_from_disk_reports|].
    intros [i sz] c ->. apply emits_to_ret. apply Hres. }
  unfold image_import.import_.
  destruct (image_import.uri_is_url host uri); [destruct uri as [u|]|].
  - apply reports_with; [emit | intros dir; emit | intros dir].
    apply (reports_after
             (fun fetched : image_import.Outcome + string * pystr * pystr =>
                match fetched with
                | inl result => image_changed result = false
                | inr _ => True
                end)).
    + emit_to.
    + intros [result | [[local_image_path name'] fmt]] Hres; [apply reports_ret; exact Hres|].
      apply (Hupload fmt name' (Some local_image_path)
               (fun i sz => (true, i, name', sz, fmt))).
      reflexivity.
  - apply reports_bind; [emit | intros [name0 key]].
    apply reports_bind; [emit | intros image].
    destruct image; [apply reports_ret; reflexivity|].
    apply reports_bind; [emit | intros fmt].
    destruct (negb (truthy fmt)); [apply reports_raise|].
    apply (Hupload fmt name0 None (fun i sz => (true, i, name0, sz, fmt))). reflexivity.
  - apply reports_bind; [emit | intros [name0 key]].
    apply reports_bind; [emit | intros image].
    destruct image; [apply reports_ret; reflexivity|].
    apply reports_bind; [emit | intros fmt].
    destruct (negb (truthy fmt)); [apply reports_raise|].
    apply (Hupload fmt name0 uri (fun i sz => (true, i, name0, sz, fmt))). reflexivity.
Qed.

Lemma floating_ip_core_reports (module : floating_ip.AnsibleModule) :
  reports changed_is (floating_ip.core host module).
Proof.
  unfold floating_ip.core.
  destruct (floating_ip.check_mode module); [apply reports_ret; reflexivity|].
  apply (reports_then (fun o b => floating_ip_changed o = b)).
  - destruct (bool_decide _); [apply allocate_reports|].
    destruct (bool_decide _); [apply release_reports | apply reports_raise].
  - intros [[[[[changed ?] ?] ?] ?] ?] c Hc. simpl in Hc. subst c.
    apply emits_to_ret. reflexivity.
Qed.

Lemma image_import_core_reports (module : image_import.AnsibleModule) :
  reports changed_is (image_import.core host module).
Proof.
  unfold image_import.core.
  apply reports_bind; [emit | intros [algorithm checksum]].
  destruct (image_import.check_mode module); [apply reports_ret; reflexivity|].
  apply (reports_then (fun o b => image_changed o = b)).
  - destruct (bool_decide _); [apply import_reports|].
    destruct (bool_decide _); [apply delete_reports | apply reports_raise].
  - intros [[[[changed ?] ?] ?] ?] c Hc. simpl in Hc. subst c.
    apply emits_to_ret. reflexivity.
Qed.

End changed_flag.

(** X14.  The [changed] entry of a result is truthful: a run of either
    module that returns reports [changed = true] exactly when a mutating
    call (create or delete of a floating IP or of an image) returned during
    that run, and [changed = false] exactly when none did. *)
Theorem changed_flag_is_truthful :
  forall (W : Type) (host : Host W),
    (forall (module : floating_ip.AnsibleModule) (w : W) (tr : list Event)
            (result : gmap string PyVal),
        fst (floating_ip.core host module (w, tr)) = inr result ->
        exists added,
          snd (snd (floating_ip.core host module (w, tr))) = tr ++ added
          /\ result !! "changed" = Some (VBool (committed added)))
    /\
    (forall (module : image_import.AnsibleModule) (w : W) (tr : list Event)
            (result : gmap string PyVal),
        fst (image_import.core host module (w, tr)) = inr result ->
        exists added,
          snd (snd (image_import.core host module (w, tr))) = tr ++ added
          /\ result !! "changed" = Some (VBool (committed added))).
Proof.
  intros W host. split; intros module w tr result Hrun.
  - destruct (floating_ip_core_reports host module w tr) as (added & Ht & Hr).
    exists added. split; [exact Ht | exact (Hr result Hrun)].
  - destruct (image_import_core_reports host module w tr) as (added & Ht & Hr).
    exists added. split; [exact Ht | exact (Hr result Hrun)].
Qed.

Lemma changed_flag_is_truthful_witness :
  exists result added,
    fst (image_import.core demo.host delete_debian (demo.world, [])) = inr result
    /\ snd (snd (image_import.core demo.host delete_debian (demo.world, []))) = [] ++ added
    /\ result !! "changed" = Some (VBool (committed added)).
Proof.
  pose (result := match fst (image_import.core demo.host delete_debian (demo.world, [])) with
                  | inr d => d
                  | inl _ => ∅
                  end).
  assert (Hrun : fst (image_import.core demo.host delete_debian (demo.world, [])) = inr result)
    by (vm_compute; reflexivity).
  destruct (proj2 (changed_flag_is_truthful demo.World demo.host) delete_debian demo.world []
              result Hrun) as (added & Ht & Hc).
  exists result, added. split; [exact Hrun | split; [exact Ht | exact Hc]].
Defined.

(** ** Temporary directory and response *)

Section download_resources.
Context {W : Type} (host : Host W).

Lemma image_import_core_releases (module : image_import.AnsibleModule) :
  logs host (fun log r =>
               follows (false, no_response) (map event_of log)
               = Some (left_behind (map event_of log))
               /\ (left_behind (map event_of log) <> (false, no_response) ->
                   exists err, r = inl (CollaboratorError err)))
    (image_import.core host module).
Proof.
  unfold image_import.core, image_import.import_, image_import.delete,
    image_import.import_from_disk.
  walk.
  all: split; [reflexivity|].
  all: intros Hleft;
    cbv [left_behind existsb map event_of cleanup_failed close_has_failed replied negb orb]
      in Hleft.
  all: try congruence.
  all: eexists; reflexivity.
Qed.

End download_resources.

(** X15.  The image module handles the resources of a download in a fixed
    order, however a run ends: the temporary directory is made before the
    response is opened; the download is written only while both exist; the
    response is closed before an image is uploaded and before the directory
    is removed.  When the run is over, the directory is left behind only if
    the call removing it failed and the response is left open only if the
    call closing it failed, and in both cases the run fails with the
    failure of a collaborator. *)
Theorem download_resources_are_released :
  forall (W : Type) (host : Host W) (module : image_import.AnsibleModule) (w : W)
         (tr : list Event),
  exists added,
    snd (snd (image_import.core host module (w, tr))) = tr ++ added
    /\ follows (false, no_response) added = Some (left_behind added)
    /\ (left_behind added <> (false, no_response) ->
        exists err, fst (image_import.core host module (w, tr))
                    = inl (CollaboratorError err)).
Proof.
  intros W host module w tr.
  destruct (image_import_core_releases host module w tr) as (log & Ht & _ & Hf & Hl).
  exists (map event_of log). split; [exact Ht|]. split; [exact Hf | exact Hl].
Qed.

Lemma download_resources_are_released_witness :
  exists added,
    snd (snd (image_import.core demo.host import_remote_fresh (demo.world, []))) = [] ++ added
    /\ follows (false, no_response) added = Some (left_behind added)
    /\ (left_behind added <> (false, no_response) ->
        exists err, fst (image_import.core demo.host import_remote_fresh (demo.world, []))
                    = inl (CollaboratorError err)).
Proof.
  exact (download_resources_are_released demo.World demo.host import_remote_fresh
           demo.world []).
Defined.
